(** * Online Ticket Reservation System: the booking ledger, verified

    A shallow embedding of the two [ReservationSystem] classes of the
    repository: the console program ("Online Train Booking.py") and the
    Flask program ([index.py]).  Python integers are [Z], Python strings
    are [string] (ASCII text), Python floats are the kernel's binary64
    floats, a [dict] is an association list in insertion order, and every
    method is a function from the instance to what the caller observes:
    the value returned or the exception raised, the lines printed, and the
    instance afterwards. *)

From Stdlib Require Import ZArith List String Ascii Bool Lia DecimalString.
From Stdlib Require Import Floats.PrimFloat Floats.SpecFloat Floats.FloatOps.
Import ListNotations.

Local Open Scope string_scope.
Local Open Scope Z_scope.

(* ================================================================== *)
(** * Part I: definitions *)
(* ================================================================== *)

(** ** Python values and built-in operations used by the source *)

Module Py.

(** Exceptions the built-ins used by the source can raise. *)
Inductive exn : Type :=
| ValueError
| OverflowError.

(** A number stored in a [float]-annotated field.  The console program
    seeds prices as float literals ([450.0]); the web program seeds them
    as int literals ([450]); dataclasses do not coerce. *)
Inductive num : Type :=
| Int (z : Z)
| Float (f : float).

(** A raw argument of the web methods: the route handlers pass the form
    fields as [str]; a direct caller may pass an [int]. *)
Inductive val : Type :=
| VInt (z : Z)
| VStr (s : string).

(** [float(n)] for an int [n]: correctly rounded (ties to even);
    [OverflowError] when the rounded value is not finite. *)
Definition float_of_int (n : Z) : exn + float :=
  match binary_normalize prec emax n 0 false with
  | S754_infinity _ => inl OverflowError
  | sf => inr (SF2Prim sf)
  end.

(** [n * p] with [n] an int: int arithmetic when [p] is an int; when [p]
    is a float, [n] is converted first and the product is IEEE. *)
Definition mul (n : Z) (p : num) : exn + num :=
  match p with
  | Int z => inr (Int (n * z))
  | Float f =>
      match float_of_int n with
      | inl e => inl e
      | inr nf => inr (Float (PrimFloat.mul nf f))
      end
  end.

(** The integer a float denotes, when it is finite and integral. *)
Definition float_integral (f : float) : option Z :=
  match Prim2SF f with
  | S754_zero _ => Some 0
  | S754_finite s m e =>
      let sign (z : Z) := if s then - z else z in
      if 0 <=? e then Some (sign (Z.pos m * 2 ^ e))
      else if Z.pos m mod 2 ^ (- e) =? 0
           then Some (sign (Z.pos m / 2 ^ (- e)))
           else None
  | _ => None
  end.

(** [a == b] on numbers: exact, also between an int and a float. *)
Definition num_eqb (a b : num) : bool :=
  match a, b with
  | Int x, Int y => x =? y
  | Float x, Float y => PrimFloat.eqb x y
  | Int x, Float f | Float f, Int x =>
      match float_integral f with
      | Some z => x =? z
      | None => false
      end
  end.

(** [str.lower()] on ASCII text: [A]..[Z] move to [a]..[z]; every other
    character is kept. *)
Definition is_upper (c : ascii) : bool :=
  let n := N_of_ascii c in ((65 <=? n) && (n <=? 90))%N.

Definition lower_char (c : ascii) : ascii :=
  if is_upper c then ascii_of_N (N_of_ascii c + 32) else c.

Fixpoint lower (s : string) : string :=
  match s with
  | EmptyString => EmptyString
  | String c r => String (lower_char c) (lower r)
  end.

(** The interpreter's cap on the decimal digits of an int that is
    converted to or from text ([sys.int_max_str_digits], 4300 by
    default). *)
Definition int_max_str_digits : Z := 4300.

(** The least int with more digits than the cap: [10 ** 4300]. *)
Definition str_limit : Z := 10 ^ int_max_str_digits.

(** The decimal digits of an int, with its sign. *)
Definition decimal (n : Z) : string :=
  NilZero.string_of_int (Z.to_int n).

(** [f"{n}"] for an int: [ValueError] when [n] has more digits than the
    cap. *)
Definition str_of_int (n : Z) : exn + string :=
  if str_limit <=? Z.abs n then inl ValueError else inr (decimal n).

(** [str.isspace] on ASCII text, which is what [str.strip()] removes:
    tab to carriage return, the four separators 28..31, and the blank. *)
Definition is_space (c : ascii) : bool :=
  let n := N_of_ascii c in
  (((9 <=? n) && (n <=? 13)) || ((28 <=? n) && (n <=? 32)))%N.

(** The blanks [int()] skips around a number in ASCII text: tab to
    carriage return and the blank, not the separators 28..31. *)
Definition is_int_space (c : ascii) : bool :=
  let n := N_of_ascii c in
  (((9 <=? n) && (n <=? 13)) || (n =? 32))%N.

Definition digit_of (c : ascii) : option Z :=
  let n := N_of_ascii c in
  if ((48 <=? n) && (n <=? 57))%N then Some (Z.of_N n - 48) else None.

(** [s.strip()] on ASCII text. *)
Fixpoint lstrip (s : string) : string :=
  match s with
  | String c r => if is_space c then lstrip r else s
  | EmptyString => EmptyString
  end.

Fixpoint rstrip (s : string) : string :=
  match s with
  | EmptyString => EmptyString
  | String c r =>
      match rstrip r with
      | EmptyString => if is_space c then EmptyString else String c EmptyString
      | r' => String c r'
      end
  end.

Definition strip (s : string) : string := rstrip (lstrip s).

(** [int(s)] for a [str] of ASCII text: blanks around the number are
    skipped, one sign is allowed, then decimal digits, single underscores
    allowed between digits; [ValueError] for anything else, and for more
    digits than the cap.  (Non-ASCII digits and blanks are outside this
    model.) *)
Fixpoint skip_blanks (s : string) : string :=
  match s with
  | String c r => if is_int_space c then skip_blanks r else s
  | EmptyString => EmptyString
  end.

Fixpoint only_blanks (s : string) : bool :=
  match s with
  | String c r => is_int_space c && only_blanks r
  | EmptyString => true
  end.

(** [digits acc after_digit s]: [after_digit] tells whether the
    previous character was a digit (an underscore needs one on each
    side; trailing blanks may only follow a digit). *)
Fixpoint digits (acc : Z) (after_digit : bool) (s : string) : option Z :=
  match s with
  | EmptyString => if after_digit then Some acc else None
  | String c r =>
      match digit_of c with
      | Some d => digits (10 * acc + d) true r
      | None =>
          if after_digit then
            if Ascii.eqb c "_" then
              match r with
              | String c' _ =>
                  match digit_of c' with
                  | Some _ => digits acc false r
                  | None => None
                  end
              | EmptyString => None
              end
            else if only_blanks s then Some acc else None
          else None
      end
  end.

Fixpoint count_digits (s : string) : Z :=
  match s with
  | EmptyString => 0
  | String c r =>
      match digit_of c with
      | Some _ => 1 + count_digits r
      | None => count_digits r
      end
  end.

Definition signed_digits (s : string) : option Z :=
  match s with
  | String c r =>
      if Ascii.eqb c "-" then option_map Z.opp (digits 0 false r)
      else if Ascii.eqb c "+" then digits 0 false r
      else digits 0 false s
  | EmptyString => None
  end.

Definition int_of_str (s : string) : exn + Z :=
  match signed_digits (skip_blanks s) with
  | Some z =>
      if int_max_str_digits <? count_digits s then inl ValueError else inr z
  | None => inl ValueError
  end.

(** [int(v)]. *)
Definition int (v : val) : exn + Z :=
  match v with
  | VInt z => inr z
  | VStr s => int_of_str s
  end.

End Py.

Arguments Py.str_limit : simpl never.

(** ** [dict] with int keys: entries in insertion order *)

Module Dict.

Definition t (V : Type) : Type := list (Z * V).

Definition empty {V : Type} : t V := [].

(** [d.get(k)] *)
Fixpoint get {V : Type} (k : Z) (d : t V) : option V :=
  match d with
  | [] => None
  | (k', v) :: r => if k =? k' then Some v else get k r
  end.

(** [d[k] = v]: an existing key keeps its position, a new key goes to
    the end. *)
Fixpoint set {V : Type} (k : Z) (v : V) (d : t V) : t V :=
  match d with
  | [] => [(k, v)]
  | (k', v') :: r => if k =? k' then (k, v) :: r else (k', v') :: set k v r
  end.

(** [d.keys()], [d.values()] *)
Definition keys {V : Type} (d : t V) : list Z := map fst d.
Definition values {V : Type} (d : t V) : list V := map snd d.

Definition map_values {V W : Type} (g : V -> W) (d : t V) : t W :=
  map (fun kv => (fst kv, g (snd kv))) d.

End Dict.

(** ** Data models (the two files declare the same dataclasses) *)

Module Trip.
Record t : Type := mk {
  trip_id : Z;
  source : string;
  destination : string;
  date : string;
  time : string;
  total_seats : Z;
  seats_available : Z;
  price_per_seat : Py.num
}.

Definition with_seats_available (a : Z) (x : t) : t :=
  mk (trip_id x) (source x) (destination x) (date x) (time x)
     (total_seats x) a (price_per_seat x).
End Trip.

Module Booking.
Record t : Type := mk {
  booking_id : Z;
  passenger_name : string;
  passenger_age : Z;
  trip_id : Z;
  num_seats : Z;
  total_fare : Py.num;
  status : string
}.

Definition with_status (st : string) (x : t) : t :=
  mk (booking_id x) (passenger_name x) (passenger_age x) (trip_id x)
     (num_seats x) (total_fare x) st.
End Booking.

(** The instance fields of [ReservationSystem] (the same in both files). *)
Record ReservationSystem : Type := mkSystem {
  trips : Dict.t Trip.t;
  bookings : Dict.t Booking.t;
  next_trip_id : Z;
  next_booking_id : Z
}.

Definition set_trips (d : Dict.t Trip.t) (self : ReservationSystem) :=
  mkSystem d (bookings self) (next_trip_id self) (next_booking_id self).
Definition set_bookings (d : Dict.t Booking.t) (self : ReservationSystem) :=
  mkSystem (trips self) d (next_trip_id self) (next_booking_id self).
Definition set_next_trip_id (n : Z) (self : ReservationSystem) :=
  mkSystem (trips self) (bookings self) n (next_booking_id self).
Definition set_next_booking_id (n : Z) (self : ReservationSystem) :=
  mkSystem (trips self) (bookings self) (next_trip_id self) n.

(** What a method call does, as its caller sees it. *)
Inductive outcome (A : Type) : Type :=
| Return (a : A)
| Raise (e : Py.exn).
Arguments Return {A} a.
Arguments Raise {A} e.

Record run (A : Type) : Type := mkRun {
  result : outcome A;              (* value returned, or exception raised *)
  stdout : list string;            (* lines printed, in order *)
  after : ReservationSystem        (* the instance when the call ends *)
}.
Arguments mkRun {A} _ _ _.
Arguments result {A} _.
Arguments stdout {A} _.
Arguments after {A} _.

Definition CONFIRMED : string := "CONFIRMED".
Definition CANCELLED : string := "CANCELLED".

(** A call of one of the four operations both classes have, with int
    arguments, and what it answers. *)
Inductive call : Type :=
| ListTrips
| BookTicket (name : string) (age trip_id seats : Z)
| CancelBooking (booking_id : Z)
| ListBookings.

Inductive response : Type :=
| Trips (l : list Trip.t)
| Booked (b : option Booking.t)
| Cancelled (ok : bool)
| Bookings (l : list Booking.t)
| Raised (e : Py.exn).

Definition answer {A : Type} (wrap : A -> response) (r : run A)
    : response * ReservationSystem :=
  match result r with
  | Return a => (wrap a, after r)
  | Raise e => (Raised e, after r)
  end.

(** ** The console program: class [ReservationSystem] of
    "Online Train Booking.py" *)

Module Console.

(** [_add_trip]: the new trip takes [next_trip_id]; all seats are free. *)
Definition _add_trip (self : ReservationSystem)
    (source destination date time : string) (total_seats : Z)
    (price_per_seat : Py.num) : Trip.t * ReservationSystem :=
  let trip :=
    Trip.mk (next_trip_id self) source destination date time
            total_seats total_seats price_per_seat in
  let self1 := set_trips (Dict.set (Trip.trip_id trip) trip (trips self)) self in
  (trip, set_next_trip_id (next_trip_id self1 + 1) self1).

Definition _load_sample_data (self : ReservationSystem) : ReservationSystem :=
  let self := snd (_add_trip self "Bhopal" "Indore" "2025-12-10" "09:00" 40 (Py.Float 450.0)) in
  let self := snd (_add_trip self "Bhopal" "Indore" "2025-12-10" "18:00" 40 (Py.Float 500.0)) in
  let self := snd (_add_trip self "Bhopal" "Delhi" "2025-12-11" "20:00" 50 (Py.Float 1200.0)) in
  let self := snd (_add_trip self "Indore" "Bhopal" "2025-12-11" "07:30" 40 (Py.Float 450.0)) in
  let self := snd (_add_trip self "Bhopal" "Mumbai" "2025-12-12" "21:00" 50 (Py.Float 1800.0)) in
  self.

(** [ReservationSystem()]: the seeded instance. *)
Definition __init__ : ReservationSystem :=
  _load_sample_data (mkSystem Dict.empty Dict.empty 1 1).

Definition list_all_trips (self : ReservationSystem) : list Trip.t :=
  Dict.values (trips self).

(** The test of the loop body of [search_trips]. *)
Definition search_match (source destination date : string) (trip : Trip.t) : bool :=
  String.eqb (Py.lower (Trip.source trip)) (Py.lower source)
  && String.eqb (Py.lower (Trip.destination trip)) (Py.lower destination)
  && String.eqb (Trip.date trip) date.

(** [search_trips]: the loop appends every matching trip to [result]. *)
Definition search_trips (self : ReservationSystem)
    (source destination date : string) : list Trip.t :=
  fold_left
    (fun result trip =>
       if search_match source destination date trip
       then (result ++ [trip])%list
       else result)
    (Dict.values (trips self)) [].

(** [book_ticket]: the refusal for too few free seats builds its line
    with an f-string, which raises when one of the two numbers has more
    digits than the interpreter formats. *)
Definition book_ticket (self : ReservationSystem) (passenger_name : string)
    (passenger_age trip_id num_seats : Z) : run (option Booking.t) :=
  match Dict.get trip_id (trips self) with
  | None => mkRun (Return None) ["Invalid trip ID."] self
  | Some trip =>
      if num_seats <=? 0 then
        mkRun (Return None) ["Number of seats must be at least 1."] self
      else if Trip.seats_available trip <? num_seats then
        match Py.str_of_int (Trip.seats_available trip),
              Py.str_of_int num_seats with
        | inr available, inr requested =>
            mkRun (Return None)
                  ["Only " ++ available
                   ++ " seats available on this trip. Requested: "
                   ++ requested]
                  self
        | inl e, _ => mkRun (Raise e) [] self
        | _, inl e => mkRun (Raise e) [] self
        end
      else
        match Py.mul num_seats (Trip.price_per_seat trip) with
        | inl e => mkRun (Raise e) [] self
        | inr total_fare =>
            let booking :=
              Booking.mk (next_booking_id self) passenger_name passenger_age
                         trip_id num_seats total_fare CONFIRMED in
            let self1 :=
              set_bookings
                (Dict.set (Booking.booking_id booking) booking (bookings self))
                self in
            let self2 := set_next_booking_id (next_booking_id self1 + 1) self1 in
            let self3 :=
              set_trips
                (Dict.set trip_id
                   (Trip.with_seats_available
                      (Trip.seats_available trip - num_seats) trip)
                   (trips self2))
                self2 in
            mkRun (Return (Some booking)) [] self3
        end
  end.

Definition get_booking (self : ReservationSystem) (booking_id : Z)
    : option Booking.t :=
  Dict.get booking_id (bookings self).

(** [cancel_booking]: a dataclass instance is always truthy, so [if trip:]
    tests only that the lookup found one. *)
Definition cancel_booking (self : ReservationSystem) (booking_id : Z) : run bool :=
  match Dict.get booking_id (bookings self) with
  | None => mkRun (Return false) ["Invalid booking ID."] self
  | Some booking =>
      if String.eqb (Booking.status booking) CANCELLED then
        mkRun (Return false) ["Booking is already cancelled."] self
      else
        let self1 :=
          match Dict.get (Booking.trip_id booking) (trips self) with
          | Some trip =>
              set_trips
                (Dict.set (Booking.trip_id booking)
                   (Trip.with_seats_available
                      (Trip.seats_available trip + Booking.num_seats booking) trip)
                   (trips self))
                self
          | None => self
          end in
        let self2 :=
          set_bookings
            (Dict.set booking_id (Booking.with_status CANCELLED booking)
                      (bookings self1))
            self1 in
        mkRun (Return true) [] self2
  end.

Definition list_all_bookings (self : ReservationSystem) : list Booking.t :=
  Dict.values (bookings self).

(** Choice 3 of [main_menu], from the typed lines to the call of
    [book_ticket]: each [int(...)] sits in a [try] whose [except
    ValueError] prints and goes back to the menu.  (Prompts and the ticket
    display are left out.) *)
Definition menu_book_ticket (system : ReservationSystem)
    (name age trip_id num_seats : string) : run (option Booking.t) :=
  let name := Py.strip name in
  match Py.int_of_str (Py.strip age) with
  | inl _ => mkRun (Return None) ["Invalid age."] system
  | inr age =>
      match Py.int_of_str (Py.strip trip_id), Py.int_of_str (Py.strip num_seats) with
      | inr trip_id, inr num_seats =>
          book_ticket system name age trip_id num_seats
      | _, _ =>
          mkRun (Return None)
                ["Trip ID and number of seats must be integers."] system
      end
  end.

(** Choice 5 of [main_menu], likewise. *)
Definition menu_cancel_booking (system : ReservationSystem)
    (booking_id : string) : run bool :=
  match Py.int_of_str (Py.strip booking_id) with
  | inl _ => mkRun (Return false) ["Booking ID must be an integer."] system
  | inr booking_id => cancel_booking system booking_id
  end.

(** One call, and a sequence of calls one after the other.  (An
    exception is recorded as the answer and the instance is kept as the
    call left it.) *)
Definition perform (self : ReservationSystem) (c : call)
    : response * ReservationSystem :=
  match c with
  | ListTrips => (Trips (list_all_trips self), self)
  | BookTicket name age trip_id seats =>
      answer Booked (book_ticket self name age trip_id seats)
  | CancelBooking booking_id => answer Cancelled (cancel_booking self booking_id)
  | ListBookings => (Bookings (list_all_bookings self), self)
  end.

Fixpoint run_calls (self : ReservationSystem) (cs : list call)
    : list response * ReservationSystem :=
  match cs with
  | [] => ([], self)
  | c :: rest =>
      let (a, self1) := perform self c in
      let (l, self2) := run_calls self1 rest in
      (a :: l, self2)
  end.

End Console.

(** ** The web program: class [ReservationSystem] of [index.py] *)

Module Web.

Definition _add_trip (self : ReservationSystem)
    (source destination date time : string) (seats : Z) (price : Py.num)
    : ReservationSystem :=
  let trip :=
    Trip.mk (next_trip_id self) source destination date time seats seats price in
  let self1 := set_trips (Dict.set (Trip.trip_id trip) trip (trips self)) self in
  set_next_trip_id (next_trip_id self1 + 1) self1.

Definition _load_sample_data (self : ReservationSystem) : ReservationSystem :=
  let self := _add_trip self "Bhopal" "Indore" "2025-12-10" "09:00" 40 (Py.Int 450) in
  let self := _add_trip self "Bhopal" "Indore" "2025-12-10" "18:00" 40 (Py.Int 500) in
  let self := _add_trip self "Bhopal" "Delhi" "2025-12-11" "20:00" 50 (Py.Int 1200) in
  let self := _add_trip self "Indore" "Bhopal" "2025-12-11" "07:30" 40 (Py.Int 450) in
  let self := _add_trip self "Bhopal" "Mumbai" "2025-12-12" "21:00" 50 (Py.Int 1800) in
  self.

Definition __init__ : ReservationSystem :=
  _load_sample_data (mkSystem Dict.empty Dict.empty 1 1).

Definition list_all_trips (self : ReservationSystem) : list Trip.t :=
  Dict.values (trips self).

(** [book_ticket]: the arguments arrive raw and are converted with [int]
    where the source converts them: [trip_id] before the lookup, [seats]
    after it, [age] while the [Booking] is built. *)
Definition book_ticket (self : ReservationSystem) (name : string)
    (age trip_id seats : Py.val) : run (option Booking.t) :=
  match Py.int trip_id with
  | inl e => mkRun (Raise e) [] self
  | inr key =>
      match Dict.get key (trips self) with
      | None => mkRun (Return None) [] self
      | Some trip =>
          match Py.int seats with
          | inl e => mkRun (Raise e) [] self
          | inr seats =>
              if (seats <=? 0) || (Trip.seats_available trip <? seats) then
                mkRun (Return None) [] self
              else
                match Py.mul seats (Trip.price_per_seat trip) with
                | inl e => mkRun (Raise e) [] self
                | inr fare =>
                    match Py.int age with
                    | inl e => mkRun (Raise e) [] self
                    | inr passenger_age =>
                        let booking :=
                          Booking.mk (next_booking_id self) name passenger_age
                                     (Trip.trip_id trip) seats fare CONFIRMED in
                        let self1 :=
                          set_bookings
                            (Dict.set (Booking.booking_id booking) booking
                                      (bookings self))
                            self in
                        let self2 :=
                          set_next_booking_id (next_booking_id self1 + 1) self1 in
                        let self3 :=
                          set_trips
                            (Dict.set key
                               (Trip.with_seats_available
                                  (Trip.seats_available trip - seats) trip)
                               (trips self2))
                            self2 in
                        mkRun (Return (Some booking)) [] self3
                    end
                end
          end
      end
  end.

Definition list_all_bookings (self : ReservationSystem) : list Booking.t :=
  Dict.values (bookings self).

(** [cancel_booking]: [not booking] holds only when the lookup found
    nothing. *)
Definition cancel_booking (self : ReservationSystem) (booking_id : Py.val)
    : run bool :=
  match Py.int booking_id with
  | inl e => mkRun (Raise e) [] self
  | inr key =>
      match Dict.get key (bookings self) with
      | None => mkRun (Return false) [] self
      | Some booking =>
          if String.eqb (Booking.status booking) CANCELLED then
            mkRun (Return false) [] self
          else
            let self1 :=
              match Dict.get (Booking.trip_id booking) (trips self) with
              | Some trip =>
                  set_trips
                    (Dict.set (Booking.trip_id booking)
                       (Trip.with_seats_available
                          (Trip.seats_available trip + Booking.num_seats booking)
                          trip)
                       (trips self))
                    self
              | None => self
              end in
            let self2 :=
              set_bookings
                (Dict.set key (Booking.with_status CANCELLED booking)
                          (bookings self1))
                self1 in
            mkRun (Return true) [] self2
      end
  end.

(** The [/book] and [/cancel] handlers on a POST: the form fields go to
    the class as they arrive. *)
Definition book (self : ReservationSystem) (name age trip_id seats : string)
    : run (option Booking.t) :=
  book_ticket self name (Py.VStr age) (Py.VStr trip_id) (Py.VStr seats).

Definition cancel (self : ReservationSystem) (booking_id : string) : run bool :=
  cancel_booking self (Py.VStr booking_id).

Definition perform (self : ReservationSystem) (c : call)
    : response * ReservationSystem :=
  match c with
  | ListTrips => (Trips (list_all_trips self), self)
  | BookTicket name age trip_id seats =>
      answer Booked
        (book_ticket self name (Py.VInt age) (Py.VInt trip_id) (Py.VInt seats))
  | CancelBooking booking_id =>
      answer Cancelled (cancel_booking self (Py.VInt booking_id))
  | ListBookings => (Bookings (list_all_bookings self), self)
  end.

Fixpoint run_calls (self : ReservationSystem) (cs : list call)
    : list response * ReservationSystem :=
  match cs with
  | [] => ([], self)
  | c :: rest =>
      let (a, self1) := perform self c in
      let (l, self2) := run_calls self1 rest in
      (a :: l, self2)
  end.

End Web.

(** ** Vocabulary of the properties *)

(** [sum(b.num_seats for b in bookings if b.trip_id == tid and
    b.status == "CONFIRMED")] *)
Definition confirmed_in (l : list Booking.t) (tid : Z) : Z :=
  fold_right Z.add 0
    (map Booking.num_seats
       (filter
          (fun b => (Booking.trip_id b =? tid)
                    && String.eqb (Booking.status b) CONFIRMED)
          l)).

Definition confirmed_seats (self : ReservationSystem) (tid : Z) : Z :=
  confirmed_in (Dict.values (bookings self)) tid.

Definition seat_conservation (self : ReservationSystem) : Prop :=
  forall t, In t (Dict.values (trips self)) ->
    Trip.seats_available t + confirmed_seats self (Trip.trip_id t)
    = Trip.total_seats t.

(** Two characters are the same letter up to case: they are equal, or one
    is a capital [A]..[Z] and the other is its small letter. *)
Definition same_letter (a b : ascii) : bool :=
  let x := N_of_ascii a in
  let y := N_of_ascii b in
  ((x =? y)
   || ((65 <=? x) && (x <=? 90) && (y =? x + 32))
   || ((65 <=? y) && (y <=? 90) && (x =? y + 32)))%N.

(** Two strings are equal ignoring letter case: same length, and the same
    letter up to case at every position. *)
Fixpoint eq_ignore_case (s1 s2 : string) : bool :=
  match s1, s2 with
  | EmptyString, EmptyString => true
  | String a r1, String b r2 => same_letter a b && eq_ignore_case r1 r2
  | _, _ => false
  end.

(** What the search is said to select. *)
Definition search_selects (source destination date : string) (t : Trip.t) : bool :=
  eq_ignore_case (Trip.source t) source
  && eq_ignore_case (Trip.destination t) destination
  && String.eqb (Trip.date t) date.

(** The same record in the two programs: field by field, with Python's
    [==] on each field, so that a float price and an int price of the
    same value agree.  (Each program has its own [Trip] and [Booking]
    class, and Python's [==] between an object of one and an object of
    the other is [False] whatever the fields hold.)  Likewise on lists and
    on the answers of the calls. *)
Definition trip_eqb (a b : Trip.t) : bool :=
  (Trip.trip_id a =? Trip.trip_id b)
  && String.eqb (Trip.source a) (Trip.source b)
  && String.eqb (Trip.destination a) (Trip.destination b)
  && String.eqb (Trip.date a) (Trip.date b)
  && String.eqb (Trip.time a) (Trip.time b)
  && (Trip.total_seats a =? Trip.total_seats b)
  && (Trip.seats_available a =? Trip.seats_available b)
  && Py.num_eqb (Trip.price_per_seat a) (Trip.price_per_seat b).

Definition booking_eqb (a b : Booking.t) : bool :=
  (Booking.booking_id a =? Booking.booking_id b)
  && String.eqb (Booking.passenger_name a) (Booking.passenger_name b)
  && (Booking.passenger_age a =? Booking.passenger_age b)
  && (Booking.trip_id a =? Booking.trip_id b)
  && (Booking.num_seats a =? Booking.num_seats b)
  && Py.num_eqb (Booking.total_fare a) (Booking.total_fare b)
  && String.eqb (Booking.status a) (Booking.status b).

Fixpoint list_eqb {A : Type} (eqb : A -> A -> bool) (l1 l2 : list A) : bool :=
  match l1, l2 with
  | [], [] => true
  | a :: r1, b :: r2 => eqb a b && list_eqb eqb r1 r2
  | _, _ => false
  end.

Definition entry_eqb {V : Type} (eqb : V -> V -> bool) (a b : Z * V) : bool :=
  (fst a =? fst b) && eqb (snd a) (snd b).

Definition response_eqb (a b : response) : bool :=
  match a, b with
  | Trips l1, Trips l2 => list_eqb trip_eqb l1 l2
  | Booked None, Booked None => true
  | Booked (Some b1), Booked (Some b2) => booking_eqb b1 b2
  | Cancelled x, Cancelled y => Bool.eqb x y
  | Bookings l1, Bookings l2 => list_eqb booking_eqb l1 l2
  | _, _ => false
  end.

(** The same ledger: the same entries in the same order, the same
    counters. *)
Definition system_eqb (a b : ReservationSystem) : bool :=
  list_eqb (entry_eqb trip_eqb) (trips a) (trips b)
  && list_eqb (entry_eqb booking_eqb) (bookings a) (bookings b)
  && (next_trip_id a =? next_trip_id b)
  && (next_booking_id a =? next_booking_id b).

(** ** Invariants of the ledger *)

(** What every instance built by the class satisfies: keys are the ids,
    bookings carry ids below the counter, a positive seat count, one of
    the two statuses and the id of a trip of the catalog, and seats are
    conserved. *)
Record ledger_inv (self : ReservationSystem) : Prop := {
  inv_trip_keys : NoDup (Dict.keys (trips self));
  inv_trip_ids : forall k t, In (k, t) (trips self) -> Trip.trip_id t = k;
  inv_booking_keys : NoDup (Dict.keys (bookings self));
  inv_booking_fresh :
    forall k b, In (k, b) (bookings self) -> k < next_booking_id self;
  inv_booking_seats :
    forall k b, In (k, b) (bookings self) -> 0 < Booking.num_seats b;
  inv_booking_status :
    forall k b, In (k, b) (bookings self) ->
      Booking.status b = CONFIRMED \/ Booking.status b = CANCELLED;
  inv_booking_trip :
    forall k b, In (k, b) (bookings self) ->
      In (Booking.trip_id b) (Dict.keys (trips self));
  inv_conservation : seat_conservation self
}.

(** The catalog of an instance apart from the free-seat counts. *)
Definition catalog (self : ReservationSystem) : Dict.t Trip.t :=
  Dict.map_values (Trip.with_seats_available 0) (trips self).

(** A float price or fare read as the int it denotes. *)
Definition num_as_int (p : Py.num) : Py.num :=
  match p with
  | Py.Int _ => p
  | Py.Float f =>
      match Py.float_integral f with
      | Some z => Py.Int z
      | None => p
      end
  end.

Definition trip_as_int (x : Trip.t) : Trip.t :=
  Trip.mk (Trip.trip_id x) (Trip.source x) (Trip.destination x) (Trip.date x)
          (Trip.time x) (Trip.total_seats x) (Trip.seats_available x)
          (num_as_int (Trip.price_per_seat x)).

Definition booking_as_int (x : Booking.t) : Booking.t :=
  Booking.mk (Booking.booking_id x) (Booking.passenger_name x)
             (Booking.passenger_age x) (Booking.trip_id x)
             (Booking.num_seats x) (num_as_int (Booking.total_fare x))
             (Booking.status x).

Definition system_as_int (self : ReservationSystem) : ReservationSystem :=
  mkSystem (Dict.map_values trip_as_int (trips self))
           (Dict.map_values booking_as_int (bookings self))
           (next_trip_id self) (next_booking_id self).

Definition response_as_int (a : response) : response :=
  match a with
  | Trips l => Trips (map trip_as_int l)
  | Booked b => Booked (option_map booking_as_int b)
  | Bookings l => Bookings (map booking_as_int l)
  | other => other
  end.

(** Every price and fare is finite and integral. *)
Definition integral (p : Py.num) : bool :=
  match p with
  | Py.Int _ => true
  | Py.Float f =>
      match Py.float_integral f with
      | Some _ => true
      | None => false
      end
  end.

(** The fare of [n] seats at price [p] exists, is integral, and is the
    fare computed from the price read as an int. *)
Definition fare_agrees (p : Py.num) (n : Z) : bool :=
  match Py.mul n p, Py.mul n (num_as_int p) with
  | inr g, inr (Py.Int h) =>
      match num_as_int g with
      | Py.Int z => z =? h
      | Py.Float _ => false
      end
  | _, _ => false
  end.

(** What every instance of the seeded console program satisfies beyond
    [ledger_inv]: the catalog is the seeded one, and fares are integral. *)
Record seeded_inv (self : ReservationSystem) : Prop := {
  seeded_ledger : ledger_inv self;
  seeded_catalog : catalog self = catalog Console.__init__;
  seeded_fares :
    forall k b, In (k, b) (bookings self) ->
      integral (Booking.total_fare b) = true
}.

(** A call of [book_ticket] for [n] seats of trip [tid] returned a
    booking of [n] seats and left the trip without a free seat. *)
Definition takes_last_seats (r : run (option Booking.t)) (tid n : Z) : Prop :=
  exists b,
    result r = Return (Some b)
    /\ Booking.num_seats b = n
    /\ option_map Trip.seats_available (Dict.get tid (trips (after r))) = Some 0.

(** A successful booking of [n] seats on the trip stored under [key]:
    how the returned booking [b] and the instance afterwards relate to the
    instance before. *)
Record booked (self : ReservationSystem) (key : Z) (trip : Trip.t) (n : Z)
    (b : Booking.t) (self' : ReservationSystem) : Prop := {
  booked_trip : Dict.get key (trips self) = Some trip;
  booked_id : Booking.booking_id b = next_booking_id self;
  booked_counter : next_booking_id self' = next_booking_id self + 1;
  booked_fare :
    Py.mul n (Trip.price_per_seat trip) = inr (Booking.total_fare b);
  booked_status : Booking.status b = CONFIRMED;
  booked_seats : Booking.num_seats b = n;
  booked_ledger :
    bookings self' = Dict.set (next_booking_id self) b (bookings self);
  booked_stored : Dict.get (Booking.booking_id b) (bookings self') = Some b;
  booked_catalog :
    trips self'
    = Dict.set key
        (Trip.with_seats_available (Trip.seats_available trip - n) trip)
        (trips self);
  booked_decrement :
    Dict.get key (trips self')
    = Some (Trip.with_seats_available (Trip.seats_available trip - n) trip);
  booked_trip_counter : next_trip_id self' = next_trip_id self
}.

(** A call whose seat count Python can format in the console's refusal
    line: fewer than [10 ** 4300] seats asked. *)
Definition formats (c : call) : bool :=
  match c with
  | BookTicket _ _ _ seats => seats <? Py.str_limit
  | _ => true
  end.

(** ** Text entries *)

(** What a user enters: the four lines typed at choice 3 of the console
    menu or the four fields posted to [/book], and the line typed at
    choice 5 or the field posted to [/cancel]. *)
Inductive entry : Type :=
| EnterBooking (name age trip_id seats : string)
| EnterCancel (booking_id : string).

(** The console menu loop over a sequence of entries: the instance after
    each pass. *)
Definition menu_entry (system : ReservationSystem) (e : entry)
    : ReservationSystem :=
  match e with
  | EnterBooking name age trip_id seats =>
      after (Console.menu_book_ticket system name age trip_id seats)
  | EnterCancel booking_id =>
      after (Console.menu_cancel_booking system booking_id)
  end.

Definition menu_run (system : ReservationSystem) (es : list entry)
    : ReservationSystem :=
  fold_left menu_entry es system.

(** The web program over a sequence of POST requests: the module-level
    [system] after each request (a request that raises is answered by the
    framework and leaves [system] as the call left it). *)
Definition post_entry (system : ReservationSystem) (e : entry)
    : ReservationSystem :=
  match e with
  | EnterBooking name age trip_id seats =>
      after (Web.book system name age trip_id seats)
  | EnterCancel booking_id => after (Web.cancel system booking_id)
  end.

Definition post_run (system : ReservationSystem) (es : list entry)
    : ReservationSystem :=
  fold_left post_entry es system.

(** An entry as the console menu reads it: every typed line goes through
    [.strip()] before it is used.  The web handlers strip nothing. *)
Definition stripped (e : entry) : entry :=
  match e with
  | EnterBooking name age trip_id seats =>
      EnterBooking (Py.strip name) (Py.strip age) (Py.strip trip_id)
                   (Py.strip seats)
  | EnterCancel booking_id => EnterCancel (Py.strip booking_id)
  end.

(** The separator U+001C, which [.strip()] removes and [int()] refuses. *)
Definition file_separator : string := String (ascii_of_nat 28) EmptyString.

(** The instances either program gets to from [start]: by calls with int
    arguments, by menu entries, by POST requests. *)
Inductive runs_to (start : ReservationSystem) : ReservationSystem -> Prop :=
| by_console_calls (cs : list call) :
    runs_to start (snd (Console.run_calls start cs))
| by_web_calls (cs : list call) :
    runs_to start (snd (Web.run_calls start cs))
| by_menu (es : list entry) : runs_to start (menu_run start es)
| by_posts (es : list entry) : runs_to start (post_run start es).

(** ** One move of the ledger *)

(** What a call can do to an instance, in either program: nothing, a
    booking, or a cancellation. *)
Inductive ledger_step (s : ReservationSystem) : ReservationSystem -> Prop :=
| step_none : ledger_step s s
| step_book (key : Z) (trip : Trip.t) (b : Booking.t) :
    Dict.get key (trips s) = Some trip ->
    0 < Booking.num_seats b ->
    Booking.num_seats b <= Trip.seats_available trip ->
    Booking.status b = CONFIRMED ->
    Booking.booking_id b = next_booking_id s ->
    Booking.trip_id b = key \/ Booking.trip_id b = Trip.trip_id trip ->
    Py.mul (Booking.num_seats b) (Trip.price_per_seat trip)
    = inr (Booking.total_fare b) ->
    ledger_step s
      (mkSystem
         (Dict.set key
            (Trip.with_seats_available
               (Trip.seats_available trip - Booking.num_seats b) trip)
            (trips s))
         (Dict.set (next_booking_id s) b (bookings s))
         (next_trip_id s) (next_booking_id s + 1))
| step_cancel (key : Z) (b : Booking.t) :
    Dict.get key (bookings s) = Some b ->
    Booking.status b <> CANCELLED ->
    ledger_step s
      (mkSystem
         (match Dict.get (Booking.trip_id b) (trips s) with
          | Some trip =>
              Dict.set (Booking.trip_id b)
                (Trip.with_seats_available
                   (Trip.seats_available trip + Booking.num_seats b) trip)
                (trips s)
          | None => trips s
          end)
         (Dict.set key (Booking.with_status CANCELLED b) (bookings s))
         (next_trip_id s) (next_booking_id s)).

Inductive ledger_steps (s : ReservationSystem) : ReservationSystem -> Prop :=
| steps_done : ledger_steps s s
| steps_more (s1 s2 : ReservationSystem) :
    ledger_step s s1 -> ledger_steps s1 s2 -> ledger_steps s s2.

(** ** Further invariants *)

(** Ids in use are below the counters. *)
Definition fresh_trips (self : ReservationSystem) : Prop :=
  forall k, In k (Dict.keys (trips self)) -> k < next_trip_id self.

Definition fresh_bookings (self : ReservationSystem) : Prop :=
  forall k, In k (Dict.keys (bookings self)) -> k < next_booking_id self.

(** No trip has a negative number of free seats. *)
Definition seats_nonneg (self : ReservationSystem) : Prop :=
  forall t, In t (Dict.values (trips self)) -> 0 <= Trip.seats_available t.

(** Every booking's fare is its seats times the price of its trip. *)
Definition fares_fixed (self : ReservationSystem) : Prop :=
  forall k b, In (k, b) (bookings self) ->
    exists trip,
      Dict.get (Booking.trip_id b) (trips self) = Some trip
      /\ Py.mul (Booking.num_seats b) (Trip.price_per_seat trip)
         = inr (Booking.total_fare b).

(** Booking ids are 1, 2, ... in ledger order, each booking stored under
    its own id. *)
Definition sequential_ids (self : ReservationSystem) : Prop :=
  1 <= next_booking_id self
  /\ Dict.keys (bookings self)
     = map Z.of_nat (seq 1 (Z.to_nat (next_booking_id self - 1)))
  /\ forall k b, In (k, b) (bookings self) -> Booking.booking_id b = k.

(** A booking [b] on the trip under [key] changed nothing but that trip's
    free seats and the ledger entry of [b]. *)
Definition booking_frame (self : ReservationSystem) (key : Z) (b : Booking.t)
    (self' : ReservationSystem) : Prop :=
  (forall k, k <> key -> Dict.get k (trips self') = Dict.get k (trips self))
  /\ Dict.keys (trips self') = Dict.keys (trips self)
  /\ catalog self' = catalog self
  /\ (forall k, k <> Booking.booking_id b ->
        Dict.get k (bookings self') = Dict.get k (bookings self))
  /\ (fresh_bookings self ->
      Console.list_all_bookings self'
      = (Console.list_all_bookings self ++ [b])%list).

(** A cancellation of the booking [b] stored under [id]: the booking is
    CANCELLED and otherwise as it was, its trip, when there is one, has
    the seats back, and nothing else has changed. *)
Definition cancelled (self : ReservationSystem) (id : Z) (b : Booking.t)
    (self' : ReservationSystem) : Prop :=
  Dict.get id (bookings self') = Some (Booking.with_status CANCELLED b)
  /\ (forall k, k <> id -> Dict.get k (bookings self') = Dict.get k (bookings self))
  /\ Dict.keys (bookings self') = Dict.keys (bookings self)
  /\ next_booking_id self' = next_booking_id self
  /\ next_trip_id self' = next_trip_id self
  /\ (forall k, k <> Booking.trip_id b ->
        Dict.get k (trips self') = Dict.get k (trips self))
  /\ Dict.get (Booking.trip_id b) (trips self')
     = option_map
         (fun trip =>
            Trip.with_seats_available
              (Trip.seats_available trip + Booking.num_seats b) trip)
         (Dict.get (Booking.trip_id b) (trips self))
  /\ (Dict.get (Booking.trip_id b) (trips self) = None ->
      trips self' = trips self).

(** The three ways [cancel_booking] can go. *)
Inductive cancel_case (self : ReservationSystem) (id : Z) (r : run bool)
    : Prop :=
| cancel_unknown :
    Dict.get id (bookings self) = None ->
    result r = Return false -> after r = self -> cancel_case self id r
| cancel_again (b : Booking.t) :
    Dict.get id (bookings self) = Some b ->
    Booking.status b = CANCELLED ->
    result r = Return false -> after r = self -> cancel_case self id r
| cancel_done (b : Booking.t) :
    Dict.get id (bookings self) = Some b ->
    Booking.status b <> CANCELLED ->
    result r = Return true ->
    cancelled self id b (after r) -> cancel_case self id r.

(** The five trips of [_load_sample_data], numbered from [n], with the
    prices as the program writes them ([as_price 450] is [450.0] in the
    console program and [450] in the web program). *)
Definition sample_trips (as_price : Z -> Py.num) (n : Z) : list Trip.t :=
  [ Trip.mk n "Bhopal" "Indore" "2025-12-10" "09:00" 40 40 (as_price 450);
    Trip.mk (n + 1) "Bhopal" "Indore" "2025-12-10" "18:00" 40 40 (as_price 500);
    Trip.mk (n + 2) "Bhopal" "Delhi" "2025-12-11" "20:00" 50 50 (as_price 1200);
    Trip.mk (n + 3) "Indore" "Bhopal" "2025-12-11" "07:30" 40 40 (as_price 450);
    Trip.mk (n + 4) "Bhopal" "Mumbai" "2025-12-12" "21:00" 50 50 (as_price 1800) ].

(** The float literal [z.0]. *)
Definition float_price (z : Z) : Py.num :=
  match Py.float_of_int z with
  | inr f => Py.Float f
  | inl _ => Py.Int z
  end.

(* ================================================================== *)
(** * Part II: lemmas and theorems *)
(* ================================================================== *)

(** ** Association lists *)

Section DictFacts.

Context {V : Type}.
Implicit Types (d : Dict.t V) (k : Z) (v : V).

Lemma get_set_same d k v : Dict.get k (Dict.set k v d) = Some v.
Proof.
  induction d as [|[k' v'] r IH]; simpl.
  - now rewrite Z.eqb_refl.
  - destruct (k =? k') eqn:E; simpl; rewrite ?Z.eqb_refl, ?E; auto.
Qed.

Lemma get_set_other d k k' v :
  k' <> k -> Dict.get k' (Dict.set k v d) = Dict.get k' d.
Proof.
  intros N. induction d as [|[k0 v0] r IH]; simpl.
  - destruct (k' =? k) eqn:E; auto. apply Z.eqb_eq in E. contradiction.
  - destruct (k =? k0) eqn:E; simpl.
    + apply Z.eqb_eq in E. subst k0.
      destruct (k' =? k) eqn:E'; auto. apply Z.eqb_eq in E'. contradiction.
    + now rewrite IH.
Qed.

(** Writing back what a key already holds changes nothing. *)
Lemma set_get_id d k v : Dict.get k d = Some v -> Dict.set k v d = d.
Proof.
  induction d as [|[k' v'] r IH]; simpl; [discriminate|].
  destruct (k =? k') eqn:E.
  - apply Z.eqb_eq in E. now intros [= ->]; subst.
  - intros H. now rewrite IH.
Qed.

(** Of two writes to a key that is present, the second one wins. *)
Lemma set_set d k v v' :
  Dict.get k d <> None -> Dict.set k v (Dict.set k v' d) = Dict.set k v d.
Proof.
  induction d as [|[k' v0] r IH]; simpl; [congruence|].
  destruct (k =? k') eqn:E; simpl; rewrite ?Z.eqb_refl, ?E; auto.
  intros H. now rewrite IH.
Qed.

Lemma get_In d k v : Dict.get k d = Some v -> In (k, v) d.
Proof.
  induction d as [|[k' v'] r IH]; simpl; [discriminate|].
  destruct (k =? k') eqn:E.
  - apply Z.eqb_eq in E. intros [= ->]. subst. now left.
  - auto.
Qed.

Lemma In_keys d k v : In (k, v) d -> In k (Dict.keys d).
Proof. intros H. apply (in_map fst) in H. exact H. Qed.

Lemma get_None_keys d k : Dict.get k d = None <-> ~ In k (Dict.keys d).
Proof.
  induction d as [|[k' v'] r IH]; simpl; [tauto|].
  destruct (k =? k') eqn:E.
  - apply Z.eqb_eq in E. subst. split; [discriminate | tauto].
  - apply Z.eqb_neq in E. rewrite IH. split; intros H; [intros [?|?]|]; try tauto.
    congruence.
Qed.

Lemma In_get d k v : NoDup (Dict.keys d) -> In (k, v) d -> Dict.get k d = Some v.
Proof.
  induction d as [|[k' v'] r IH]; simpl; [tauto|].
  intros ND [H|H]; inversion ND; subst.
  - injection H as -> ->. now rewrite Z.eqb_refl.
  - destruct (k =? k') eqn:E; auto.
    apply Z.eqb_eq in E. subst. apply In_keys in H. contradiction.
Qed.

(** A write to a new key appends. *)
Lemma set_fresh d k v : ~ In k (Dict.keys d) -> Dict.set k v d = (d ++ [(k, v)])%list.
Proof.
  induction d as [|[k' v'] r IH]; simpl; auto.
  intros H. destruct (k =? k') eqn:E.
  - apply Z.eqb_eq in E. subst. tauto.
  - rewrite IH; tauto.
Qed.

(** A write to a present key replaces the entry where it is. *)
Lemma set_present d k v v0 :
  Dict.get k d = Some v0 ->
  exists d1 d2, d = (d1 ++ (k, v0) :: d2)%list
                /\ Dict.set k v d = (d1 ++ (k, v) :: d2)%list
                /\ ~ In k (Dict.keys d1).
Proof.
  induction d as [|[k' v'] r IH]; simpl; [discriminate|].
  destruct (k =? k') eqn:E.
  - apply Z.eqb_eq in E. subst k'. intros [= ->].
    exists [], r. simpl. tauto.
  - intros H. destruct (IH H) as (d1 & d2 & -> & -> & N).
    exists ((k', v') :: d1), d2. simpl. repeat split; auto.
    apply Z.eqb_neq in E. intros [?|?]; auto.
Qed.

Lemma keys_set_present d k v :
  Dict.get k d <> None -> Dict.keys (Dict.set k v d) = Dict.keys d.
Proof.
  induction d as [|[k' v'] r IH]; simpl; [congruence|].
  destruct (k =? k') eqn:E; simpl.
  - apply Z.eqb_eq in E. now subst.
  - intros H. now rewrite IH.
Qed.

End DictFacts.

Lemma get_map_values {V W : Type} (g : V -> W) (d : Dict.t V) k :
  Dict.get k (Dict.map_values g d) = option_map g (Dict.get k d).
Proof.
  induction d as [|[k' v'] r IH]; simpl; auto.
  destruct (k =? k'); auto.
Qed.

Lemma set_map_values {V W : Type} (g : V -> W) (d : Dict.t V) k v :
  Dict.set k (g v) (Dict.map_values g d) = Dict.map_values g (Dict.set k v d).
Proof.
  induction d as [|[k' v'] r IH]; simpl; auto.
  destruct (k =? k'); simpl; auto. now rewrite IH.
Qed.

Lemma values_map_values {V W : Type} (g : V -> W) (d : Dict.t V) :
  Dict.values (Dict.map_values g d) = map g (Dict.values d).
Proof.
  unfold Dict.values, Dict.map_values. rewrite !map_map. reflexivity.
Qed.

(** ** Booking: when it succeeds and what it does *)

(** The console [book_ticket] on a trip with enough seats. *)
Lemma console_book_ok self name age tid n trip fare :
  Dict.get tid (trips self) = Some trip ->
  0 < n -> n <= Trip.seats_available trip ->
  Py.mul n (Trip.price_per_seat trip) = inr fare ->
  Console.book_ticket self name age tid n
  = mkRun
      (Return (Some (Booking.mk (next_booking_id self) name age tid n fare CONFIRMED)))
      []
      (mkSystem
         (Dict.set tid
            (Trip.with_seats_available (Trip.seats_available trip - n) trip)
            (trips self))
         (Dict.set (next_booking_id self)
            (Booking.mk (next_booking_id self) name age tid n fare CONFIRMED)
            (bookings self))
         (next_trip_id self) (next_booking_id self + 1)).
Proof.
  intros Hg Hn Ha Hm. unfold Console.book_ticket. rewrite Hg.
  destruct (n <=? 0) eqn:E1; [apply Z.leb_le in E1; lia|].
  destruct (Trip.seats_available trip <? n) eqn:E2; [apply Z.ltb_lt in E2; lia|].
  rewrite Hm. reflexivity.
Qed.

(** Conversely, a returned booking means all the guards were passed. *)
Lemma console_book_inv self name age tid n b :
  result (Console.book_ticket self name age tid n) = Return (Some b) ->
  exists trip fare,
    Dict.get tid (trips self) = Some trip
    /\ 0 < n /\ n <= Trip.seats_available trip
    /\ Py.mul n (Trip.price_per_seat trip) = inr fare
    /\ b = Booking.mk (next_booking_id self) name age tid n fare CONFIRMED.
Proof.
  unfold Console.book_ticket.
  destruct (Dict.get tid (trips self)) as [trip|] eqn:Hg; [|discriminate].
  destruct (n <=? 0) eqn:E1; [discriminate|].
  destruct (Trip.seats_available trip <? n) eqn:E2.
  { destruct (Py.str_of_int (Trip.seats_available trip));
      [|destruct (Py.str_of_int n)]; discriminate. }
  destruct (Py.mul n (Trip.price_per_seat trip)) as [e|fare] eqn:Hm; [discriminate|].
  simpl. intros [= <-]. exists trip, fare.
  apply Z.leb_gt in E1. apply Z.ltb_ge in E2. auto.
Qed.

(** Without a returned booking, [book_ticket] has changed nothing. *)
Lemma console_book_refused self name age tid n :
  (forall b, result (Console.book_ticket self name age tid n) <> Return (Some b)) ->
  after (Console.book_ticket self name age tid n) = self.
Proof.
  unfold Console.book_ticket.
  destruct (Dict.get tid (trips self)) as [trip|]; auto.
  destruct (n <=? 0); auto.
  destruct (Trip.seats_available trip <? n).
  { destruct (Py.str_of_int (Trip.seats_available trip));
      [|destruct (Py.str_of_int n)]; auto. }
  destruct (Py.mul n (Trip.price_per_seat trip)); auto.
  simpl. intros H. now destruct (H _ eq_refl).
Qed.

Lemma web_book_ok self name age tid n trip fare :
  Dict.get tid (trips self) = Some trip ->
  0 < n -> n <= Trip.seats_available trip ->
  Py.mul n (Trip.price_per_seat trip) = inr fare ->
  Web.book_ticket self name (Py.VInt age) (Py.VInt tid) (Py.VInt n)
  = mkRun
      (Return (Some (Booking.mk (next_booking_id self) name age
                                (Trip.trip_id trip) n fare CONFIRMED)))
      []
      (mkSystem
         (Dict.set tid
            (Trip.with_seats_available (Trip.seats_available trip - n) trip)
            (trips self))
         (Dict.set (next_booking_id self)
            (Booking.mk (next_booking_id self) name age
                        (Trip.trip_id trip) n fare CONFIRMED)
            (bookings self))
         (next_trip_id self) (next_booking_id self + 1)).
Proof.
  intros Hg Hn Ha Hm. unfold Web.book_ticket. simpl. rewrite Hg.
  destruct (n <=? 0) eqn:E1; [apply Z.leb_le in E1; lia|].
  destruct (Trip.seats_available trip <? n) eqn:E2; [apply Z.ltb_lt in E2; lia|].
  simpl. rewrite Hm. reflexivity.
Qed.

Lemma web_book_inv self name age trip_id seats b :
  result (Web.book_ticket self name age trip_id seats) = Return (Some b) ->
  exists key n a trip fare,
    Py.int trip_id = inr key /\ Py.int seats = inr n /\ Py.int age = inr a
    /\ Dict.get key (trips self) = Some trip
    /\ 0 < n /\ n <= Trip.seats_available trip
    /\ Py.mul n (Trip.price_per_seat trip) = inr fare
    /\ b = Booking.mk (next_booking_id self) name a (Trip.trip_id trip) n fare
                      CONFIRMED
    /\ after (Web.book_ticket self name age trip_id seats)
       = mkSystem
           (Dict.set key
              (Trip.with_seats_available (Trip.seats_available trip - n) trip)
              (trips self))
           (Dict.set (next_booking_id self) b (bookings self))
           (next_trip_id self) (next_booking_id self + 1).
Proof.
  unfold Web.book_ticket.
  destruct (Py.int trip_id) as [e|key] eqn:Hk; [discriminate|].
  destruct (Dict.get key (trips self)) as [trip|] eqn:Hg; [|discriminate].
  destruct (Py.int seats) as [e|n] eqn:Hs; [discriminate|].
  destruct (n <=? 0) eqn:E1; [discriminate|].
  destruct (Trip.seats_available trip <? n) eqn:E2; [discriminate|].
  simpl.
  destruct (Py.mul n (Trip.price_per_seat trip)) as [e|fare] eqn:Hm; [discriminate|].
  destruct (Py.int age) as [e|a] eqn:Hage; [discriminate|].
  simpl. intros [= <-]. exists key, n, a, trip, fare.
  apply Z.leb_gt in E1. apply Z.ltb_ge in E2. repeat split; auto.
Qed.

(** C7.  When [book_ticket] returns a booking, in either program: the
    booking carries the next booking id, the fare [num_seats *
    price_per_seat] of the trip, the status CONFIRMED, and is stored in the
    ledger under its id; the counter moves on by one and the trip has
    exactly [num_seats] fewer free seats.  On the seeded catalog
    [book_ticket("Asha", 30, 1, 5)] returns booking 1 with fare 2250.0
    (2250 in the web program, which seeds int prices; [2250 == 2250.0])
    and trip 1 is left with 35 free seats. *)
Theorem book_ticket_success :
  (forall self name age tid n b,
      result (Console.book_ticket self name age tid n) = Return (Some b) ->
      exists trip,
        booked self tid trip n b (after (Console.book_ticket self name age tid n))
        /\ Booking.trip_id b = tid
        /\ Booking.passenger_name b = name /\ Booking.passenger_age b = age)
  /\ (forall self name age trip_id seats b,
         result (Web.book_ticket self name age trip_id seats) = Return (Some b) ->
         exists key n trip,
           Py.int trip_id = inr key /\ Py.int seats = inr n
           /\ booked self key trip n b
                (after (Web.book_ticket self name age trip_id seats))
           /\ Booking.trip_id b = Trip.trip_id trip
           /\ Booking.passenger_name b = name
           /\ Py.int age = inr (Booking.passenger_age b))
  /\ (let r := Console.book_ticket Console.__init__ "Asha" 30 1 5 in
      result r = Return (Some (Booking.mk 1 "Asha" 30 1 5 (Py.Float 2250.0) CONFIRMED))
      /\ option_map Trip.seats_available (Dict.get 1 (trips Console.__init__)) = Some 40
      /\ option_map Trip.seats_available (Dict.get 1 (trips (after r))) = Some 35
      /\ Console.get_booking (after r) 1
         = Some (Booking.mk 1 "Asha" 30 1 5 (Py.Float 2250.0) CONFIRMED))
  /\ (let r := Web.book_ticket Web.__init__ "Asha" (Py.VInt 30) (Py.VInt 1) (Py.VInt 5) in
      result r = Return (Some (Booking.mk 1 "Asha" 30 1 5 (Py.Int 2250) CONFIRMED))
      /\ Py.num_eqb (Py.Int 2250) (Py.Float 2250.0) = true
      /\ option_map Trip.seats_available (Dict.get 1 (trips (after r))) = Some 35).
Proof.
  split; [|split; [|split]].
  - intros self name age tid n b H.
    destruct (console_book_inv _ _ _ _ _ _ H) as (trip & fare & Hg & Hn & Ha & Hm & ->).
    exists trip. rewrite (console_book_ok _ name age _ _ _ _ Hg Hn Ha Hm). simpl.
    repeat split; simpl; auto using get_set_same.
  - intros self name age trip_id seats b H.
    destruct (web_book_inv _ _ _ _ _ _ H)
      as (key & n & a & trip & fare & Hk & Hs & Hage & Hg & Hn & Ha & Hm & -> & ->).
    exists key, n, trip. repeat split; simpl; auto using get_set_same.
  - vm_compute. repeat split.
  - vm_compute. repeat split.
Qed.

Lemma book_ticket_success_witness :
  exists trip,
    booked Console.__init__ 1 trip 5
      (Booking.mk 1 "Asha" 30 1 5 (Py.Float 2250.0) CONFIRMED)
      (after (Console.book_ticket Console.__init__ "Asha" 30 1 5))
    /\ Booking.trip_id (Booking.mk 1 "Asha" 30 1 5 (Py.Float 2250.0) CONFIRMED) = 1
    /\ Booking.passenger_name (Booking.mk 1 "Asha" 30 1 5 (Py.Float 2250.0) CONFIRMED)
       = "Asha"
    /\ Booking.passenger_age (Booking.mk 1 "Asha" 30 1 5 (Py.Float 2250.0) CONFIRMED)
       = 30.
Proof.
  apply (proj1 book_ticket_success Console.__init__ "Asha" 30 1 5).
  vm_compute. reflexivity.
Defined.

(** ** Cancelling *)

Lemma restore_seats (trip : Trip.t) (n : Z) :
  let booked_trip :=
    Trip.with_seats_available (Trip.seats_available trip - n) trip in
  Trip.with_seats_available (Trip.seats_available booked_trip + n) booked_trip
  = trip.
Proof. destruct trip; simpl. unfold Trip.with_seats_available; simpl. f_equal. lia. Qed.

(** C2.  In the console program, for every instance and every call of
    [book_ticket] that returns a booking, [cancel_booking] on the id of
    that booking straight afterwards returns [True], and the trip the
    booking refers to has again the free seats it had before the booking
    (indeed the whole trip table is as it was). *)
Theorem book_then_cancel_round_trip self name age tid n b :
  result (Console.book_ticket self name age tid n) = Return (Some b) ->
  let self1 := after (Console.book_ticket self name age tid n) in
  let r := Console.cancel_booking self1 (Booking.booking_id b) in
  result r = Return true
  /\ (exists trip,
        Dict.get (Booking.trip_id b) (trips self) = Some trip
        /\ option_map Trip.seats_available
             (Dict.get (Booking.trip_id b) (trips (after r)))
           = Some (Trip.seats_available trip))
  /\ trips (after r) = trips self
  /\ option_map Booking.status (Dict.get (Booking.booking_id b) (bookings (after r)))
     = Some CANCELLED.
Proof.
  intros H.
  destruct (console_book_inv _ _ _ _ _ _ H) as (trip & fare & Hg & Hn & Ha & Hm & ->).
  rewrite (console_book_ok _ name age _ _ _ _ Hg Hn Ha Hm). simpl.
  unfold Console.cancel_booking. simpl.
  rewrite get_set_same. simpl. rewrite get_set_same. simpl.
  assert (Hback :
    Dict.set tid
      (Trip.with_seats_available (Trip.seats_available trip - n + n)
         (Trip.with_seats_available (Trip.seats_available trip - n) trip))
      (Dict.set tid
         (Trip.with_seats_available (Trip.seats_available trip - n) trip)
         (trips self))
    = trips self).
  { rewrite set_set by congruence.
    pose proof (restore_seats trip n) as R. simpl in R. rewrite R.
    now apply set_get_id. }
  rewrite Hback. repeat split.
  - exists trip. rewrite Hg. auto.
  - now rewrite get_set_same.
Qed.

Lemma book_then_cancel_round_trip_witness :
  let self1 := after (Console.book_ticket Console.__init__ "Asha" 30 1 5) in
  let r := Console.cancel_booking self1 1 in
  result r = Return true
  /\ (exists trip,
        Dict.get 1 (trips Console.__init__) = Some trip
        /\ option_map Trip.seats_available (Dict.get 1 (trips (after r)))
           = Some (Trip.seats_available trip))
  /\ trips (after r) = trips Console.__init__
  /\ option_map Booking.status (Dict.get 1 (bookings (after r))) = Some CANCELLED.
Proof.
  apply (book_then_cancel_round_trip Console.__init__ "Asha" 30 1 5
           (Booking.mk 1 "Asha" 30 1 5 (Py.Float 2250.0) CONFIRMED)).
  vm_compute. reflexivity.
Defined.

(** The same law in the web program, for instances whose trips are stored
    under their own ids, as [_add_trip] stores them: the booking records
    [trip.trip_id], and the cancellation looks the trip up under it. *)
Lemma web_book_then_cancel_round_trip self name age trip_id seats b :
  (forall k t, Dict.get k (trips self) = Some t -> Trip.trip_id t = k) ->
  result (Web.book_ticket self name age trip_id seats) = Return (Some b) ->
  let self1 := after (Web.book_ticket self name age trip_id seats) in
  let r := Web.cancel_booking self1 (Py.VInt (Booking.booking_id b)) in
  result r = Return true /\ trips (after r) = trips self.
Proof.
  intros Hid H.
  destruct (web_book_inv _ _ _ _ _ _ H)
    as (key & n & a & trip & fare & Hk & Hs & Hage & Hg & Hn & Ha & Hm & -> & ->).
  simpl. unfold Web.cancel_booking. simpl.
  rewrite get_set_same. simpl. rewrite (Hid _ _ Hg), get_set_same. simpl.
  split; auto.
  rewrite set_set by congruence.
  pose proof (restore_seats trip n) as R. simpl in R. rewrite R.
  now apply set_get_id.
Qed.

(** An already cancelled booking: both programs refuse and change
    nothing. *)
Lemma console_cancel_cancelled self id b :
  Dict.get id (bookings self) = Some b ->
  Booking.status b = CANCELLED ->
  Console.cancel_booking self id
  = mkRun (Return false) ["Booking is already cancelled."] self.
Proof.
  intros Hg Hs. unfold Console.cancel_booking. rewrite Hg, Hs. reflexivity.
Qed.

Lemma web_cancel_cancelled self id_raw id b :
  Py.int id_raw = inr id ->
  Dict.get id (bookings self) = Some b ->
  Booking.status b = CANCELLED ->
  Web.cancel_booking self id_raw = mkRun (Return false) [] self.
Proof.
  intros Hk Hg Hs. unfold Web.cancel_booking. now rewrite Hk, Hg, Hs.
Qed.

Lemma console_cancel_twice self id :
  Console.cancel_booking (after (Console.cancel_booking self id)) id
  = mkRun (Return false)
      (match Dict.get id (bookings self) with
       | None => ["Invalid booking ID."]
       | Some _ => ["Booking is already cancelled."]
       end)
      (after (Console.cancel_booking self id)).
Proof.
  unfold Console.cancel_booking at 2 3.
  destruct (Dict.get id (bookings self)) as [b|] eqn:Hg; simpl.
  - destruct (String.eqb (Booking.status b) CANCELLED) eqn:E; simpl.
    + unfold Console.cancel_booking. now rewrite Hg, E.
    + eapply console_cancel_cancelled.
      * simpl. destruct (Dict.get (Booking.trip_id b) (trips self)); simpl;
          apply get_set_same.
      * reflexivity.
  - unfold Console.cancel_booking. now rewrite Hg.
Qed.

Lemma web_cancel_twice self id key :
  Py.int id = inr key ->
  Web.cancel_booking (after (Web.cancel_booking self id)) id
  = mkRun (Return false) [] (after (Web.cancel_booking self id)).
Proof.
  intros Hk.
  assert (Again : forall s1 b,
            Dict.get key (bookings s1) = Some b ->
            Booking.status b = CANCELLED ->
            Web.cancel_booking s1 id = mkRun (Return false) [] s1).
  { intros s1 b Hg Hs. unfold Web.cancel_booking. now rewrite Hk, Hg, Hs. }
  unfold Web.cancel_booking at 2 3. rewrite Hk.
  destruct (Dict.get key (bookings self)) as [b|] eqn:Hg; simpl.
  - destruct (String.eqb (Booking.status b) CANCELLED) eqn:E; simpl.
    + unfold Web.cancel_booking. now rewrite Hk, Hg, E.
    + eapply Again;
        [ simpl; destruct (Dict.get (Booking.trip_id b) (trips self)); simpl;
          apply get_set_same
        | reflexivity ].
  - unfold Web.cancel_booking. now rewrite Hk, Hg.
Qed.

(** C5.  For every instance and booking id: if the booking stored under
    the id has status CANCELLED, [cancel_booking] returns [False] (the
    console program saying "Booking is already cancelled.") and leaves the
    instance as it is; and, whatever the instance, a second
    [cancel_booking] on an id returns [False] and the instance after it is
    the instance after the first.  In the web program the id may arrive as
    an int or as text that [int] reads. *)
Theorem cancel_already_cancelled self id :
  (forall b,
      Dict.get id (bookings self) = Some b ->
      Booking.status b = CANCELLED ->
      Console.cancel_booking self id
      = mkRun (Return false) ["Booking is already cancelled."] self
      /\ (forall id_raw, Py.int id_raw = inr id ->
          Web.cancel_booking self id_raw = mkRun (Return false) [] self))
  /\ after (Console.cancel_booking (after (Console.cancel_booking self id)) id)
     = after (Console.cancel_booking self id)
  /\ result (Console.cancel_booking (after (Console.cancel_booking self id)) id)
     = Return false
  /\ (forall id_raw, Py.int id_raw = inr id ->
      after (Web.cancel_booking (after (Web.cancel_booking self id_raw)) id_raw)
      = after (Web.cancel_booking self id_raw)
      /\ result (Web.cancel_booking (after (Web.cancel_booking self id_raw)) id_raw)
         = Return false).
Proof.
  split; [|split; [|split]].
  - intros b Hg Hs. split.
    + eapply console_cancel_cancelled; eauto.
    + intros id_raw Hk. eapply web_cancel_cancelled; eauto.
  - now rewrite console_cancel_twice.
  - now rewrite console_cancel_twice.
  - intros id_raw Hk. now rewrite (web_cancel_twice self id_raw id Hk).
Qed.

Lemma cancel_already_cancelled_witness :
  let self :=
    after (Console.cancel_booking
             (after (Console.book_ticket Console.__init__ "Asha" 30 1 5)) 1) in
  Console.cancel_booking self 1
  = mkRun (Return false) ["Booking is already cancelled."] self
  /\ Web.cancel_booking self (Py.VStr "1") = mkRun (Return false) [] self.
Proof.
  intros self.
  destruct (proj1 (cancel_already_cancelled self 1)
              (Booking.mk 1 "Asha" 30 1 5 (Py.Float 2250.0) CANCELLED)
              eq_refl eq_refl) as [Hc Hw].
  split; [exact Hc | exact (Hw (Py.VStr "1") eq_refl)].
Defined.

(** ** Refused bookings *)

Lemma str_limit_big : 100 <= Py.str_limit.
Proof.
  change 100 with (10 ^ 2). unfold Py.str_limit, Py.int_max_str_digits.
  apply Z.pow_le_mono_r; lia.
Qed.

Lemma str_of_int_short n :
  Z.abs n < Py.str_limit -> Py.str_of_int n = inr (Py.decimal n).
Proof.
  intros H. unfold Py.str_of_int.
  destruct (Py.str_limit <=? Z.abs n) eqn:E; [|reflexivity].
  apply Z.leb_le in E. lia.
Qed.

Lemma str_of_int_long n :
  Py.str_limit <= Z.abs n -> Py.str_of_int n = inl Py.ValueError.
Proof.
  intros H. unfold Py.str_of_int. apply Z.leb_le in H. now rewrite H.
Qed.

(** The console refusal for too few seats cannot be printed when one of
    its two numbers is too long. *)
Lemma console_book_overlong self name age tid n trip :
  Dict.get tid (trips self) = Some trip ->
  0 < n -> Trip.seats_available trip < n ->
  Py.str_limit <= Z.abs (Trip.seats_available trip) \/ Py.str_limit <= n ->
  Console.book_ticket self name age tid n = mkRun (Raise Py.ValueError) [] self.
Proof.
  intros Hg Hn Hlt Long. unfold Console.book_ticket. rewrite Hg.
  destruct (n <=? 0) eqn:E1; [apply Z.leb_le in E1; lia|].
  destruct (Trip.seats_available trip <? n) eqn:E2;
    [|apply Z.ltb_ge in E2; lia].
  destruct Long as [L|L].
  - now rewrite (str_of_int_long _ L).
  - rewrite (str_of_int_long n) by lia.
    destruct (Z.lt_ge_cases (Z.abs (Trip.seats_available trip)) Py.str_limit)
      as [A|A]; [now rewrite (str_of_int_short _ A)
                |now rewrite (str_of_int_long _ A)].
Qed.




(** C4, as the code has it.  For every instance, [book_ticket] with a
    seat count of zero or less returns [None] and leaves the whole
    instance as it was.  When the trip id is that of a trip, whatever its
    seat counts, the refusal is the one for the seat count (the console
    program prints "Number of seats must be at least 1."); when it is not,
    the lookup fails first and the refusal is the one for the trip id
    ("Invalid trip ID."). *)
Theorem book_ticket_invalid_seat_count self name age tid n :
  n <= 0 ->
  result (Console.book_ticket self name age tid n) = Return None
  /\ after (Console.book_ticket self name age tid n) = self
  /\ stdout (Console.book_ticket self name age tid n)
     = match Dict.get tid (trips self) with
       | Some _ => ["Number of seats must be at least 1."]
       | None => ["Invalid trip ID."]
       end
  /\ (forall age_raw tid_raw n_raw,
         Py.int tid_raw = inr tid -> Py.int n_raw = inr n ->
         Web.book_ticket self name age_raw tid_raw n_raw
         = mkRun (Return None) [] self).
Proof.
  intros Hn. apply Z.leb_le in Hn.
  unfold Console.book_ticket, Web.book_ticket.
  destruct (Dict.get tid (trips self)) as [trip|] eqn:Hg; rewrite ?Hn; simpl;
    repeat split; intros age_raw tid_raw n_raw -> Hs; rewrite Hg; auto.
  now rewrite Hs, Hn.
Qed.

Lemma book_ticket_invalid_seat_count_witness :
  result (Console.book_ticket Console.__init__ "Asha" 30 1 (-2)) = Return None
  /\ after (Console.book_ticket Console.__init__ "Asha" 30 1 (-2)) = Console.__init__
  /\ stdout (Console.book_ticket Console.__init__ "Asha" 30 1 (-2))
     = match Dict.get 1 (trips Console.__init__) with
       | Some _ => ["Number of seats must be at least 1."]
       | None => ["Invalid trip ID."]
       end
  /\ (forall age_raw tid_raw n_raw,
         Py.int tid_raw = inr 1 -> Py.int n_raw = inr (-2) ->
         Web.book_ticket Console.__init__ "Asha" age_raw tid_raw n_raw
         = mkRun (Return None) [] Console.__init__).
Proof.
  apply (book_ticket_invalid_seat_count Console.__init__ "Asha" 30 1 (-2)). lia.
Defined.

(** C4 as stated fails when the trip id is unknown: with zero seats asked
    on trip 99 the seeded console program reports the trip id, not the seat
    count. *)
Lemma invalid_seat_count_unknown_trip :
  Console.book_ticket Console.__init__ "Asha" 30 99 0
  = mkRun (Return None) ["Invalid trip ID."] Console.__init__
  /\ stdout (Console.book_ticket Console.__init__ "Asha" 30 99 0)
     <> ["Number of seats must be at least 1."].
Proof. split; [reflexivity | discriminate]. Qed.

(** Booking exactly the free seats of a trip, in both programs, when the
    fare product exists. *)
Lemma last_seats_general self name age tid trip fare :
  Dict.get tid (trips self) = Some trip ->
  0 < Trip.seats_available trip ->
  Py.mul (Trip.seats_available trip) (Trip.price_per_seat trip) = inr fare ->
  takes_last_seats
    (Console.book_ticket self name age tid (Trip.seats_available trip))
    tid (Trip.seats_available trip)
  /\ takes_last_seats
       (Web.book_ticket self name (Py.VInt age) (Py.VInt tid)
          (Py.VInt (Trip.seats_available trip)))
       tid (Trip.seats_available trip).
Proof.
  intros Hg Hn Hm. unfold takes_last_seats. split.
  - rewrite (console_book_ok _ name age _ _ _ _ Hg Hn (Z.le_refl _) Hm).
    eexists. simpl. repeat split. rewrite get_set_same. simpl. f_equal. lia.
  - rewrite (web_book_ok _ name age _ _ _ _ Hg Hn (Z.le_refl _) Hm).
    eexists. simpl. repeat split. rewrite get_set_same. simpl. f_equal. lia.
Qed.

(** ** Raw arguments *)

(** C8 at failing inputs.  The web [book_ticket] and [cancel_booking]
    raise [ValueError] on a form field that is not a number, wherever the
    field is converted, and the handlers do not catch it; the console menu
    catches the same conversions and hands back no booking. *)
Theorem web_raw_argument_raises :
  result (Web.book Web.__init__ "Asha" "30" "abc" "2") = Raise Py.ValueError
  /\ result (Web.book Web.__init__ "Asha" "30" "1" "two") = Raise Py.ValueError
  /\ result (Web.book Web.__init__ "Asha" "thirty" "1" "2") = Raise Py.ValueError
  /\ result (Web.book Web.__init__ "Asha" "30" "" "2") = Raise Py.ValueError
  /\ result (Web.cancel Web.__init__ "abc") = Raise Py.ValueError
  /\ Console.menu_book_ticket Console.__init__ "Asha" "30" "abc" "2"
     = mkRun (Return None) ["Trip ID and number of seats must be integers."]
             Console.__init__
  /\ Console.menu_cancel_booking Console.__init__ "abc"
     = mkRun (Return false) ["Booking ID must be an integer."] Console.__init__.
Proof. repeat split. Qed.

(** ** Searching *)

Lemma every_ascii (c : ascii) : In c (map ascii_of_nat (seq 0 256)).
Proof.
  rewrite <- (ascii_nat_embedding c). apply in_map, in_seq.
  pose proof (nat_ascii_bounded c). lia.
Qed.

(** Lower-casing identifies exactly the characters that are the same
    letter up to case (checked on all pairs of characters). *)
Lemma lower_char_same_letter (a b : ascii) :
  Ascii.eqb (Py.lower_char a) (Py.lower_char b) = same_letter a b.
Proof.
  assert (All :
    forallb
      (fun a => forallb
         (fun b => Bool.eqb (Ascii.eqb (Py.lower_char a) (Py.lower_char b))
                            (same_letter a b))
         (map ascii_of_nat (seq 0 256)))
      (map ascii_of_nat (seq 0 256)) = true) by (vm_compute; reflexivity).
  rewrite forallb_forall in All. specialize (All a (every_ascii a)).
  rewrite forallb_forall in All. specialize (All b (every_ascii b)).
  now apply Bool.eqb_prop in All.
Qed.

Lemma lower_eq_ignore_case (s1 s2 : string) :
  String.eqb (Py.lower s1) (Py.lower s2) = eq_ignore_case s1 s2.
Proof.
  revert s2. induction s1 as [|a r1 IH]; intros [|b r2]; simpl; auto.
  rewrite lower_char_same_letter, IH.
  destruct (same_letter a b); reflexivity.
Qed.

Lemma search_match_selects source destination date trip :
  Console.search_match source destination date trip
  = search_selects source destination date trip.
Proof.
  unfold Console.search_match, search_selects.
  now rewrite !lower_eq_ignore_case.
Qed.

(** The loop of [search_trips] is a filter that keeps the order. *)
Lemma search_loop (p : Trip.t -> bool) (l acc : list Trip.t) :
  fold_left (fun result trip => if p trip then (result ++ [trip])%list else result)
            l acc
  = (acc ++ filter p l)%list.
Proof.
  revert acc. induction l as [|t l IH]; intros acc; simpl.
  - now rewrite app_nil_r.
  - rewrite IH. destruct (p t); auto. now rewrite <- app_assoc.
Qed.

Lemma search_trips_filter self source destination date :
  Console.search_trips self source destination date
  = filter (search_selects source destination date) (Console.list_all_trips self).
Proof.
  unfold Console.search_trips, Console.list_all_trips.
  rewrite search_loop. simpl. apply filter_ext. intros t.
  apply search_match_selects.
Qed.

(** C6.  [search_trips] returns, in catalog order, exactly the trips
    whose source and destination equal the arguments up to letter case,
    character for character, and whose date is the argument itself; with
    no such trip it returns the empty list; it has no failure.  On the
    seeded catalog the lower-case search for "bhopal", "indore",
    "2025-12-10" returns the two Bhopal to Indore trips; a prefix of a city
    name or a date written otherwise finds nothing. *)
Theorem search_trips_exact :
  (forall self source destination date,
      Console.search_trips self source destination date
      = filter (search_selects source destination date)
               (Console.list_all_trips self))
  /\ (forall self source destination date t,
         In t (Console.search_trips self source destination date)
         <-> In t (Console.list_all_trips self)
             /\ eq_ignore_case (Trip.source t) source = true
             /\ eq_ignore_case (Trip.destination t) destination = true
             /\ Trip.date t = date)
  /\ (forall self source destination date,
         (forall t, In t (Console.list_all_trips self) ->
                    search_selects source destination date t = false) ->
         Console.search_trips self source destination date = [])
  /\ Console.search_trips Console.__init__ "bhopal" "indore" "2025-12-10"
     = [ Trip.mk 1 "Bhopal" "Indore" "2025-12-10" "09:00" 40 40 (Py.Float 450.0);
         Trip.mk 2 "Bhopal" "Indore" "2025-12-10" "18:00" 40 40 (Py.Float 500.0) ]
  /\ Console.search_trips Console.__init__ "Bhop" "Indore" "2025-12-10" = []
  /\ Console.search_trips Console.__init__ "Bhopal" "Indore" "2025-12-10 " = [].
Proof.
  split; [|split; [|split; [|repeat split]]].
  - apply search_trips_filter.
  - intros self source destination date t.
    rewrite search_trips_filter, filter_In. unfold search_selects.
    rewrite !andb_true_iff, String.eqb_eq. tauto.
  - intros self source destination date H.
    rewrite search_trips_filter.
    induction (Console.list_all_trips self) as [|t l IH]; simpl; auto.
    rewrite (H t (or_introl eq_refl)). apply IH. intros t' Ht'. apply H. now right.
Qed.

Lemma search_trips_exact_witness :
  Console.search_trips Console.__init__ "Pune" "Goa" "2025-12-10" = [].
Proof.
  apply (proj1 (proj2 (proj2 search_trips_exact))).
  intros t H. simpl in H.
  repeat (destruct H as [<-|H]; [reflexivity|]). contradiction.
Defined.

(** ** Seat conservation *)

Lemma In_values {V : Type} (d : Dict.t V) (v : V) :
  In v (Dict.values d) <-> exists k, In (k, v) d.
Proof.
  unfold Dict.values. rewrite in_map_iff. split.
  - intros [[k v'] [E H]]. simpl in E. subst. eauto.
  - intros [k H]. exists (k, v). auto.
Qed.

Lemma NoDup_set {V : Type} (d : Dict.t V) k v :
  NoDup (Dict.keys d) -> NoDup (Dict.keys (Dict.set k v d)).
Proof.
  intros ND. destruct (Dict.get k d) eqn:E.
  - rewrite keys_set_present by congruence. exact ND.
  - apply get_None_keys in E. rewrite set_fresh by exact E.
    unfold Dict.keys in *. rewrite map_app. simpl.
    apply NoDup_app; auto.
    + repeat constructor. simpl. tauto.
    + intros x Hx [<-|[]]. contradiction.
Qed.

(** The entries of a dict after a write. *)
Lemma In_set {V : Type} (d : Dict.t V) k v k' v' :
  NoDup (Dict.keys d) ->
  In (k', v') (Dict.set k v d)
  <-> (k' = k /\ v' = v) \/ (k' <> k /\ In (k', v') d).
Proof.
  intros ND. pose proof (NoDup_set d k v ND) as ND'. split.
  - intros H. apply (In_get _ _ _ ND') in H.
    destruct (Z.eq_dec k' k) as [->|N].
    + rewrite get_set_same in H. left. split; congruence.
    + rewrite get_set_other in H by exact N. right. split; auto using get_In.
  - intros [[-> ->]|[N H]]; apply get_In.
    + apply get_set_same.
    + rewrite get_set_other by exact N. now apply In_get.
Qed.

(** [entry_cases H I]: [H] says an entry is in a dict of the instance
    after a write; split into the entry written and an entry already
    there. *)
Ltac entry_cases H I :=
  apply In_set in H; [|apply I];
  destruct H as [[-> ->]|[_ H]].

Lemma confirmed_in_app l1 l2 tid :
  confirmed_in (l1 ++ l2)%list tid = confirmed_in l1 tid + confirmed_in l2 tid.
Proof.
  unfold confirmed_in. rewrite filter_app, map_app.
  induction (map Booking.num_seats _) as [|x r IH]; simpl; lia.
Qed.

Lemma confirmed_in_one b tid :
  confirmed_in [b] tid
  = if (Booking.trip_id b =? tid) && String.eqb (Booking.status b) CONFIRMED
    then Booking.num_seats b else 0.
Proof.
  unfold confirmed_in. simpl.
  destruct ((Booking.trip_id b =? tid) && _)%bool; simpl; lia.
Qed.

Lemma confirmed_in_cons b l tid :
  confirmed_in (b :: l) tid = confirmed_in [b] tid + confirmed_in l tid.
Proof. apply (confirmed_in_app [b] l). Qed.

Lemma values_app {V : Type} (d1 d2 : Dict.t V) :
  Dict.values (d1 ++ d2)%list = (Dict.values d1 ++ Dict.values d2)%list.
Proof. apply map_app. Qed.

(** A new booking adds its seats to its trip when it is confirmed. *)
Lemma confirmed_after_insert (bk : Dict.t Booking.t) key b tid :
  ~ In key (Dict.keys bk) ->
  confirmed_in (Dict.values (Dict.set key b bk)) tid
  = confirmed_in (Dict.values bk) tid + confirmed_in [b] tid.
Proof.
  intros F. rewrite set_fresh by exact F.
  now rewrite values_app, confirmed_in_app.
Qed.

(** Replacing a booking replaces its contribution. *)
Lemma confirmed_after_replace (bk : Dict.t Booking.t) key b b' tid :
  Dict.get key bk = Some b ->
  confirmed_in (Dict.values (Dict.set key b' bk)) tid
  = confirmed_in (Dict.values bk) tid - confirmed_in [b] tid
    + confirmed_in [b'] tid.
Proof.
  intros G. destruct (set_present bk key b' b G) as (d1 & d2 & E1 & E2 & _).
  rewrite E2, E1.
  rewrite !values_app. simpl.
  rewrite !confirmed_in_app, (confirmed_in_cons b), (confirmed_in_cons b'). lia.
Qed.

Lemma ledger_inv_init : ledger_inv Console.__init__.
Proof.
  constructor; try (intros k b H; simpl in H; contradiction).
  - vm_compute. repeat constructor; simpl; intuition discriminate.
  - intros k t H. simpl in H.
    repeat (destruct H as [[= <- <-]|H]; [reflexivity|]). contradiction.
  - constructor.
  - intros t H. simpl in H.
    repeat (destruct H as [<-|H]; [reflexivity|]). contradiction.
Qed.

(** A successful booking keeps the invariant. *)
Lemma ledger_inv_booked self tid trip n b :
  ledger_inv self ->
  Dict.get tid (trips self) = Some trip ->
  0 < n ->
  Booking.trip_id b = tid -> Booking.num_seats b = n ->
  Booking.status b = CONFIRMED ->
  ledger_inv
    (mkSystem
       (Dict.set tid
          (Trip.with_seats_available (Trip.seats_available trip - n) trip)
          (trips self))
       (Dict.set (next_booking_id self) b (bookings self))
       (next_trip_id self) (next_booking_id self + 1)).
Proof.
  intros I Hg Hn Ht Hs Hst.
  assert (Fresh : ~ In (next_booking_id self) (Dict.keys (bookings self))).
  { intros H. apply in_map_iff in H. destruct H as [[k b0] [E H]]. simpl in E.
    subst k. apply (inv_booking_fresh _ I) in H. lia. }
  assert (Keys : Dict.keys (Dict.set tid
                   (Trip.with_seats_available (Trip.seats_available trip - n) trip)
                   (trips self)) = Dict.keys (trips self))
    by (apply keys_set_present; congruence).
  pose proof (inv_trip_ids _ I _ _ (get_In _ _ _ Hg)) as Hid.
  constructor; simpl.
  - rewrite Keys. apply I.
  - intros k t H. entry_cases H I; [exact Hid | eapply inv_trip_ids; eauto].
  - apply NoDup_set, I.
  - intros k b0 H. entry_cases H I; [lia|].
    apply (inv_booking_fresh _ I) in H. lia.
  - intros k b0 H. entry_cases H I; [lia | eapply inv_booking_seats; eauto].
  - intros k b0 H. entry_cases H I; [auto | eapply inv_booking_status; eauto].
  - intros k b0 H. rewrite Keys. entry_cases H I; [|eapply inv_booking_trip; eauto].
    rewrite Ht. eapply In_keys, get_In; eauto.
  - intros t H. apply In_values in H. destruct H as [k H].
    unfold confirmed_seats. simpl.
    rewrite confirmed_after_insert by exact Fresh. rewrite confirmed_in_one.
    apply In_set in H; [|apply I]. destruct H as [[-> ->]|[N H]].
    + simpl. rewrite Hid, Ht, Z.eqb_refl, Hst, Hs. simpl.
      pose proof (inv_conservation _ I trip) as C.
      unfold confirmed_seats in C. rewrite Hid in C.
      rewrite <- C; [lia|]. apply In_values. exists tid. now apply get_In.
    + pose proof (inv_trip_ids _ I _ _ H) as Hk.
      rewrite Ht, Hk. destruct (tid =? k) eqn:E; [apply Z.eqb_eq in E; congruence|].
      simpl. rewrite Z.add_0_r. rewrite <- Hk.
      apply (inv_conservation _ I). apply In_values. eauto.
Qed.

(** A cancellation keeps the invariant. *)
Lemma ledger_inv_cancelled self id b trip :
  ledger_inv self ->
  Dict.get id (bookings self) = Some b ->
  Booking.status b = CONFIRMED ->
  Dict.get (Booking.trip_id b) (trips self) = Some trip ->
  ledger_inv
    (mkSystem
       (Dict.set (Booking.trip_id b)
          (Trip.with_seats_available
             (Trip.seats_available trip + Booking.num_seats b) trip)
          (trips self))
       (Dict.set id (Booking.with_status CANCELLED b) (bookings self))
       (next_trip_id self) (next_booking_id self)).
Proof.
  intros I Hg Hst Ht.
  assert (Keys : Dict.keys (Dict.set (Booking.trip_id b)
                   (Trip.with_seats_available
                      (Trip.seats_available trip + Booking.num_seats b) trip)
                   (trips self)) = Dict.keys (trips self))
    by (apply keys_set_present; congruence).
  pose proof (inv_trip_ids _ I _ _ (get_In _ _ _ Ht)) as Hid.
  pose proof (get_In _ _ _ Hg) as Hin.
  constructor; simpl.
  - rewrite Keys. apply I.
  - intros k t H. entry_cases H I; [exact Hid | eapply inv_trip_ids; eauto].
  - apply NoDup_set, I.
  - intros k b0 H. entry_cases H I; eapply inv_booking_fresh; eauto.
  - intros k b0 H. entry_cases H I; [simpl|]; eapply inv_booking_seats; eauto.
  - intros k b0 H. entry_cases H I; [now right | eapply inv_booking_status; eauto].
  - intros k b0 H. rewrite Keys. entry_cases H I; [simpl|]; eapply inv_booking_trip; eauto.
  - intros t H. apply In_values in H. destruct H as [k H].
    unfold confirmed_seats. simpl.
    rewrite (confirmed_after_replace _ _ b) by exact Hg.
    rewrite !confirmed_in_one. simpl. rewrite Hst. simpl.
    rewrite andb_false_r, andb_true_r.
    apply In_set in H; [|apply I]. destruct H as [[-> ->]|[N H]].
    + simpl. rewrite Hid, Z.eqb_refl.
      pose proof (inv_conservation _ I trip) as C.
      unfold confirmed_seats in C. rewrite Hid in C.
      rewrite <- C; [lia|]. apply In_values. exists (Booking.trip_id b).
      now apply get_In.
    + pose proof (inv_trip_ids _ I _ _ H) as Hk. rewrite Hk.
      destruct (Booking.trip_id b =? k) eqn:E; [apply Z.eqb_eq in E; congruence|].
      rewrite Z.sub_0_r, Z.add_0_r. rewrite <- Hk.
      apply (inv_conservation _ I). apply In_values. eauto.
Qed.

Lemma ledger_inv_book self name age tid n :
  ledger_inv self -> ledger_inv (after (Console.book_ticket self name age tid n)).
Proof.
  intros I.
  destruct (result (Console.book_ticket self name age tid n)) as [[b|]|e] eqn:R.
  - destruct (console_book_inv _ _ _ _ _ _ R) as (trip & fare & Hg & Hn & Ha & Hm & ->).
    rewrite (console_book_ok _ name age _ _ _ _ Hg Hn Ha Hm). simpl.
    now apply ledger_inv_booked.
  - rewrite console_book_refused; [exact I | congruence].
  - rewrite console_book_refused; [exact I | congruence].
Qed.

Lemma console_cancel_ok self id b trip :
  Dict.get id (bookings self) = Some b ->
  Booking.status b = CONFIRMED ->
  Dict.get (Booking.trip_id b) (trips self) = Some trip ->
  Console.cancel_booking self id
  = mkRun (Return true) []
      (mkSystem
         (Dict.set (Booking.trip_id b)
            (Trip.with_seats_available
               (Trip.seats_available trip + Booking.num_seats b) trip)
            (trips self))
         (Dict.set id (Booking.with_status CANCELLED b) (bookings self))
         (next_trip_id self) (next_booking_id self)).
Proof.
  intros Hg Hs Ht. unfold Console.cancel_booking. now rewrite Hg, Hs, Ht.
Qed.

Lemma ledger_inv_cancel self id :
  ledger_inv self -> ledger_inv (after (Console.cancel_booking self id)).
Proof.
  intros I.
  destruct (Dict.get id (bookings self)) as [b|] eqn:Hg.
  - destruct (inv_booking_status _ I _ _ (get_In _ _ _ Hg)) as [Hs|Hs].
    + destruct (Dict.get (Booking.trip_id b) (trips self)) as [trip|] eqn:Ht.
      * rewrite (console_cancel_ok _ _ _ _ Hg Hs Ht). simpl.
        now apply ledger_inv_cancelled.
      * apply get_None_keys in Ht. destruct Ht.
        eapply inv_booking_trip; eauto using get_In.
    + now rewrite (console_cancel_cancelled _ _ _ Hg Hs).
  - unfold Console.cancel_booking. now rewrite Hg.
Qed.

Lemma perform_after_answer {A : Type} (wrap : A -> response) (r : run A) :
  snd (answer wrap r) = after r.
Proof. unfold answer. now destruct (result r). Qed.

Lemma ledger_inv_perform self c :
  ledger_inv self -> ledger_inv (snd (Console.perform self c)).
Proof.
  intros I. destruct c; simpl; auto; rewrite perform_after_answer.
  - now apply ledger_inv_book.
  - now apply ledger_inv_cancel.
Qed.

Lemma console_run_cons self c cs :
  Console.run_calls self (c :: cs)
  = (fst (Console.perform self c)
       :: fst (Console.run_calls (snd (Console.perform self c)) cs),
     snd (Console.run_calls (snd (Console.perform self c)) cs)).
Proof.
  simpl. destruct (Console.perform self c) as [a self1]. simpl.
  now destruct (Console.run_calls self1 cs).
Qed.

Lemma web_run_cons self c cs :
  Web.run_calls self (c :: cs)
  = (fst (Web.perform self c)
       :: fst (Web.run_calls (snd (Web.perform self c)) cs),
     snd (Web.run_calls (snd (Web.perform self c)) cs)).
Proof.
  simpl. destruct (Web.perform self c) as [a self1]. simpl.
  now destruct (Web.run_calls self1 cs).
Qed.

Lemma ledger_inv_run cs : forall self,
  ledger_inv self -> ledger_inv (snd (Console.run_calls self cs)).
Proof.
  induction cs as [|c cs IH]; intros self I; [exact I|].
  rewrite console_run_cons. simpl. now apply IH, ledger_inv_perform.
Qed.

(** ** Every call is a move of the ledger *)

Lemma web_book_refused self name age trip_id seats :
  (forall b, result (Web.book_ticket self name age trip_id seats)
             <> Return (Some b)) ->
  after (Web.book_ticket self name age trip_id seats) = self.
Proof.
  unfold Web.book_ticket.
  destruct (Py.int trip_id) as [e|key]; auto.
  destruct (Dict.get key (trips self)) as [trip|]; auto.
  destruct (Py.int seats) as [e|n]; auto.
  destruct ((n <=? 0) || (Trip.seats_available trip <? n))%bool; auto.
  destruct (Py.mul n (Trip.price_per_seat trip)); auto.
  destruct (Py.int age); auto.
  simpl. intros H. now destruct (H _ eq_refl).
Qed.

Lemma console_book_step self name age tid n :
  ledger_step self (after (Console.book_ticket self name age tid n)).
Proof.
  destruct (result (Console.book_ticket self name age tid n)) as [[b|]|e] eqn:R.
  - destruct (console_book_inv _ _ _ _ _ _ R) as (trip & fare & Hg & Hn & Ha & Hm & ->).
    rewrite (console_book_ok _ name age _ _ _ _ Hg Hn Ha Hm). simpl.
    apply (step_book self tid trip
             (Booking.mk (next_booking_id self) name age tid n fare CONFIRMED));
      simpl; auto.
  - rewrite console_book_refused; [constructor | congruence].
  - rewrite console_book_refused; [constructor | congruence].
Qed.

Lemma web_book_step self name age trip_id seats :
  ledger_step self (after (Web.book_ticket self name age trip_id seats)).
Proof.
  destruct (result (Web.book_ticket self name age trip_id seats)) as [[b|]|e] eqn:R.
  - destruct (web_book_inv _ _ _ _ _ _ R)
      as (key & n & a & trip & fare & Hk & Hs & Hage & Hg & Hn & Ha & Hm & -> & ->).
    apply (step_book self key trip
             (Booking.mk (next_booking_id self) name a (Trip.trip_id trip) n fare
                         CONFIRMED));
      simpl; auto.
  - rewrite web_book_refused; [constructor | congruence].
  - rewrite web_book_refused; [constructor | congruence].
Qed.

Lemma console_cancel_step self id :
  ledger_step self (after (Console.cancel_booking self id)).
Proof.
  unfold Console.cancel_booking.
  destruct (Dict.get id (bookings self)) as [b|] eqn:Hg; [|constructor].
  destruct (String.eqb (Booking.status b) CANCELLED) eqn:E; [constructor|].
  apply String.eqb_neq in E. simpl.
  pose proof (step_cancel self id b Hg E) as S.
  destruct (Dict.get (Booking.trip_id b) (trips self)); exact S.
Qed.

Lemma web_cancel_step self id :
  ledger_step self (after (Web.cancel_booking self id)).
Proof.
  unfold Web.cancel_booking.
  destruct (Py.int id) as [e|key]; [constructor|].
  destruct (Dict.get key (bookings self)) as [b|] eqn:Hg; [|constructor].
  destruct (String.eqb (Booking.status b) CANCELLED) eqn:E; [constructor|].
  apply String.eqb_neq in E. simpl.
  pose proof (step_cancel self key b Hg E) as S.
  destruct (Dict.get (Booking.trip_id b) (trips self)); exact S.
Qed.

Lemma console_perform_step self c : ledger_step self (snd (Console.perform self c)).
Proof.
  destruct c; simpl; try constructor; rewrite perform_after_answer.
  - apply console_book_step.
  - apply console_cancel_step.
Qed.

Lemma web_perform_step self c : ledger_step self (snd (Web.perform self c)).
Proof.
  destruct c; simpl; try constructor; rewrite perform_after_answer.
  - apply web_book_step.
  - apply web_cancel_step.
Qed.

Lemma menu_entry_step system e : ledger_step system (menu_entry system e).
Proof.
  destruct e as [name age tid n|id]; simpl.
  - unfold Console.menu_book_ticket.
    destruct (Py.int_of_str (Py.strip age)); [constructor|].
    destruct (Py.int_of_str (Py.strip tid)); [constructor|].
    destruct (Py.int_of_str (Py.strip n)); [constructor|].
    apply console_book_step.
  - unfold Console.menu_cancel_booking.
    destruct (Py.int_of_str (Py.strip id)); [constructor|].
    apply console_cancel_step.
Qed.

Lemma post_entry_step system e : ledger_step system (post_entry system e).
Proof.
  destruct e as [name age tid n|id]; simpl.
  - apply web_book_step.
  - apply web_cancel_step.
Qed.

Lemma steps_of_fold {A : Type} (f : ReservationSystem -> A -> ReservationSystem) :
  (forall s a, ledger_step s (f s a)) ->
  forall l s, ledger_steps s (fold_left f l s).
Proof.
  intros Hf l. induction l as [|a l IH]; intros s; simpl.
  - constructor.
  - eapply steps_more; [apply Hf | apply IH].
Qed.

Lemma console_run_steps cs : forall self,
  ledger_steps self (snd (Console.run_calls self cs)).
Proof.
  induction cs as [|c cs IH]; intros self; [constructor|].
  rewrite console_run_cons. simpl.
  eapply steps_more; [apply console_perform_step | apply IH].
Qed.

Lemma web_run_steps cs : forall self,
  ledger_steps self (snd (Web.run_calls self cs)).
Proof.
  induction cs as [|c cs IH]; intros self; [constructor|].
  rewrite web_run_cons. simpl.
  eapply steps_more; [apply web_perform_step | apply IH].
Qed.

Lemma runs_to_steps start s : runs_to start s -> ledger_steps start s.
Proof.
  intros [cs|cs|es|es].
  - apply console_run_steps.
  - apply web_run_steps.
  - apply steps_of_fold, menu_entry_step.
  - apply steps_of_fold, post_entry_step.
Qed.

(** A property kept by every move is kept by every run. *)
Lemma steps_keep (P : ReservationSystem -> Prop) :
  (forall s s', P s -> ledger_step s s' -> P s') ->
  forall s s', ledger_steps s s' -> P s -> P s'.
Proof.
  intros Keep s s' H. induction H as [|s s1 s2 H1 _ IH]; auto.
  intros Hs. apply IH. eapply Keep; eauto.
Qed.

Lemma seats_nonneg_step s s' :
  ledger_inv s -> seats_nonneg s -> ledger_step s s' -> seats_nonneg s'.
Proof.
  intros I N [|key trip b Hg Hn Ha Hst Hid Htid Hm|key b Hg Hst]; auto;
    intros t H; apply In_values in H; destruct H as [k H]; simpl in H.
  - entry_cases H I; [simpl; lia|]. apply N, In_values. eauto.
  - destruct (Dict.get (Booking.trip_id b) (trips s)) as [trip|] eqn:Ht.
    + entry_cases H I; [|apply N, In_values; eauto]. simpl.
      assert (0 <= Trip.seats_available trip)
        by (apply N, In_values; eauto using get_In).
      pose proof (inv_booking_seats _ I _ _ (get_In _ _ _ Hg)). lia.
    + apply N, In_values. eauto.
Qed.

Lemma seats_nonneg_init : seats_nonneg Console.__init__.
Proof.
  intros t H. simpl in H.
  repeat (destruct H as [<-|H]; [simpl; lia|]). contradiction.
Qed.

Lemma seats_nonneg_perform self c :
  ledger_inv self -> seats_nonneg self ->
  seats_nonneg (snd (Console.perform self c)).
Proof.
  intros I N. eapply seats_nonneg_step; eauto. apply console_perform_step.
Qed.

(** ** The seeded programs: bounded seats, integral fares *)

Lemma num_eqb_as_int p : integral p = true -> Py.num_eqb p (num_as_int p) = true.
Proof.
  destruct p as [z|f]; unfold integral, num_as_int.
  - intros _. apply Z.eqb_refl.
  - destruct (Py.float_integral f) as [z|] eqn:E; [|discriminate].
    intros _. unfold Py.num_eqb. rewrite E. apply Z.eqb_refl.
Qed.

Lemma fare_agrees_spec p n :
  fare_agrees p n = true ->
  exists g, Py.mul n p = inr g
            /\ Py.mul n (num_as_int p) = inr (num_as_int g)
            /\ integral g = true.
Proof.
  unfold fare_agrees.
  destruct (Py.mul n p) as [e|g]; [discriminate|].
  destruct (Py.mul n (num_as_int p)) as [e|[h|h]]; try discriminate.
  destruct (num_as_int g) as [z|z] eqn:E; [|discriminate].
  intros H. apply Z.eqb_eq in H. subst h. exists g.
  split; [reflexivity|]. split; [now rewrite E|].
  destruct g as [w|f]; [reflexivity|].
  unfold integral. unfold num_as_int in E.
  destruct (Py.float_integral f); [reflexivity | discriminate].
Qed.

(** On the seeded catalog every fare for 1 up to [total_seats] seats
    agrees (checked on every trip and seat count). *)
Lemma seeded_fares_agree t n :
  In t (Dict.values (trips Console.__init__)) ->
  0 < n <= Trip.total_seats t ->
  fare_agrees (Trip.price_per_seat t) n = true
  /\ integral (Trip.price_per_seat t) = true.
Proof.
  assert (All :
    forallb
      (fun t =>
         integral (Trip.price_per_seat t)
         && forallb (fun m => fare_agrees (Trip.price_per_seat t) (Z.of_nat m))
                    (seq 1 (Z.to_nat (Trip.total_seats t))))
      (Dict.values (trips Console.__init__)) = true) by (vm_compute; reflexivity).
  intros Ht Hn. rewrite forallb_forall in All. specialize (All t Ht).
  apply andb_true_iff in All. destruct All as [Hi All]. split; auto.
  rewrite forallb_forall in All. specialize (All (Z.to_nat n)).
  rewrite Z2Nat.id in All by lia. apply All, in_seq. lia.
Qed.

Lemma catalog_lookup self tid trip :
  catalog self = catalog Console.__init__ ->
  Dict.get tid (trips self) = Some trip ->
  exists t0, In t0 (Dict.values (trips Console.__init__))
             /\ Trip.price_per_seat trip = Trip.price_per_seat t0
             /\ Trip.total_seats trip = Trip.total_seats t0.
Proof.
  intros C Hg.
  assert (G : Dict.get tid (catalog self) = Some (Trip.with_seats_available 0 trip)).
  { unfold catalog. now rewrite get_map_values, Hg. }
  rewrite C in G. apply get_In in G. unfold catalog, Dict.map_values in G.
  apply in_map_iff in G. destruct G as [[k t0] [E H]]. simpl in E.
  exists t0. split.
  - apply In_values. eauto.
  - pose proof (f_equal snd E) as E2.
    split; [exact (eq_sym (f_equal Trip.price_per_seat E2))
           |exact (eq_sym (f_equal Trip.total_seats E2))].
Qed.

Lemma confirmed_in_nonneg l tid :
  (forall b, In b l -> 0 < Booking.num_seats b) -> 0 <= confirmed_in l tid.
Proof.
  induction l as [|b l IH]; intros H.
  - unfold confirmed_in. simpl. lia.
  - rewrite confirmed_in_cons, confirmed_in_one.
    pose proof (H b (or_introl eq_refl)).
    assert (0 <= confirmed_in l tid) by (apply IH; intros; apply H; now right).
    destruct ((Booking.trip_id b =? tid) && _)%bool; lia.
Qed.

Lemma seats_le_total self tid trip :
  ledger_inv self ->
  Dict.get tid (trips self) = Some trip ->
  Trip.seats_available trip <= Trip.total_seats trip.
Proof.
  intros I Hg.
  pose proof (inv_conservation _ I trip) as C.
  assert (0 <= confirmed_seats self (Trip.trip_id trip)).
  { apply confirmed_in_nonneg. intros b Hb. apply In_values in Hb.
    destruct Hb as [k Hb]. eapply inv_booking_seats; eauto. }
  rewrite <- C; [lia|]. apply In_values. exists tid. now apply get_In.
Qed.

Lemma seeded_fare self tid trip n :
  seeded_inv self ->
  Dict.get tid (trips self) = Some trip ->
  0 < n <= Trip.seats_available trip ->
  fare_agrees (Trip.price_per_seat trip) n = true.
Proof.
  intros [I C F] Hg Hn.
  destruct (catalog_lookup _ _ _ C Hg) as (t0 & Ht0 & -> & Etot).
  apply seeded_fares_agree; auto.
  pose proof (seats_le_total _ _ _ I Hg). lia.
Qed.

Lemma seeded_price_integral self k t :
  seeded_inv self -> In (k, t) (trips self) ->
  integral (Trip.price_per_seat t) = true.
Proof.
  intros [I C F] H. apply In_get in H; [|apply I].
  destruct (catalog_lookup _ _ _ C H) as (t0 & Ht0 & -> & Etot).
  unfold integral.
  assert (All : forallb (fun t => integral (Trip.price_per_seat t))
                        (Dict.values (trips Console.__init__)) = true)
    by (vm_compute; reflexivity).
  rewrite forallb_forall in All. exact (All t0 Ht0).
Qed.

Lemma catalog_after_set self tid trip a :
  Dict.get tid (trips self) = Some trip ->
  Dict.map_values (Trip.with_seats_available 0)
    (Dict.set tid (Trip.with_seats_available a trip) (trips self))
  = catalog self.
Proof.
  intros Hg. rewrite <- set_map_values. apply set_get_id.
  unfold catalog. now rewrite get_map_values, Hg.
Qed.

Lemma seeded_inv_init : seeded_inv Console.__init__.
Proof.
  constructor; [apply ledger_inv_init | reflexivity |].
  intros k b H. simpl in H. contradiction.
Qed.

Lemma seeded_inv_book self name age tid n :
  seeded_inv self -> seeded_inv (after (Console.book_ticket self name age tid n)).
Proof.
  intros S. pose proof S as [I C F].
  destruct (result (Console.book_ticket self name age tid n)) as [[b|]|e] eqn:R.
  - destruct (console_book_inv _ _ _ _ _ _ R) as (trip & fare & Hg & Hn & Ha & Hm & ->).
    destruct (fare_agrees_spec _ _ (seeded_fare _ _ _ _ S Hg (conj Hn Ha)))
      as (g & Hm' & _ & Hint).
    assert (g = fare) by congruence. subst g.
    constructor.
    + now apply ledger_inv_book.
    + rewrite (console_book_ok _ name age _ _ _ _ Hg Hn Ha Hm).
      unfold catalog at 1. simpl. rewrite catalog_after_set by exact Hg. exact C.
    + rewrite (console_book_ok _ name age _ _ _ _ Hg Hn Ha Hm). simpl.
      intros k b H. entry_cases H I; [exact Hint | eapply F; eauto].
  - rewrite console_book_refused; [exact S | congruence].
  - rewrite console_book_refused; [exact S | congruence].
Qed.

Lemma seeded_inv_cancel self id :
  seeded_inv self -> seeded_inv (after (Console.cancel_booking self id)).
Proof.
  intros S. pose proof S as [I C F].
  constructor; [now apply ledger_inv_cancel | |];
    unfold Console.cancel_booking;
    destruct (Dict.get id (bookings self)) as [b|] eqn:Hg; auto;
    destruct (String.eqb (Booking.status b) CANCELLED); auto;
    destruct (Dict.get (Booking.trip_id b) (trips self)) as [trip|] eqn:Ht;
    simpl; auto.
  - unfold catalog at 1. simpl. rewrite catalog_after_set by exact Ht. exact C.
  - intros k b0 H. entry_cases H I; [simpl|]; eapply F; eauto using get_In.
  - intros k b0 H. entry_cases H I; [simpl|]; eapply F; eauto using get_In.
Qed.

Lemma seeded_inv_perform self c :
  seeded_inv self -> seeded_inv (snd (Console.perform self c)).
Proof.
  intros S. destruct c; simpl; auto; rewrite perform_after_answer.
  - now apply seeded_inv_book.
  - now apply seeded_inv_cancel.
Qed.

Lemma seeded_inv_run cs : forall self,
  seeded_inv self -> seeded_inv (snd (Console.run_calls self cs)).
Proof.
  induction cs as [|c cs IH]; intros self S; [exact S|].
  rewrite console_run_cons. simpl. now apply IH, seeded_inv_perform.
Qed.

(** The fare product exists in every instance the seeded console program
    reaches, for any seat count the trip can serve. *)
Lemma seeded_fare_defined cs tid trip n :
  Dict.get tid (trips (snd (Console.run_calls Console.__init__ cs))) = Some trip ->
  0 < n <= Trip.seats_available trip ->
  exists fare, Py.mul n (Trip.price_per_seat trip) = inr fare.
Proof.
  intros Hg Hn.
  pose proof (seeded_inv_run cs _ seeded_inv_init) as S.
  destruct (fare_agrees_spec _ _ (seeded_fare _ _ _ _ S Hg Hn)) as (g & Hm & _).
  eauto.
Qed.

(** C1.  Starting from the seeded instance, after any sequence of calls
    (bookings and cancellations, successful or refused, repeated or not,
    with the two listings in between), every trip of the catalog has
    [seats_available] plus the seats of the CONFIRMED bookings that carry
    its id equal to [total_seats]. *)
Theorem seat_conservation_always (cs : list call) :
  seat_conservation (snd (Console.run_calls Console.__init__ cs)).
Proof. apply inv_conservation, ledger_inv_run, ledger_inv_init. Qed.

(** ** The web program follows the console program *)

Lemma list_eqb_map {A : Type} (eqb : A -> A -> bool) (g : A -> A) (l : list A) :
  (forall a, In a l -> eqb a (g a) = true) -> list_eqb eqb l (map g l) = true.
Proof.
  induction l as [|a l IH]; intros H; simpl; auto.
  rewrite (H a (or_introl eq_refl)). apply IH. intros b Hb. apply H. now right.
Qed.

Lemma trip_eqb_as_int t :
  integral (Trip.price_per_seat t) = true -> trip_eqb t (trip_as_int t) = true.
Proof.
  intros H. unfold trip_eqb, trip_as_int. cbn [Trip.trip_id Trip.source
    Trip.destination Trip.date Trip.time Trip.total_seats Trip.seats_available
    Trip.price_per_seat].
  now rewrite !Z.eqb_refl, !String.eqb_refl, num_eqb_as_int.
Qed.

Lemma booking_eqb_as_int b :
  integral (Booking.total_fare b) = true -> booking_eqb b (booking_as_int b) = true.
Proof.
  intros H. unfold booking_eqb, booking_as_int. cbn [Booking.booking_id
    Booking.passenger_name Booking.passenger_age Booking.trip_id
    Booking.num_seats Booking.total_fare Booking.status].
  now rewrite !Z.eqb_refl, !String.eqb_refl, num_eqb_as_int.
Qed.

Lemma system_eqb_as_int self :
  seeded_inv self -> system_eqb self (system_as_int self) = true.
Proof.
  intros S. unfold system_eqb, system_as_int. simpl.
  rewrite !Z.eqb_refl, !andb_true_r. apply andb_true_iff. split.
  - apply list_eqb_map. intros [k t] H. unfold entry_eqb. simpl.
    rewrite Z.eqb_refl. simpl. apply trip_eqb_as_int.
    eapply seeded_price_integral; eauto.
  - apply list_eqb_map. intros [k b] H. unfold entry_eqb. simpl.
    rewrite Z.eqb_refl. simpl. apply booking_eqb_as_int.
    eapply seeded_fares; eauto.
Qed.

Lemma web_init_as_int : Web.__init__ = system_as_int Console.__init__.
Proof. vm_compute. reflexivity. Qed.

Lemma seeded_seats_short self tid trip :
  seeded_inv self -> seats_nonneg self ->
  Dict.get tid (trips self) = Some trip ->
  0 <= Trip.seats_available trip < 100.
Proof.
  intros S N Hg. destruct S as [I C F].
  assert (0 <= Trip.seats_available trip)
    by (apply N, In_values; eauto using get_In).
  pose proof (seats_le_total _ _ _ I Hg).
  destruct (catalog_lookup _ _ _ C Hg) as (t0 & Ht0 & _ & Etot).
  assert (Trip.total_seats t0 <= 50).
  { simpl in Ht0.
    repeat (destruct Ht0 as [<-|Ht0]; [simpl; lia|]). contradiction. }
  lia.
Qed.

(** The web [book_ticket] on the int-priced instance leaves what the
    console one leaves on the float-priced instance, and answers alike
    when the console can print its refusal. *)
Lemma web_book_as_int self name age tid n :
  seeded_inv self -> seats_nonneg self ->
  after (Web.book_ticket (system_as_int self) name
           (Py.VInt age) (Py.VInt tid) (Py.VInt n))
  = system_as_int (after (Console.book_ticket self name age tid n))
  /\ (n < Py.str_limit ->
      exists ob,
        result (Console.book_ticket self name age tid n) = Return ob
        /\ result (Web.book_ticket (system_as_int self) name
                     (Py.VInt age) (Py.VInt tid) (Py.VInt n))
           = Return (option_map booking_as_int ob)
        /\ response_eqb (Booked ob) (Booked (option_map booking_as_int ob))
           = true)
  /\ (Py.str_limit <= n ->
      forall trip, Dict.get tid (trips self) = Some trip ->
        result (Console.book_ticket self name age tid n) = Raise Py.ValueError
        /\ result (Web.book_ticket (system_as_int self) name
                     (Py.VInt age) (Py.VInt tid) (Py.VInt n))
           = Return None).
Proof.
  intros S N. pose proof str_limit_big as Big.
  assert (WebNone :
    forall trip, Dict.get tid (trips self) = Some trip ->
      n <= 0 \/ Trip.seats_available trip < n ->
      Web.book_ticket (system_as_int self) name
        (Py.VInt age) (Py.VInt tid) (Py.VInt n)
      = mkRun (Return None) [] (system_as_int self)).
  { intros trip Hg Hr. unfold Web.book_ticket. simpl.
    rewrite get_map_values, Hg. simpl. destruct Hr as [Hr|Hr].
    - apply Z.leb_le in Hr. now rewrite Hr.
    - apply Z.ltb_lt in Hr. now rewrite Hr, orb_true_r. }
  destruct (Dict.get tid (trips self)) as [trip|] eqn:Hg.
  - pose proof (seeded_seats_short _ _ _ S N Hg) as Short.
    destruct (Z.leb_spec n 0) as [Hn|Hn];
      [|destruct (Z.ltb_spec (Trip.seats_available trip) n) as [Ha|Ha]].
    + rewrite (WebNone trip eq_refl (or_introl Hn)).
      assert (C : Console.book_ticket self name age tid n
                  = mkRun (Return None)
                      ["Number of seats must be at least 1."] self).
      { unfold Console.book_ticket. rewrite Hg.
        apply Z.leb_le in Hn. now rewrite Hn. }
      rewrite C. simpl. split; [reflexivity|]. split.
      * intros _. exists None. auto.
      * intros L. lia.
    + rewrite (WebNone trip eq_refl (or_intror Ha)). simpl.
      destruct (Z.lt_ge_cases n Py.str_limit) as [L|L].
      * assert (C : Console.book_ticket self name age tid n
                    = mkRun (Return None)
                        ["Only " ++ Py.decimal (Trip.seats_available trip)
                         ++ " seats available on this trip. Requested: "
                         ++ Py.decimal n] self).
        { unfold Console.book_ticket. rewrite Hg.
          destruct (n <=? 0) eqn:E1; [apply Z.leb_le in E1; lia|].
          destruct (Trip.seats_available trip <? n) eqn:E2;
            [|apply Z.ltb_ge in E2; lia].
          now rewrite !str_of_int_short by lia. }
        rewrite C. simpl. split; [reflexivity|]. split.
        -- intros _. exists None. auto.
        -- intros L'. lia.
      * rewrite (console_book_overlong _ name age _ _ _ Hg Hn Ha (or_intror L)).
        simpl. split; [reflexivity|]. split.
        -- intros L'. lia.
        -- intros _ t [= <-]. auto.
    + destruct (fare_agrees_spec _ _ (seeded_fare _ _ _ _ S Hg (conj Hn Ha)))
        as (g & Hm & Hm' & Hint).
      pose proof (inv_trip_ids _ (seeded_ledger _ S) _ _ (get_In _ _ _ Hg)) as Hid.
      rewrite (console_book_ok _ name age _ _ _ _ Hg Hn Ha Hm).
      rewrite (web_book_ok (system_as_int self) name age tid n
                 (trip_as_int trip) (num_as_int g)); auto;
        [|simpl; now rewrite get_map_values, Hg].
      simpl. rewrite Hid. split; [|split].
      * unfold system_as_int. simpl. rewrite <- !set_map_values. reflexivity.
      * intros _. eexists. split; [reflexivity|]. split; [reflexivity|].
        now apply (booking_eqb_as_int (Booking.mk _ _ _ _ _ g _)).
      * intros L. lia.
  - assert (C : Console.book_ticket self name age tid n
                = mkRun (Return None) ["Invalid trip ID."] self)
      by (unfold Console.book_ticket; now rewrite Hg).
    assert (W : Web.book_ticket (system_as_int self) name
                  (Py.VInt age) (Py.VInt tid) (Py.VInt n)
                = mkRun (Return None) [] (system_as_int self)).
    { unfold Web.book_ticket. simpl. now rewrite get_map_values, Hg. }
    rewrite C, W. simpl. split; [reflexivity|]. split.
    + intros _. exists None. auto.
    + intros _ t [=].
Qed.

Lemma web_cancel_as_int self id :
  result (Web.cancel_booking (system_as_int self) (Py.VInt id))
  = result (Console.cancel_booking self id)
  /\ after (Web.cancel_booking (system_as_int self) (Py.VInt id))
     = system_as_int (after (Console.cancel_booking self id)).
Proof.
  unfold Console.cancel_booking, Web.cancel_booking. simpl.
  rewrite get_map_values.
  destruct (Dict.get id (bookings self)) as [b|]; simpl; auto.
  destruct (String.eqb (Booking.status b) CANCELLED); simpl; auto.
  rewrite get_map_values.
  destruct (Dict.get (Booking.trip_id b) (trips self)) as [trip|]; simpl;
    (split; [reflexivity|]); unfold system_as_int; simpl;
    rewrite <- !set_map_values; reflexivity.
Qed.

Lemma perform_as_int self c :
  seeded_inv self -> seats_nonneg self ->
  (formats c = true ->
   response_eqb (fst (Console.perform self c))
                (fst (Web.perform (system_as_int self) c)) = true)
  /\ snd (Web.perform (system_as_int self) c)
     = system_as_int (snd (Console.perform self c)).
Proof.
  intros S N. destruct c as [|name age tid n|id|]; simpl.
  - split; auto. intros _.
    unfold Web.list_all_trips, Console.list_all_trips. simpl.
    rewrite values_map_values. apply list_eqb_map. intros t H.
    apply In_values in H. destruct H as [k H].
    apply trip_eqb_as_int. eapply seeded_price_integral; eauto.
  - destruct (web_book_as_int self name age tid n S N) as (Aw & Short & _).
    rewrite !perform_after_answer. split; [|exact Aw].
    intros L. apply Z.ltb_lt in L.
    destruct (Short L) as (ob & Rc & Rw & E).
    unfold answer. now rewrite Rc, Rw.
  - destruct (web_cancel_as_int self id) as [Rw Aw].
    rewrite !perform_after_answer. split; [|exact Aw]. intros _.
    unfold answer. rewrite Rw.
    destruct (result (Console.cancel_booking self id)) as [ok|e] eqn:R; simpl.
    + apply eqb_reflx.
    + revert R. unfold Console.cancel_booking.
      destruct (Dict.get id (bookings self)) as [b|]; [|discriminate].
      destruct (String.eqb (Booking.status b) CANCELLED); discriminate.
  - split; auto. intros _.
    unfold Web.list_all_bookings, Console.list_all_bookings. simpl.
    rewrite values_map_values. apply list_eqb_map. intros b H.
    apply In_values in H. destruct H as [k H].
    apply booking_eqb_as_int. eapply seeded_fares; eauto.
Qed.

Lemma run_calls_as_int cs : forall self,
  seeded_inv self -> seats_nonneg self ->
  (forallb formats cs = true ->
   list_eqb response_eqb (fst (Console.run_calls self cs))
                         (fst (Web.run_calls (system_as_int self) cs)) = true)
  /\ snd (Web.run_calls (system_as_int self) cs)
     = system_as_int (snd (Console.run_calls self cs)).
Proof.
  induction cs as [|c cs IH]; intros self S N; [simpl; auto|].
  rewrite console_run_cons, web_run_cons. simpl.
  destruct (perform_as_int self c S N) as [E ->].
  destruct (IH (snd (Console.perform self c))
              (seeded_inv_perform _ c S)
              (seats_nonneg_perform _ c (seeded_ledger _ S) N)) as [E' A'].
  split; [|exact A'].
  intros F. apply andb_true_iff in F. destruct F as [F1 F2].
  now rewrite (E F1), (E' F2).
Qed.




(** Seat conservation in the web program, with int arguments. *)
Lemma confirmed_in_as_int l tid :
  confirmed_in (map booking_as_int l) tid = confirmed_in l tid.
Proof.
  induction l as [|b l IH]; auto.
  simpl map. rewrite (confirmed_in_cons (booking_as_int b)), (confirmed_in_cons b), IH.
  now rewrite !confirmed_in_one.
Qed.

Lemma web_seat_conservation_always (cs : list call) :
  seat_conservation (snd (Web.run_calls Web.__init__ cs)).
Proof.
  rewrite web_init_as_int.
  destruct (run_calls_as_int cs _ seeded_inv_init seats_nonneg_init) as [_ ->].
  pose proof (inv_conservation _ (ledger_inv_run cs _ ledger_inv_init)) as C.
  intros t H. unfold system_as_int in H. simpl in H.
  rewrite values_map_values in H. apply in_map_iff in H.
  destruct H as (t0 & <- & H0).
  unfold confirmed_seats, system_as_int. simpl.
  rewrite values_map_values, confirmed_in_as_int. now apply C.
Qed.

(** C10.  Booking exactly the free seats of a trip that has some returns
    a booking of that many seats and leaves the trip with none: in every
    instance where the fare product exists, in both programs; and so in
    every instance the seeded console program and the seeded web program
    reach. *)
Theorem book_ticket_last_seats :
  (forall self name age tid trip fare,
      Dict.get tid (trips self) = Some trip ->
      0 < Trip.seats_available trip ->
      Py.mul (Trip.seats_available trip) (Trip.price_per_seat trip) = inr fare ->
      takes_last_seats
        (Console.book_ticket self name age tid (Trip.seats_available trip))
        tid (Trip.seats_available trip)
      /\ takes_last_seats
           (Web.book_ticket self name (Py.VInt age) (Py.VInt tid)
              (Py.VInt (Trip.seats_available trip)))
           tid (Trip.seats_available trip))
  /\ (forall cs name age tid trip,
         let self := snd (Console.run_calls Console.__init__ cs) in
         Dict.get tid (trips self) = Some trip ->
         0 < Trip.seats_available trip ->
         takes_last_seats
           (Console.book_ticket self name age tid (Trip.seats_available trip))
           tid (Trip.seats_available trip))
  /\ (forall cs name age tid trip,
         let self := snd (Web.run_calls Web.__init__ cs) in
         Dict.get tid (trips self) = Some trip ->
         0 < Trip.seats_available trip ->
         takes_last_seats
           (Web.book_ticket self name (Py.VInt age) (Py.VInt tid)
              (Py.VInt (Trip.seats_available trip)))
           tid (Trip.seats_available trip)).
Proof.
  split; [exact last_seats_general|split].
  - intros cs name age tid trip self Hg Hn.
    destruct (seeded_fare_defined cs tid trip (Trip.seats_available trip) Hg)
      as [fare Hm]; [lia|].
    exact (proj1 (last_seats_general self name age tid trip fare Hg Hn Hm)).
  - intros cs name age tid trip self Hg Hn. subst self. revert Hg.
    rewrite web_init_as_int.
    destruct (run_calls_as_int cs _ seeded_inv_init seats_nonneg_init) as [_ ->].
    pose proof (seeded_inv_run cs _ seeded_inv_init) as S.
    set (sc := snd (Console.run_calls Console.__init__ cs)) in *.
    intros Hg. pose proof Hg as Hg'. simpl in Hg'. rewrite get_map_values in Hg'.
    destruct (Dict.get tid (trips sc)) as [t0|] eqn:G0; [|discriminate].
    injection Hg' as <-.
    destruct (fare_agrees_spec _ _
                (seeded_fare sc tid t0 (Trip.seats_available t0) S G0
                   (conj Hn (Z.le_refl _))))
      as (g & _ & Hm & _).
    exact (proj2 (last_seats_general (system_as_int sc) name age tid
                    (trip_as_int t0) (num_as_int g) Hg Hn Hm)).
Qed.

Lemma book_ticket_last_seats_witness :
  takes_last_seats (Console.book_ticket Console.__init__ "Asha" 30 1 40) 1 40
  /\ takes_last_seats
       (Web.book_ticket Web.__init__ "Asha" (Py.VInt 30) (Py.VInt 1) (Py.VInt 40))
       1 40.
Proof.
  split.
  - apply (proj1 (proj1 book_ticket_last_seats Console.__init__ "Asha" 30 1
             (Trip.mk 1 "Bhopal" "Indore" "2025-12-10" "09:00" 40 40 (Py.Float 450.0))
             (Py.Float 18000.0) eq_refl eq_refl eq_refl)).
  - apply (proj2 (proj2 book_ticket_last_seats) [] "Asha" 30 1
             (Trip.mk 1 "Bhopal" "Indore" "2025-12-10" "09:00" 40 40 (Py.Int 450))
             eq_refl eq_refl).
Defined.

(* ================================================================== *)
(** * Part III: the rest of the two classes and their callers *)
(* ================================================================== *)

(** ** What every move keeps *)

Lemma catalog_step s s' : ledger_step s s' -> catalog s' = catalog s.
Proof.
  intros [|key trip b Hg _ _ _ _ _ _|key b Hg _]; auto; unfold catalog at 1; simpl.
  - now apply catalog_after_set.
  - destruct (Dict.get (Booking.trip_id b) (trips s)) as [trip|] eqn:Ht; auto.
    now apply catalog_after_set.
Qed.

Lemma ledger_inv_step s s' : ledger_inv s -> ledger_step s s' -> ledger_inv s'.
Proof.
  intros I [|key trip b Hg Hn Ha Hst Hid Htid Hm|key b Hg Hst]; auto.
  - apply ledger_inv_booked; auto.
    destruct Htid as [E|E]; auto.
    rewrite E. apply (inv_trip_ids _ I). now apply get_In.
  - pose proof (get_In _ _ _ Hg) as Hin.
    destruct (inv_booking_status _ I _ _ Hin) as [Hc|Hc]; [|contradiction].
    destruct (Dict.get (Booking.trip_id b) (trips s)) as [trip|] eqn:Ht.
    + now apply ledger_inv_cancelled.
    + apply get_None_keys in Ht. destruct Ht. eapply inv_booking_trip; eauto.
Qed.

Lemma keys_set {V : Type} (d : Dict.t V) k0 v k :
  In k (Dict.keys (Dict.set k0 v d)) -> k = k0 \/ In k (Dict.keys d).
Proof.
  induction d as [|[k' v'] r IH]; simpl.
  - intros [<-|[]]. now left.
  - destruct (k0 =? k') eqn:E; simpl.
    + apply Z.eqb_eq in E. subst k'. intros [<-|H]; auto.
    + intros [<-|H]; auto. destruct (IH H); auto.
Qed.

Lemma fresh_bookings_step s s' :
  fresh_bookings s -> ledger_step s s' -> fresh_bookings s'.
Proof.
  intros F [|key trip b Hg _ _ _ _ _ _|key b Hg _]; auto; intros k H; simpl in *.
  - apply keys_set in H. destruct H as [->|H]; [lia|]. apply F in H. lia.
  - rewrite keys_set_present in H by congruence. now apply F.
Qed.

Lemma fresh_trips_step s s' :
  fresh_trips s -> ledger_step s s' -> fresh_trips s'.
Proof.
  intros F [|key trip b Hg _ _ _ _ _ _|key b Hg _]; auto; intros k H; simpl in *.
  - rewrite keys_set_present in H by congruence. now apply F.
  - destruct (Dict.get (Booking.trip_id b) (trips s)) eqn:Ht; [|now apply F].
    rewrite keys_set_present in H by congruence. now apply F.
Qed.

(** With the catalog unchanged, a trip keeps its price. *)
Lemma price_kept s s' k t :
  catalog s' = catalog s ->
  Dict.get k (trips s) = Some t ->
  exists t', Dict.get k (trips s') = Some t'
             /\ Trip.price_per_seat t' = Trip.price_per_seat t
             /\ Trip.total_seats t' = Trip.total_seats t.
Proof.
  intros C Hg.
  assert (G : Dict.get k (catalog s') = Some (Trip.with_seats_available 0 t)).
  { rewrite C. unfold catalog. now rewrite get_map_values, Hg. }
  unfold catalog in G. rewrite get_map_values in G.
  destruct (Dict.get k (trips s')) as [t'|]; [|discriminate].
  exists t'. split; auto.
  assert (G2 : Trip.with_seats_available 0 t' = Trip.with_seats_available 0 t)
    by (cbn [option_map] in G; congruence).
  split.
  - exact (f_equal Trip.price_per_seat G2).
  - exact (f_equal Trip.total_seats G2).
Qed.

Lemma fares_fixed_step s s' :
  ledger_inv s -> fares_fixed s -> ledger_step s s' -> fares_fixed s'.
Proof.
  intros I F S. pose proof (catalog_step _ _ S) as C.
  assert (Old : forall b0 b0',
            (exists k, In (k, b0) (bookings s)) ->
            Booking.trip_id b0' = Booking.trip_id b0 ->
            Booking.num_seats b0' = Booking.num_seats b0 ->
            Booking.total_fare b0' = Booking.total_fare b0 ->
            exists trip,
              Dict.get (Booking.trip_id b0') (trips s') = Some trip
              /\ Py.mul (Booking.num_seats b0') (Trip.price_per_seat trip)
                 = inr (Booking.total_fare b0')).
  { intros b0 b0' [k H] -> -> ->. destruct (F _ _ H) as (trip & Hg & Hm).
    destruct (price_kept _ _ _ _ C Hg) as (t' & Hg' & Ep & _).
    exists t'. rewrite Ep. auto. }
  destruct S as [|key trip b Hg Hn Ha Hst Hid Htid Hm|key b Hg Hst]; auto;
    intros k b0 H; simpl in H.
  - entry_cases H I; [|apply (Old b0); eauto].
    assert (E : Booking.trip_id b = key).
    { destruct Htid as [E|E]; auto. rewrite E.
      apply (inv_trip_ids _ I). now apply get_In. }
    rewrite E. simpl. rewrite get_set_same. eexists. split; [reflexivity|].
    exact Hm.
  - entry_cases H I; [|apply (Old b0); eauto].
    apply (Old b); eauto using get_In.
Qed.

Lemma below_counter n m :
  In n (map Z.of_nat (seq 1 (Z.to_nat (m - 1)))) -> 1 <= n < m.
Proof.
  intros H. apply in_map_iff in H. destruct H as (i & <- & H).
  apply in_seq in H. lia.
Qed.

Lemma sequential_ids_step s s' :
  sequential_ids s -> ledger_step s s' -> sequential_ids s'.
Proof.
  intros (H1 & Hk & Hb) [|key trip b Hg Hn Ha Hst Hid Htid Hm|key b Hg Hst];
    unfold sequential_ids; simpl.
  - repeat split; auto.
  - assert (Fr : ~ In (next_booking_id s) (Dict.keys (bookings s))).
    { rewrite Hk. intros H. apply below_counter in H. lia. }
    rewrite (set_fresh (bookings s)) by exact Fr. repeat split; simpl; [lia| |].
    + unfold Dict.keys in *. rewrite map_app, Hk. simpl.
      replace (Z.to_nat (next_booking_id s + 1 - 1))
        with (S (Z.to_nat (next_booking_id s - 1))) by lia.
      rewrite seq_S, map_app. simpl. do 3 f_equal. lia.
    + intros k b0 H. apply in_app_iff in H. destruct H as [H|[[= <- <-]|[]]]; eauto.
  - repeat split; simpl; auto.
    + rewrite keys_set_present by congruence. exact Hk.
    + intros k b0 H.
      destruct (set_present (bookings s) key (Booking.with_status CANCELLED b) b Hg)
        as (d1 & d2 & E1 & E2 & _).
      rewrite E2 in H. apply in_app_iff in H.
      destruct H as [H|[[= <- <-]|H]].
      * apply (Hb k b0). rewrite E1. apply in_app_iff. now left.
      * simpl. apply (Hb key b). now apply get_In.
      * apply (Hb k b0). rewrite E1. apply in_app_iff. right. now right.
Qed.

(** A booking stays in the ledger under its id; at most its status
    changes, and only to CANCELLED. *)
Lemma booking_kept_step s s' id b :
  fresh_bookings s -> ledger_step s s' ->
  Dict.get id (bookings s) = Some b ->
  exists b', Dict.get id (bookings s') = Some b'
             /\ (b' = b
                 \/ (Booking.status b <> CANCELLED
                     /\ b' = Booking.with_status CANCELLED b)).
Proof.
  intros F [|key trip b0 Hg _ _ _ _ _ _|key b0 Hg Hst] Hb; simpl; eauto.
  - exists b. split; auto. rewrite get_set_other; auto.
    pose proof (F id (In_keys _ _ _ (get_In _ _ _ Hb))). lia.
  - destruct (Z.eq_dec id key) as [->|N].
    + rewrite get_set_same. assert (b0 = b) by congruence. subst b0. eauto.
    + rewrite get_set_other by exact N. eauto.
Qed.

Lemma with_status_same b : 
  Booking.with_status (Booking.status b) b = b.
Proof. now destruct b. Qed.

Lemma booking_kept_steps s s' :
  ledger_steps s s' -> fresh_bookings s ->
  forall id b,
    Dict.get id (bookings s) = Some b ->
    exists b', Dict.get id (bookings s') = Some b'
               /\ (b' = b
                   \/ (Booking.status b <> CANCELLED
                       /\ b' = Booking.with_status CANCELLED b)).
Proof.
  intros H. induction H as [|s s1 s2 H1 _ IH]; intros F id b Hb; eauto.
  destruct (booking_kept_step _ _ _ _ F H1 Hb) as (b1 & Hb1 & C1).
  destruct (IH (fresh_bookings_step _ _ F H1) _ _ Hb1) as (b2 & Hb2 & C2).
  exists b2. split; auto.
  destruct C1 as [->|[N ->]]; auto.
  destruct C2 as [->|[N2 _]]; auto. now destruct N2.
Qed.

(** ** When a booking is made, and what a refusal leaves *)

Lemma mul_raises_overflow n p e : Py.mul n p = inl e -> e = Py.OverflowError.
Proof.
  destruct p as [z|f]; simpl; [discriminate|].
  unfold Py.float_of_int.
  destruct (binary_normalize prec emax n 0 false); simpl; congruence.
Qed.

(** X1.  The console [book_ticket], on any instance: it returns a booking
    exactly when the trip id is that of a trip, the seat count is at least
    1 and at most the free seats, and the fare product exists; in every
    other case, an exception included, the instance is left as it was; an
    unknown trip id is answered with "Invalid trip ID." whatever the seat
    count; it raises only on a trip that exists and a seat count of at
    least 1, and then either [OverflowError], from the fare product when
    the seats are free, or [ValueError], from formatting the refusal for
    too few free seats when one of its two numbers has more than 4300
    digits. *)
Theorem console_book_ticket_decides self name age tid n :
  ((exists b, result (Console.book_ticket self name age tid n) = Return (Some b))
   <-> exists trip fare,
         Dict.get tid (trips self) = Some trip
         /\ 0 < n <= Trip.seats_available trip
         /\ Py.mul n (Trip.price_per_seat trip) = inr fare)
  /\ ((forall b, result (Console.book_ticket self name age tid n)
                 <> Return (Some b)) ->
      after (Console.book_ticket self name age tid n) = self)
  /\ (Dict.get tid (trips self) = None ->
      Console.book_ticket self name age tid n
      = mkRun (Return None) ["Invalid trip ID."] self)
  /\ (forall e, result (Console.book_ticket self name age tid n) = Raise e ->
      exists trip,
        Dict.get tid (trips self) = Some trip /\ 0 < n
        /\ ((e = Py.OverflowError
             /\ n <= Trip.seats_available trip
             /\ Py.mul n (Trip.price_per_seat trip) = inl Py.OverflowError)
            \/ (e = Py.ValueError
                /\ Trip.seats_available trip < n
                /\ (Py.str_limit <= Z.abs (Trip.seats_available trip)
                    \/ Py.str_limit <= n)))).
Proof.
  split; [|split; [|split]].
  - split.
    + intros [b R].
      destruct (console_book_inv _ _ _ _ _ _ R) as (trip & fare & Hg & Hn & Ha & Hm & _).
      exists trip, fare. auto.
    + intros (trip & fare & Hg & [Hn Ha] & Hm).
      rewrite (console_book_ok _ name age _ _ _ _ Hg Hn Ha Hm). simpl. eauto.
  - apply console_book_refused.
  - intros Hg. unfold Console.book_ticket. now rewrite Hg.
  - intros e. unfold Console.book_ticket.
    destruct (Dict.get tid (trips self)) as [trip|]; [|discriminate].
    destruct (Z.leb_spec n 0) as [Hn|Hn]; [discriminate|].
    destruct (Z.ltb_spec (Trip.seats_available trip) n) as [Ha|Ha].
    + destruct (Z.lt_ge_cases (Z.abs (Trip.seats_available trip)) Py.str_limit)
        as [A|A]; [rewrite (str_of_int_short _ A) | rewrite (str_of_int_long _ A)].
      * destruct (Z.lt_ge_cases (Z.abs n) Py.str_limit) as [B|B];
          [rewrite (str_of_int_short _ B) | rewrite (str_of_int_long _ B)];
          [discriminate|].
        simpl. intros [= <-]. exists trip. repeat split; auto.
        right. repeat split; auto. right. lia.
      * simpl. intros [= <-]. exists trip. repeat split; auto.
    + destruct (Py.mul n (Trip.price_per_seat trip)) as [e'|fare] eqn:Hm;
        [|discriminate].
      simpl. intros [= <-]. exists trip. repeat split; auto.
      left. pose proof (mul_raises_overflow _ _ _ Hm). subst e'. auto.
Qed.

Lemma console_book_ticket_decides_witness :
  Console.book_ticket Console.__init__ "Asha" 30 7 2
  = mkRun (Return None) ["Invalid trip ID."] Console.__init__.
Proof.
  apply (proj1 (proj2 (proj2
           (console_book_ticket_decides Console.__init__ "Asha" 30 7 2)))).
  reflexivity.
Defined.

(** X2.  The web [book_ticket], on any instance and any raw arguments: it
    returns a booking exactly when [int] reads all three of trip id, seats
    and age, the trip exists, the seat count is at least 1 and at most the
    free seats, and the fare product exists; in every other case, an
    exception included, the instance is left as it was.  The fields are
    read in the order trip id, seats, age: an unknown trip id is answered
    with [None] whatever the two other fields hold, and a seat count out
    of range whatever the age field holds. *)
Theorem web_book_ticket_decides self name age trip_id seats :
  ((exists b, result (Web.book_ticket self name age trip_id seats)
              = Return (Some b))
   <-> exists key n a trip fare,
         Py.int trip_id = inr key /\ Py.int seats = inr n /\ Py.int age = inr a
         /\ Dict.get key (trips self) = Some trip
         /\ 0 < n <= Trip.seats_available trip
         /\ Py.mul n (Trip.price_per_seat trip) = inr fare)
  /\ ((forall b, result (Web.book_ticket self name age trip_id seats)
                 <> Return (Some b)) ->
      after (Web.book_ticket self name age trip_id seats) = self)
  /\ (forall key,
         Py.int trip_id = inr key -> Dict.get key (trips self) = None ->
         Web.book_ticket self name age trip_id seats
         = mkRun (Return None) [] self)
  /\ (forall key trip n,
         Py.int trip_id = inr key -> Dict.get key (trips self) = Some trip ->
         Py.int seats = inr n ->
         n <= 0 \/ Trip.seats_available trip < n ->
         Web.book_ticket self name age trip_id seats
         = mkRun (Return None) [] self).
Proof.
  split; [|split; [|split]].
  - split.
    + intros [b R].
      destruct (web_book_inv _ _ _ _ _ _ R)
        as (key & n & a & trip & fare & Hk & Hs & Hage & Hg & Hn & Ha & Hm & _).
      exists key, n, a, trip, fare. repeat split; auto.
    + intros (key & n & a & trip & fare & Hk & Hs & Hage & Hg & [Hn Ha] & Hm).
      unfold Web.book_ticket. rewrite Hk, Hg, Hs.
      destruct (n <=? 0) eqn:E1; [apply Z.leb_le in E1; lia|].
      destruct (Trip.seats_available trip <? n) eqn:E2; [apply Z.ltb_lt in E2; lia|].
      simpl. rewrite Hm, Hage. simpl. eauto.
  - apply web_book_refused.
  - intros key Hk Hg. unfold Web.book_ticket. now rewrite Hk, Hg.
  - intros key trip n Hk Hg Hs Hr. unfold Web.book_ticket. rewrite Hk, Hg, Hs.
    destruct Hr as [Hr|Hr].
    + apply Z.leb_le in Hr. now rewrite Hr.
    + apply Z.ltb_lt in Hr. now rewrite Hr, orb_true_r.
Qed.

Lemma web_book_ticket_decides_witness :
  Web.book_ticket Web.__init__ "Asha" (Py.VStr "thirty") (Py.VStr "7") (Py.VStr "two")
  = mkRun (Return None) [] Web.__init__
  /\ Web.book_ticket Web.__init__ "Asha" (Py.VStr "thirty") (Py.VStr "1") (Py.VStr "41")
     = mkRun (Return None) [] Web.__init__.
Proof.
  split.
  - apply (proj1 (proj2 (proj2
             (web_book_ticket_decides Web.__init__ "Asha" (Py.VStr "thirty")
                (Py.VStr "7") (Py.VStr "two")))) 7); reflexivity.
  - apply (proj2 (proj2 (proj2
             (web_book_ticket_decides Web.__init__ "Asha" (Py.VStr "thirty")
                (Py.VStr "1") (Py.VStr "41")))) 1
             (Trip.mk 1 "Bhopal" "Indore" "2025-12-10" "09:00" 40 40 (Py.Int 450))
             41); [reflexivity | reflexivity | reflexivity | right; simpl; lia].
Defined.

(** X3.  A booking that is made touches nothing else: every other trip
    and every other ledger entry is as before, the trips keep their order,
    the booked trip keeps every field but [seats_available], and, when the
    ids in the ledger are below the counter, the new booking is the last
    of [list_all_bookings].  Both programs. *)
Theorem book_ticket_frame :
  (forall self name age tid n b,
      result (Console.book_ticket self name age tid n) = Return (Some b) ->
      booking_frame self tid b (after (Console.book_ticket self name age tid n)))
  /\ (forall self name age trip_id seats key b,
         result (Web.book_ticket self name age trip_id seats) = Return (Some b) ->
         Py.int trip_id = inr key ->
         booking_frame self key b
           (after (Web.book_ticket self name age trip_id seats))).
Proof.
  assert (Frame : forall self key trip n b,
            Dict.get key (trips self) = Some trip ->
            Booking.booking_id b = next_booking_id self ->
            booking_frame self key b
              (mkSystem
                 (Dict.set key
                    (Trip.with_seats_available (Trip.seats_available trip - n) trip)
                    (trips self))
                 (Dict.set (next_booking_id self) b (bookings self))
                 (next_trip_id self) (next_booking_id self + 1))).
  { intros self key trip n b Hg Hid. unfold booking_frame. simpl.
    repeat split.
    - intros k N. now apply get_set_other.
    - apply keys_set_present. congruence.
    - unfold catalog at 1. simpl. now apply catalog_after_set.
    - intros k N. rewrite Hid in N. now apply get_set_other.
    - intros F. unfold Console.list_all_bookings. simpl. rewrite set_fresh.
      + now rewrite values_app.
      + intros H. apply F in H. lia. }
  split.
  - intros self name age tid n b R.
    destruct (console_book_inv _ _ _ _ _ _ R) as (trip & fare & Hg & Hn & Ha & Hm & ->).
    rewrite (console_book_ok _ name age _ _ _ _ Hg Hn Ha Hm). simpl.
    now apply Frame.
  - intros self name age trip_id seats key b R Hk.
    destruct (web_book_inv _ _ _ _ _ _ R)
      as (key' & n & a & trip & fare & Hk' & Hs & Hage & Hg & Hn & Ha & Hm & -> & ->).
    assert (key' = key) by congruence. subst key'.
    now apply Frame.
Qed.

Lemma book_ticket_frame_witness :
  booking_frame Console.__init__ 1
    (Booking.mk 1 "Asha" 30 1 5 (Py.Float 2250.0) CONFIRMED)
    (after (Console.book_ticket Console.__init__ "Asha" 30 1 5)).
Proof.
  apply (proj1 book_ticket_frame Console.__init__ "Asha" 30 1 5).
  vm_compute. reflexivity.
Defined.

(** ** When a cancellation is made, and what it does *)

Lemma cancelled_shape self id b :
  Dict.get id (bookings self) = Some b ->
  cancelled self id b
    (mkSystem
       (match Dict.get (Booking.trip_id b) (trips self) with
        | Some trip =>
            Dict.set (Booking.trip_id b)
              (Trip.with_seats_available
                 (Trip.seats_available trip + Booking.num_seats b) trip)
              (trips self)
        | None => trips self
        end)
       (Dict.set id (Booking.with_status CANCELLED b) (bookings self))
       (next_trip_id self) (next_booking_id self)).
Proof.
  intros Hg. unfold cancelled. simpl. repeat split.
  - apply get_set_same.
  - intros k N. now apply get_set_other.
  - apply keys_set_present. congruence.
  - intros k N. destruct (Dict.get (Booking.trip_id b) (trips self)); auto.
    now apply get_set_other.
  - destruct (Dict.get (Booking.trip_id b) (trips self)) eqn:Ht; simpl; auto.
    apply get_set_same.
  - now intros ->.
Qed.

Lemma console_cancel_case self id :
  cancel_case self id (Console.cancel_booking self id).
Proof.
  unfold Console.cancel_booking.
  destruct (Dict.get id (bookings self)) as [b|] eqn:Hg.
  - destruct (String.eqb (Booking.status b) CANCELLED) eqn:E.
    + apply String.eqb_eq in E. now apply (cancel_again _ _ _ b).
    + apply String.eqb_neq in E. apply (cancel_done _ _ _ b); auto.
      pose proof (cancelled_shape self id b Hg) as C. simpl.
      destruct (Dict.get (Booking.trip_id b) (trips self)); exact C.
  - now apply cancel_unknown.
Qed.

Lemma web_cancel_as_console self id_raw id :
  Py.int id_raw = inr id ->
  result (Web.cancel_booking self id_raw)
  = result (Console.cancel_booking self id)
  /\ after (Web.cancel_booking self id_raw)
     = after (Console.cancel_booking self id).
Proof.
  intros Hk. unfold Web.cancel_booking, Console.cancel_booking. rewrite Hk.
  destruct (Dict.get id (bookings self)) as [b|]; auto.
  destruct (String.eqb (Booking.status b) CANCELLED); auto.
Qed.

(** X4.  The console [cancel_booking], on any instance: it returns [True]
    exactly when the id is that of a booking whose status is not
    CANCELLED; otherwise it returns [False] and leaves the instance as it
    was, saying "Invalid booking ID." when the id is unknown; it never
    raises.  When it returns [True] the booking is CANCELLED with its other
    fields kept, the trip of the booking has [num_seats] more free seats,
    and every other trip and booking is untouched; when the booking's trip
    is not in the catalog the booking is cancelled all the same and the
    trips are left alone. *)
Theorem console_cancel_booking_decides self id :
  (result (Console.cancel_booking self id) = Return true
   <-> exists b, Dict.get id (bookings self) = Some b
                 /\ Booking.status b <> CANCELLED)
  /\ (result (Console.cancel_booking self id) <> Return true ->
      result (Console.cancel_booking self id) = Return false
      /\ after (Console.cancel_booking self id) = self)
  /\ (Dict.get id (bookings self) = None ->
      Console.cancel_booking self id
      = mkRun (Return false) ["Invalid booking ID."] self)
  /\ (forall b, Dict.get id (bookings self) = Some b ->
      Booking.status b <> CANCELLED ->
      cancelled self id b (after (Console.cancel_booking self id))).
Proof.
  split; [|split; [|split]].
  - destruct (console_cancel_case self id) as [Hg R A|b Hg Hs R A|b Hg Hs R C];
      rewrite R; split; try discriminate; eauto.
    + intros (b & Hb & _). congruence.
    + intros (b' & Hb & N). congruence.
  - destruct (console_cancel_case self id) as [Hg R A|b Hg Hs R A|b Hg Hs R C];
      rewrite R; auto. intros N. now destruct N.
  - intros Hg. unfold Console.cancel_booking. now rewrite Hg.
  - intros b Hb N.
    destruct (console_cancel_case self id) as [Hg R A|b' Hg Hs R A|b' Hg Hs R C];
      congruence.
Qed.

Lemma console_cancel_booking_decides_witness :
  Console.cancel_booking Console.__init__ 1
  = mkRun (Return false) ["Invalid booking ID."] Console.__init__.
Proof.
  apply (proj1 (proj2 (proj2 (console_cancel_booking_decides Console.__init__ 1)))).
  reflexivity.
Defined.

(** X5.  The web [cancel_booking], on any instance and any raw id: it
    raises exactly when [int] does not read the id, and then changes
    nothing; when [int] reads the id it returns what the console
    [cancel_booking] returns on that id and leaves the instance the
    console one leaves (without the printed line): [True] exactly for a
    booking whose status is not CANCELLED. *)
Theorem web_cancel_booking_decides self id_raw :
  (forall e, Py.int id_raw = inl e ->
      Web.cancel_booking self id_raw = mkRun (Raise e) [] self)
  /\ (forall id, Py.int id_raw = inr id ->
      result (Web.cancel_booking self id_raw)
      = result (Console.cancel_booking self id)
      /\ after (Web.cancel_booking self id_raw)
         = after (Console.cancel_booking self id)
      /\ stdout (Web.cancel_booking self id_raw) = []
      /\ (result (Web.cancel_booking self id_raw) = Return true
          <-> exists b, Dict.get id (bookings self) = Some b
                        /\ Booking.status b <> CANCELLED)
      /\ (forall b, Dict.get id (bookings self) = Some b ->
          Booking.status b <> CANCELLED ->
          cancelled self id b (after (Web.cancel_booking self id_raw))))
  /\ (result (Web.cancel_booking self id_raw) <> Return true ->
      after (Web.cancel_booking self id_raw) = self).
Proof.
  split; [|split].
  - intros e Hk. unfold Web.cancel_booking. now rewrite Hk.
  - intros id Hk. destruct (web_cancel_as_console self id_raw id Hk) as [R A].
    rewrite R, A. split; auto. split; auto. split.
    { unfold Web.cancel_booking. rewrite Hk.
      destruct (Dict.get id (bookings self)) as [b|]; auto.
      destruct (String.eqb (Booking.status b) CANCELLED); auto. }
    destruct (console_cancel_case self id) as [Hg R' A'|b Hg Hs R' A'|b Hg Hs R' C];
      rewrite R'.
    + split; [split; [discriminate | intros (b & Hb & _); congruence]
             | intros b Hb; congruence].
    + split; [split; [discriminate | intros (b' & Hb & N); congruence]
             | intros b' Hb N; congruence].
    + split; [split; [eauto | reflexivity] | intros b' Hb N; congruence].
  - destruct (Py.int id_raw) as [e|id] eqn:Hk.
    + intros _. unfold Web.cancel_booking. now rewrite Hk.
    + destruct (web_cancel_as_console self id_raw id Hk) as [R A].
      rewrite R, A.
      destruct (console_cancel_case self id) as [Hg R' A'|b Hg Hs R' A'|b Hg Hs R' C];
        rewrite R'; auto. intros N. now destruct N.
Qed.

Lemma web_cancel_booking_decides_witness :
  Web.cancel_booking Web.__init__ (Py.VStr "abc")
  = mkRun (Raise Py.ValueError) [] Web.__init__.
Proof.
  apply (proj1 (web_cancel_booking_decides Web.__init__ (Py.VStr "abc"))).
  reflexivity.
Defined.

(** ** What holds after any run *)

Lemma next_trip_id_step s s' : ledger_step s s' -> next_trip_id s' = next_trip_id s.
Proof. now intros [| |]. Qed.

Lemma keys_catalog self : Dict.keys (catalog self) = Dict.keys (trips self).
Proof.
  unfold catalog, Dict.keys, Dict.map_values. rewrite map_map. reflexivity.
Qed.

Lemma same_but_seats (t t' : Trip.t) :
  Trip.with_seats_available 0 t' = Trip.with_seats_available 0 t ->
  Trip.with_seats_available (Trip.seats_available t') t = t'.
Proof.
  destruct t, t'. unfold Trip.with_seats_available. simpl.
  intros [= -> -> -> -> -> -> ->]. reflexivity.
Qed.

(** X6.  No run of either program creates, deletes, reorders or changes
    a trip of the catalog, apart from its free seats: after any calls, menu
    entries or POST requests, from any instance, the trips are stored under
    the same ids in the same order, [next_trip_id] is what it was, and
    every trip is the trip it was with, at most, another
    [seats_available]. *)
Theorem catalog_never_changes start s :
  runs_to start s ->
  catalog s = catalog start
  /\ Dict.keys (trips s) = Dict.keys (trips start)
  /\ next_trip_id s = next_trip_id start
  /\ forall k t, Dict.get k (trips start) = Some t ->
       exists t', Dict.get k (trips s) = Some t'
                  /\ Trip.with_seats_available (Trip.seats_available t') t = t'.
Proof.
  intros R. apply runs_to_steps in R.
  assert (K : catalog s = catalog start /\ next_trip_id s = next_trip_id start).
  { apply (steps_keep
             (fun x => catalog x = catalog start
                       /\ next_trip_id x = next_trip_id start)
             ltac:(intros x x' [C N] S; split;
                   [rewrite <- C; now apply catalog_step
                   |rewrite <- N; now apply next_trip_id_step])
             _ _ R).
    auto. }
  destruct K as [C N]. split; auto. split; [|split; auto].
  - rewrite <- !keys_catalog. now rewrite C.
  - intros k t Hg.
    assert (G : Dict.get k (catalog s) = Some (Trip.with_seats_available 0 t)).
    { rewrite C. unfold catalog. now rewrite get_map_values, Hg. }
    unfold catalog in G. rewrite get_map_values in G.
    destruct (Dict.get k (trips s)) as [t'|]; [|discriminate].
    exists t'. split; auto. apply same_but_seats.
    cbn [option_map] in G. congruence.
Qed.

Lemma catalog_never_changes_witness :
  let s := snd (Console.run_calls Console.__init__
                  [BookTicket "Asha" 30 1 5; CancelBooking 1]) in
  catalog s = catalog Console.__init__
  /\ Dict.keys (trips s) = Dict.keys (trips Console.__init__)
  /\ next_trip_id s = next_trip_id Console.__init__
  /\ forall k t, Dict.get k (trips Console.__init__) = Some t ->
       exists t', Dict.get k (trips s) = Some t'
                  /\ Trip.with_seats_available (Trip.seats_available t') t = t'.
Proof.
  apply (catalog_never_changes Console.__init__). apply by_console_calls.
Defined.

Lemma ledger_inv_runs start s : ledger_inv start -> runs_to start s -> ledger_inv s.
Proof.
  intros I R. apply runs_to_steps in R.
  exact (steps_keep ledger_inv ledger_inv_step _ _ R I).
Qed.

(** X7.  Seat conservation in every run of either program, from any
    instance that satisfies the ledger invariant (the seeded ones do):
    after any calls with int arguments, any console menu entries and any
    POST requests, those whose fields are not numbers included, every trip
    has [seats_available] plus the seats of its CONFIRMED bookings equal to
    [total_seats], and the ledger invariant holds again. *)
Theorem conservation_in_every_run start s :
  ledger_inv start -> runs_to start s ->
  seat_conservation s /\ ledger_inv s.
Proof.
  intros I R. pose proof (ledger_inv_runs _ _ I R) as I'.
  split; [apply I' | exact I'].
Qed.

Lemma ledger_inv_web_init : ledger_inv Web.__init__.
Proof.
  constructor; try (intros k b H; simpl in H; contradiction).
  - vm_compute. repeat constructor; simpl; intuition discriminate.
  - intros k t H. simpl in H.
    repeat (destruct H as [[= <- <-]|H]; [reflexivity|]). contradiction.
  - constructor.
  - intros t H. simpl in H.
    repeat (destruct H as [<-|H]; [reflexivity|]). contradiction.
Qed.

Lemma conservation_in_every_run_witness :
  let s := post_run Web.__init__
             [EnterBooking "Asha" "30" "1" "5"; EnterBooking "Ravi" "x" "1" "2";
              EnterCancel "1"; EnterCancel "one"] in
  seat_conservation s /\ ledger_inv s.
Proof.
  apply (conservation_in_every_run Web.__init__).
  - exact ledger_inv_web_init.
  - apply by_posts.
Defined.

(** X8.  No trip is ever oversold or over-refunded: from an instance that
    satisfies the ledger invariant and has no negative seat count, after
    any run of either program every trip has
    [0 <= seats_available <= total_seats]. *)
Theorem seats_within_bounds start s :
  ledger_inv start -> seats_nonneg start -> runs_to start s ->
  forall t, In t (Dict.values (trips s)) ->
    0 <= Trip.seats_available t <= Trip.total_seats t.
Proof.
  intros I N R. apply runs_to_steps in R.
  assert (K : ledger_inv s /\ seats_nonneg s).
  { apply (steps_keep (fun x => ledger_inv x /\ seats_nonneg x)
             ltac:(intros x x' [Ix Nx] S; split;
                   [eapply ledger_inv_step; eauto
                   |eapply seats_nonneg_step; eauto])
             _ _ R).
    auto. }
  destruct K as [I' N']. intros t H. split; [now apply N'|].
  apply In_values in H. destruct H as [k H].
  apply (seats_le_total s k t I').
  apply In_get; [apply I' | exact H].
Qed.

Lemma seats_within_bounds_witness :
  let t := Trip.mk 1 "Bhopal" "Indore" "2025-12-10" "09:00" 40 0 (Py.Float 450.0) in
  0 <= Trip.seats_available t <= Trip.total_seats t.
Proof.
  intros t.
  apply (seats_within_bounds Console.__init__
           (menu_run Console.__init__ [EnterBooking "Asha" "30" "1" "40"])).
  - exact ledger_inv_init.
  - exact seats_nonneg_init.
  - apply by_menu.
  - vm_compute. left. reflexivity.
Defined.

(** X9.  A fare never drifts from its trip: from an instance that
    satisfies the ledger invariant and in which every booking's
    [total_fare] is [num_seats * price_per_seat] of its trip, the same
    holds of every booking, cancelled ones included, after any run of
    either program. *)
Theorem fares_stay_fixed start s :
  ledger_inv start -> fares_fixed start -> runs_to start s -> fares_fixed s.
Proof.
  intros I F R. apply runs_to_steps in R.
  apply (steps_keep (fun x => ledger_inv x /\ fares_fixed x)
           ltac:(intros x x' [Ix Fx] S; split;
                 [eapply ledger_inv_step; eauto
                 |eapply fares_fixed_step; eauto])
           _ _ R).
  auto.
Qed.

Lemma fares_stay_fixed_witness :
  fares_fixed (snd (Console.run_calls Console.__init__
                      [BookTicket "Asha" 30 1 5; CancelBooking 1;
                       BookTicket "Ravi" 41 3 2])).
Proof.
  apply (fares_stay_fixed Console.__init__).
  - exact ledger_inv_init.
  - intros k b H. simpl in H. contradiction.
  - apply by_console_calls.
Defined.

Lemma in_counter_range n m :
  1 <= n < m -> In n (map Z.of_nat (seq 1 (Z.to_nat (m - 1)))).
Proof.
  intros H. apply in_map_iff. exists (Z.to_nat n). split; [lia|].
  apply in_seq. lia.
Qed.

Lemma ids_are_keys (d : Dict.t Booking.t) :
  (forall k b, In (k, b) d -> Booking.booking_id b = k) ->
  map Booking.booking_id (Dict.values d) = Dict.keys d.
Proof.
  intros H. unfold Dict.values, Dict.keys. rewrite map_map.
  apply map_ext_in. intros [k b] Hin. simpl. now apply H.
Qed.

(** X10.  Booking ids are handed out in sequence and never reused: from
    an instance whose bookings are stored under the ids 1, 2, ... below
    [next_booking_id] (the seeded ones have none), after any run of either
    program [list_all_bookings] lists the bookings with ids 1, 2, ...,
    [next_booking_id - 1] in that order, and [get_booking] finds a booking
    exactly for the ids in that range. *)
Theorem booking_ids_sequential start s :
  sequential_ids start -> runs_to start s ->
  sequential_ids s
  /\ map Booking.booking_id (Console.list_all_bookings s)
     = map Z.of_nat (seq 1 (Z.to_nat (next_booking_id s - 1)))
  /\ forall id,
       (exists b, Console.get_booking s id = Some b)
       <-> 1 <= id < next_booking_id s.
Proof.
  intros Q R. apply runs_to_steps in R.
  pose proof (steps_keep sequential_ids sequential_ids_step _ _ R Q) as Q'.
  split; auto. destruct Q' as (H1 & Hk & Hb). split.
  - unfold Console.list_all_bookings. now rewrite ids_are_keys.
  - intros id. unfold Console.get_booking. split.
    + intros [b Hg]. apply below_counter. rewrite <- Hk.
      eapply In_keys, get_In; eauto.
    + intros Hr. apply in_counter_range in Hr. rewrite <- Hk in Hr.
      destruct (Dict.get id (bookings s)) as [b|] eqn:Hg; eauto.
      apply get_None_keys in Hg. contradiction.
Qed.

Lemma sequential_ids_init : sequential_ids Console.__init__.
Proof.
  split; [simpl; lia|]. split; [reflexivity|]. intros k b [].
Qed.

Lemma booking_ids_sequential_witness :
  let s := snd (Console.run_calls Console.__init__
                  [BookTicket "Asha" 30 1 5; CancelBooking 1;
                   BookTicket "Ravi" 41 3 2]) in
  sequential_ids s
  /\ map Booking.booking_id (Console.list_all_bookings s)
     = map Z.of_nat (seq 1 (Z.to_nat (next_booking_id s - 1)))
  /\ forall id,
       (exists b, Console.get_booking s id = Some b)
       <-> 1 <= id < next_booking_id s.
Proof.
  apply (booking_ids_sequential Console.__init__).
  - exact sequential_ids_init.
  - apply by_console_calls.
Defined.

(** X11.  A booking is never deleted, never re-confirmed and never
    re-priced: from an instance whose booking ids are below
    [next_booking_id], a booking found by [get_booking] is still found
    under its id after any run of either program, and it is the same
    booking, or, if it was not CANCELLED, the same booking with status
    CANCELLED. *)
Theorem bookings_are_kept start s id b :
  fresh_bookings start -> runs_to start s ->
  Console.get_booking start id = Some b ->
  exists b',
    Console.get_booking s id = Some b'
    /\ (b' = b
        \/ (Booking.status b <> CANCELLED
            /\ b' = Booking.with_status CANCELLED b)).
Proof.
  intros F R Hg. apply runs_to_steps in R.
  exact (booking_kept_steps _ _ R F id b Hg).
Qed.

Lemma bookings_are_kept_witness :
  let start := after (Console.book_ticket Console.__init__ "Asha" 30 1 5) in
  let b := Booking.mk 1 "Asha" 30 1 5 (Py.Float 2250.0) CONFIRMED in
  exists b',
    Console.get_booking
      (menu_run start [EnterCancel "1"; EnterBooking "Ravi" "41" "1" "2";
                       EnterCancel "1"]) 1
    = Some b'
    /\ (b' = b
        \/ (Booking.status b <> CANCELLED
            /\ b' = Booking.with_status CANCELLED b)).
Proof.
  intros start b.
  apply (bookings_are_kept start _ 1 b).
  - intros k H. simpl in H. destruct H as [<-|[]]. reflexivity.
  - apply by_menu.
  - reflexivity.
Defined.

(** ** Adding trips *)

Lemma confirmed_in_none l tid :
  (forall b, In b l -> Booking.trip_id b <> tid) -> confirmed_in l tid = 0.
Proof.
  induction l as [|b l IH]; intros H; [reflexivity|].
  rewrite confirmed_in_cons, confirmed_in_one, IH by (intros; apply H; now right).
  destruct (Booking.trip_id b =? tid) eqn:E; [|reflexivity].
  apply Z.eqb_eq in E. now destruct (H b (or_introl eq_refl)).
Qed.

Lemma add_trip_keeps self trip :
  ledger_inv self -> fresh_trips self ->
  Trip.trip_id trip = next_trip_id self ->
  Trip.seats_available trip = Trip.total_seats trip ->
  let self' :=
    mkSystem (Dict.set (next_trip_id self) trip (trips self)) (bookings self)
             (next_trip_id self + 1) (next_booking_id self) in
  ledger_inv self' /\ fresh_trips self'
  /\ Dict.values (trips self') = (Dict.values (trips self) ++ [trip])%list.
Proof.
  intros I F Hid Hfull self'.
  assert (New : ~ In (next_trip_id self) (Dict.keys (trips self))).
  { intros H. apply F in H. lia. }
  assert (E : trips self' = (trips self ++ [(next_trip_id self, trip)])%list)
    by (apply set_fresh; exact New).
  split; [|split].
  - constructor; try (exact (inv_booking_keys _ I)); try (apply I).
    + apply NoDup_set, I.
    + intros k t H. rewrite E in H. apply in_app_iff in H.
      destruct H as [H|[[= <- <-]|[]]]; auto. eapply inv_trip_ids; eauto.
    + intros k b H. rewrite E. unfold Dict.keys. rewrite map_app.
      apply in_app_iff. left. eapply (inv_booking_trip _ I); eauto.
    + intros t H. rewrite E, values_app in H. apply in_app_iff in H.
      change (confirmed_seats self' (Trip.trip_id t))
        with (confirmed_seats self (Trip.trip_id t)).
      destruct H as [H|[H|[]]]; [now apply (inv_conservation _ I)|].
      subst t. unfold confirmed_seats. cbn [snd].
      rewrite Hid, confirmed_in_none; [lia|].
      intros b Hb E'. apply In_values in Hb. destruct Hb as [k Hb].
      apply New. rewrite <- E'. eapply (inv_booking_trip _ I); eauto.
  - intros k H. rewrite E in H. unfold Dict.keys in H. rewrite map_app in H.
    apply in_app_iff in H.
    change (next_trip_id self') with (next_trip_id self + 1).
    destruct H as [H|[H|[]]]; [apply F in H; lia | simpl in H; lia].
  - now rewrite E, values_app.
Qed.

(** X12.  [_add_trip] on an instance that satisfies the ledger invariant
    and whose trip ids are below [next_trip_id]: the new trip takes the id
    [next_trip_id] with all its seats free, is found under that id and is
    the last of [list_all_trips]; every other trip and every booking is as
    before; the counter moves on by one; and the ledger invariant, seat
    conservation included, holds again.  The web [_add_trip] builds the
    same instance. *)
Theorem add_trip_extends self source destination date time total price :
  ledger_inv self -> fresh_trips self ->
  let r := Console._add_trip self source destination date time total price in
  fst r = Trip.mk (next_trip_id self) source destination date time total total price
  /\ Console.list_all_trips (snd r)
     = (Console.list_all_trips self ++ [fst r])%list
  /\ Dict.get (next_trip_id self) (trips (snd r)) = Some (fst r)
  /\ (forall k, k <> next_trip_id self ->
        Dict.get k (trips (snd r)) = Dict.get k (trips self))
  /\ bookings (snd r) = bookings self
  /\ next_trip_id (snd r) = next_trip_id self + 1
  /\ ledger_inv (snd r) /\ seat_conservation (snd r) /\ fresh_trips (snd r)
  /\ Web._add_trip self source destination date time total price = snd r.
Proof.
  intros I F r. subst r. unfold Console._add_trip, Web._add_trip. simpl.
  destruct (add_trip_keeps self
              (Trip.mk (next_trip_id self) source destination date time
                       total total price) I F eq_refl eq_refl)
    as (I' & F' & V).
  split; [reflexivity|]. split; [exact V|].
  split; [apply get_set_same|].
  split; [intros k N; now apply get_set_other|].
  split; [reflexivity|]. split; [reflexivity|].
  split; [exact I'|]. split; [apply I'|]. split; [exact F'|reflexivity].
Qed.

Lemma add_trip_extends_witness :
  let r := Console._add_trip Console.__init__ "Indore" "Pune" "2025-12-13"
             "06:15" 30 (Py.Float 900.0) in
  fst r = Trip.mk 6 "Indore" "Pune" "2025-12-13" "06:15" 30 30 (Py.Float 900.0)
  /\ Console.list_all_trips (snd r)
     = (Console.list_all_trips Console.__init__ ++ [fst r])%list
  /\ Dict.get 6 (trips (snd r)) = Some (fst r)
  /\ (forall k, k <> 6 ->
        Dict.get k (trips (snd r)) = Dict.get k (trips Console.__init__))
  /\ bookings (snd r) = bookings Console.__init__
  /\ next_trip_id (snd r) = 6 + 1
  /\ ledger_inv (snd r) /\ seat_conservation (snd r) /\ fresh_trips (snd r)
  /\ Web._add_trip Console.__init__ "Indore" "Pune" "2025-12-13" "06:15" 30
       (Py.Float 900.0) = snd r.
Proof.
  apply (add_trip_extends Console.__init__ "Indore" "Pune" "2025-12-13" "06:15"
           30 (Py.Float 900.0)).
  - exact ledger_inv_init.
  - intros k H. simpl in H.
    repeat (destruct H as [<-|H]; [reflexivity|]). contradiction.
Defined.

Lemma load_sample_data_chain (t1 t2 t3 t4 t5 : Z -> Trip.t) self :
  (forall n, Trip.trip_id (t1 n) = n
             /\ Trip.seats_available (t1 n) = Trip.total_seats (t1 n)) ->
  (forall n, Trip.trip_id (t2 n) = n
             /\ Trip.seats_available (t2 n) = Trip.total_seats (t2 n)) ->
  (forall n, Trip.trip_id (t3 n) = n
             /\ Trip.seats_available (t3 n) = Trip.total_seats (t3 n)) ->
  (forall n, Trip.trip_id (t4 n) = n
             /\ Trip.seats_available (t4 n) = Trip.total_seats (t4 n)) ->
  (forall n, Trip.trip_id (t5 n) = n
             /\ Trip.seats_available (t5 n) = Trip.total_seats (t5 n)) ->
  ledger_inv self -> fresh_trips self ->
  let add (t : Z -> Trip.t) (s : ReservationSystem) :=
    mkSystem (Dict.set (next_trip_id s) (t (next_trip_id s)) (trips s))
             (bookings s) (next_trip_id s + 1) (next_booking_id s) in
  let s5 := add t5 (add t4 (add t3 (add t2 (add t1 self)))) in
  let n := next_trip_id self in
  ledger_inv s5 /\ fresh_trips s5
  /\ Dict.values (trips s5)
     = (Dict.values (trips self)
        ++ [t1 n; t2 (n + 1); t3 (n + 1 + 1); t4 (n + 1 + 1 + 1);
            t5 (n + 1 + 1 + 1 + 1)])%list.
Proof.
  intros H1 H2 H3 H4 H5 I F add s5 n.
  assert (Step : forall t s,
            (forall m, Trip.trip_id (t m) = m
                       /\ Trip.seats_available (t m) = Trip.total_seats (t m)) ->
            ledger_inv s -> fresh_trips s ->
            ledger_inv (add t s) /\ fresh_trips (add t s)
            /\ Dict.values (trips (add t s))
               = (Dict.values (trips s) ++ [t (next_trip_id s)])%list).
  { intros t s Ht Is Fs. destruct (Ht (next_trip_id s)) as [Ha Hb].
    exact (add_trip_keeps s (t (next_trip_id s)) Is Fs Ha Hb). }
  destruct (Step t1 self H1 I F) as (I1 & F1 & V1).
  destruct (Step t2 _ H2 I1 F1) as (I2 & F2 & V2).
  destruct (Step t3 _ H3 I2 F2) as (I3 & F3 & V3).
  destruct (Step t4 _ H4 I3 F3) as (I4 & F4 & V4).
  destruct (Step t5 _ H5 I4 F4) as (I5 & F5 & V5).
  split; [exact I5|]. split; [exact F5|].
  unfold s5. rewrite V5, V4, V3, V2, V1. repeat rewrite <- app_assoc. reflexivity.
Qed.

(** X13.  [_load_sample_data] on an instance that satisfies the ledger
    invariant and whose trip ids are below [next_trip_id] (the empty
    instance of [__init__], or an instance seeded before): [list_all_trips]
    afterwards is the list before followed by the five sample trips, which
    take the ids [next_trip_id], ..., [next_trip_id + 4] with all seats
    free; the bookings are as before; and the ledger invariant, seat
    conservation included, holds again.  The console program writes the
    prices as floats, the web program as ints. *)
Theorem load_sample_data_appends self :
  ledger_inv self -> fresh_trips self ->
  let n := next_trip_id self in
  (let s' := Console._load_sample_data self in
   Console.list_all_trips s'
   = (Console.list_all_trips self ++ sample_trips float_price n)%list
   /\ bookings s' = bookings self /\ next_trip_id s' = n + 5
   /\ ledger_inv s' /\ seat_conservation s' /\ fresh_trips s')
  /\ (let s' := Web._load_sample_data self in
      Web.list_all_trips s'
      = (Web.list_all_trips self ++ sample_trips Py.Int n)%list
      /\ bookings s' = bookings self /\ next_trip_id s' = n + 5
      /\ ledger_inv s' /\ seat_conservation s' /\ fresh_trips s').
Proof.
  intros I F n.
  assert (Ids : n + 1 + 1 = n + 2 /\ n + 1 + 1 + 1 = n + 3
                /\ n + 1 + 1 + 1 + 1 = n + 4 /\ n + 1 + 1 + 1 + 1 + 1 = n + 5)
    by lia.
  destruct Ids as (E2 & E3 & E4 & E5).
  split.
  - destruct (load_sample_data_chain
                (fun m => Trip.mk m "Bhopal" "Indore" "2025-12-10" "09:00" 40 40 (Py.Float 450.0))
                (fun m => Trip.mk m "Bhopal" "Indore" "2025-12-10" "18:00" 40 40 (Py.Float 500.0))
                (fun m => Trip.mk m "Bhopal" "Delhi" "2025-12-11" "20:00" 50 50 (Py.Float 1200.0))
                (fun m => Trip.mk m "Indore" "Bhopal" "2025-12-11" "07:30" 40 40 (Py.Float 450.0))
                (fun m => Trip.mk m "Bhopal" "Mumbai" "2025-12-12" "21:00" 50 50 (Py.Float 1800.0))
                self) as (I5 & F5 & V5); auto.
    fold n in V5. rewrite E4, E3, E2 in V5.
    split; [exact V5|]. split; [reflexivity|].
    split; [simpl; fold n; lia|].
    split; [exact I5|]. split; [apply I5 | exact F5].
  - destruct (load_sample_data_chain
                (fun m => Trip.mk m "Bhopal" "Indore" "2025-12-10" "09:00" 40 40 (Py.Int 450))
                (fun m => Trip.mk m "Bhopal" "Indore" "2025-12-10" "18:00" 40 40 (Py.Int 500))
                (fun m => Trip.mk m "Bhopal" "Delhi" "2025-12-11" "20:00" 50 50 (Py.Int 1200))
                (fun m => Trip.mk m "Indore" "Bhopal" "2025-12-11" "07:30" 40 40 (Py.Int 450))
                (fun m => Trip.mk m "Bhopal" "Mumbai" "2025-12-12" "21:00" 50 50 (Py.Int 1800))
                self) as (I5 & F5 & V5); auto.
    fold n in V5. rewrite E4, E3, E2 in V5.
    split; [exact V5|]. split; [reflexivity|].
    split; [simpl; fold n; lia|].
    split; [exact I5|]. split; [apply I5 | exact F5].
Qed.

Lemma load_sample_data_appends_witness :
  (let s' := Console._load_sample_data Console.__init__ in
   Console.list_all_trips s'
   = (Console.list_all_trips Console.__init__ ++ sample_trips float_price 6)%list
   /\ bookings s' = bookings Console.__init__ /\ next_trip_id s' = 6 + 5
   /\ ledger_inv s' /\ seat_conservation s' /\ fresh_trips s')
  /\ (let s' := Web._load_sample_data Console.__init__ in
      Web.list_all_trips s'
      = (Web.list_all_trips Console.__init__ ++ sample_trips Py.Int 6)%list
      /\ bookings s' = bookings Console.__init__ /\ next_trip_id s' = 6 + 5
      /\ ledger_inv s' /\ seat_conservation s' /\ fresh_trips s').
Proof.
  apply (load_sample_data_appends Console.__init__).
  - exact ledger_inv_init.
  - intros k H. simpl in H.
    repeat (destruct H as [<-|H]; [reflexivity|]). contradiction.
Defined.

(** ** Numbers as text *)

Lemma char_classes c :
  (Py.is_int_space c = true -> Py.is_space c = true)
  /\ (Py.is_space c = true ->
      Py.digit_of c = None /\ Ascii.eqb c "_" = false
      /\ Ascii.eqb c "-" = false /\ Ascii.eqb c "+" = false).
Proof.
  assert (All :
    forallb
      (fun c =>
         implb (Py.is_int_space c) (Py.is_space c)
         && implb (Py.is_space c)
              (match Py.digit_of c with None => true | Some _ => false end
               && negb (Ascii.eqb c "_") && negb (Ascii.eqb c "-")
               && negb (Ascii.eqb c "+")))
      (map ascii_of_nat (seq 0 256)) = true) by (vm_compute; reflexivity).
  rewrite forallb_forall in All. specialize (All c (every_ascii c)).
  apply andb_true_iff in All. destruct All as [A B]. split.
  - intros H. now rewrite H in A.
  - intros H. rewrite H in B. simpl in B.
    destruct (Py.digit_of c); [discriminate|].
    destruct (Ascii.eqb c "_"); [discriminate|].
    destruct (Ascii.eqb c "-"); [discriminate|].
    destruct (Ascii.eqb c "+"); [discriminate|]. auto.
Qed.

Lemma digit_no_space c d : Py.digit_of c = Some d -> Py.is_space c = false.
Proof.
  intros H. destruct (Py.is_space c) eqn:E; auto.
  destruct (proj2 (char_classes c) E) as [N _]. congruence.
Qed.

Lemma no_space_no_blank c : Py.is_space c = false -> Py.is_int_space c = false.
Proof.
  intros H. destruct (Py.is_int_space c) eqn:E; auto.
  rewrite (proj1 (char_classes c) E) in H. discriminate.
Qed.

Lemma digit_range c d : Py.digit_of c = Some d -> 0 <= d <= 9.
Proof.
  unfold Py.digit_of.
  destruct ((48 <=? N_of_ascii c) && (N_of_ascii c <=? 57))%N eqn:E;
    [|discriminate].
  apply andb_true_iff in E. destruct E as [E1 E2].
  apply N.leb_le in E1, E2. intros [= <-]. lia.
Qed.

Lemma rstrip_nonspace c r :
  Py.is_space c = false -> Py.rstrip (String c r) = String c (Py.rstrip r).
Proof.
  intros H. simpl. rewrite H. now destruct (Py.rstrip r).
Qed.

Lemma only_blanks_rstrip s : Py.only_blanks s = true -> Py.rstrip s = EmptyString.
Proof.
  induction s as [|c q IH]; [reflexivity|]. simpl. intros H.
  apply andb_true_iff in H. destruct H as [Hc Hq].
  now rewrite (IH Hq), (proj1 (char_classes c) Hc).
Qed.

Lemma digits_cons acc ad c r :
  Py.digits acc ad (String c r)
  = match Py.digit_of c with
    | Some d => Py.digits (10 * acc + d) true r
    | None =>
        if ad then
          if Ascii.eqb c "_" then
            match r with
            | String c' _ =>
                match Py.digit_of c' with
                | Some _ => Py.digits acc false r
                | None => None
                end
            | EmptyString => None
            end
          else if Py.only_blanks (String c r) then Some acc else None
        else None
    end.
Proof. reflexivity. Qed.

(** What the digit scanner reads from a text it reads from the text
    without its trailing whitespace. *)
Lemma digits_rstrip r : forall acc ad z,
  Py.digits acc ad r = Some z -> Py.digits acc ad (Py.rstrip r) = Some z.
Proof.
  induction r as [|c q IH]; intros acc ad z H; [exact H|].
  rewrite digits_cons in H.
  destruct (Py.digit_of c) as [d|] eqn:Hd.
  - rewrite (rstrip_nonspace c q (digit_no_space _ _ Hd)), digits_cons, Hd.
    now apply IH.
  - destruct ad; [|discriminate].
    destruct (Ascii.eqb c "_") eqn:Hu.
    + destruct q as [|c' q']; [discriminate|].
      destruct (Py.digit_of c') as [d'|] eqn:Hd'; [|discriminate].
      assert (Hc : Py.is_space c = false).
      { destruct (Py.is_space c) eqn:E; auto.
        destruct (proj2 (char_classes c) E) as (_ & U & _). congruence. }
      pose proof (IH _ _ _ H) as H'.
      rewrite (rstrip_nonspace c' q' (digit_no_space _ _ Hd')) in H'.
      rewrite (rstrip_nonspace c _ Hc),
        (rstrip_nonspace c' q' (digit_no_space _ _ Hd')),
        digits_cons, Hd, Hu, Hd'.
      exact H'.
    + destruct (Py.only_blanks (String c q)) eqn:Ob; [|discriminate].
      rewrite (only_blanks_rstrip _ Ob). exact H.
Qed.

Lemma skip_blanks_lstrip s c r :
  Py.skip_blanks s = String c r -> Py.is_space c = false ->
  Py.lstrip s = String c r.
Proof.
  induction s as [|a q IH]; [discriminate|]. simpl.
  destruct (Py.is_int_space a) eqn:Ea.
  - rewrite (proj1 (char_classes a) Ea). exact IH.
  - intros [= -> ->] Hc. now rewrite Hc.
Qed.

Lemma count_digits_nonneg s : 0 <= Py.count_digits s.
Proof.
  induction s as [|c q IH]; cbn [Py.count_digits]; [lia|].
  destruct (Py.digit_of c); lia.
Qed.

Lemma count_digits_tail c r : Py.count_digits r <= Py.count_digits (String c r).
Proof. cbn [Py.count_digits]. destruct (Py.digit_of c); lia. Qed.

Lemma count_digits_lstrip s : Py.count_digits (Py.lstrip s) = Py.count_digits s.
Proof.
  induction s as [|c q IH]; [reflexivity|]. simpl.
  destruct (Py.is_space c) eqn:E; [|reflexivity].
  destruct (proj2 (char_classes c) E) as [-> _]. exact IH.
Qed.

Lemma count_digits_rstrip s : Py.count_digits (Py.rstrip s) = Py.count_digits s.
Proof.
  induction s as [|c q IH]; [reflexivity|].
  cbn [Py.rstrip]. destruct (Py.rstrip q) as [|x y] eqn:Eq.
  - simpl in IH. destruct (Py.is_space c) eqn:E.
    + destruct (proj2 (char_classes c) E) as [Hd _].
      simpl. now rewrite Hd, <- IH.
    + simpl. now rewrite <- IH.
  - cbn [Py.count_digits]. cbn [Py.count_digits] in IH. now rewrite IH.
Qed.

Lemma count_digits_skip s : Py.count_digits (Py.skip_blanks s) <= Py.count_digits s.
Proof.
  induction s as [|c q IH]; [simpl; lia|]. cbn [Py.skip_blanks].
  destruct (Py.is_int_space c); [|apply Z.le_refl].
  pose proof (count_digits_tail c q). lia.
Qed.

Lemma signed_digits_head s z :
  Py.signed_digits s = Some z ->
  exists c r, s = String c r /\ Py.is_space c = false.
Proof.
  destruct s as [|c r]; [discriminate|]. intros H. exists c, r. split; auto.
  destruct (Py.is_space c) eqn:E; auto.
  destruct (proj2 (char_classes c) E) as (Hd & _ & Hm & Hp).
  unfold Py.signed_digits in H. rewrite Hm, Hp, digits_cons, Hd in H.
  discriminate.
Qed.

(** A number [int] reads from a text, it reads from the text stripped:
    the [.strip()] before [int(...)] in the console menu loses no
    number.  (Not the other way round: [.strip()] also removes the
    separators 28..31, which [int] refuses.) *)
Lemma int_of_str_strip s n :
  Py.int_of_str s = inr n -> Py.int_of_str (Py.strip s) = inr n.
Proof.
  unfold Py.int_of_str.
  destruct (Py.signed_digits (Py.skip_blanks s)) as [z|] eqn:E; [|discriminate].
  destruct (Py.int_max_str_digits <? Py.count_digits s) eqn:C; [discriminate|].
  intros [= <-].
  destruct (signed_digits_head _ _ E) as (c & r & Et & Hc).
  unfold Py.strip.
  rewrite count_digits_rstrip, count_digits_lstrip, C.
  rewrite (skip_blanks_lstrip _ _ _ Et Hc), (rstrip_nonspace c r Hc).
  cbn [Py.skip_blanks]. rewrite (no_space_no_blank _ Hc).
  rewrite Et in E. unfold Py.signed_digits in *.
  destruct (Ascii.eqb c "-").
  - destruct (Py.digits 0 false r) as [v|] eqn:D; [|discriminate].
    rewrite (digits_rstrip _ _ _ _ D). simpl in *. congruence.
  - destruct (Ascii.eqb c "+").
    + now rewrite (digits_rstrip _ _ _ _ E).
    + apply digits_rstrip in E. rewrite (rstrip_nonspace c r Hc) in E.
      now rewrite E.
Qed.

(** The digit scanner reads a number of as many digits as the text has. *)
Lemma digits_bound s : forall acc ad v,
  0 <= acc -> Py.digits acc ad s = Some v ->
  0 <= v < (acc + 1) * 10 ^ Py.count_digits s.
Proof.
  induction s as [|c q IH]; intros acc ad v Hacc H.
  - simpl in H. destruct ad; [|discriminate]. injection H as <-.
    simpl. lia.
  - rewrite digits_cons in H. cbn [Py.count_digits].
    pose proof (count_digits_nonneg q) as Hq.
    assert (P : 0 < 10 ^ Py.count_digits q) by (apply Z.pow_pos_nonneg; lia).
    destruct (Py.digit_of c) as [d|] eqn:Hd.
    + pose proof (digit_range _ _ Hd) as Rd.
      assert (A : 0 <= 10 * acc + d) by lia.
      destruct (IH _ _ _ A H) as [V1 V2].
      rewrite Z.pow_add_r, Z.pow_1_r by lia. nia.
    + destruct ad; [|discriminate].
      destruct (Ascii.eqb c "_").
      * destruct q as [|c' q']; [discriminate|].
        destruct (Py.digit_of c'); [|discriminate].
        now apply (IH _ _ _ Hacc H).
      * destruct (Py.only_blanks (String c q)); [|discriminate].
        injection H as <-. nia.
Qed.

Lemma pow_le_limit k : k <= Py.int_max_str_digits -> 10 ^ k <= Py.str_limit.
Proof.
  intros H. unfold Py.str_limit. apply Z.pow_le_mono_r; [lia|exact H].
Qed.

(** An int read from text can be written back: it has at most 4300
    digits. *)
Lemma int_of_str_short s n : Py.int_of_str s = inr n -> Z.abs n < Py.str_limit.
Proof.
  unfold Py.int_of_str.
  destruct (Py.signed_digits (Py.skip_blanks s)) as [z|] eqn:E; [|discriminate].
  destruct (Z.ltb_spec Py.int_max_str_digits (Py.count_digits s)) as [C|C];
    [discriminate|].
  intros [= <-].
  pose proof (count_digits_skip s) as K.
  assert (B : Z.abs z < 10 ^ Py.count_digits (Py.skip_blanks s)).
  { destruct (Py.skip_blanks s) as [|c r]; [discriminate|].
    pose proof (count_digits_tail c r) as T.
    pose proof (count_digits_nonneg r) as R.
    assert (M : 10 ^ Py.count_digits r <= 10 ^ Py.count_digits (String c r))
      by (apply Z.pow_le_mono_r; lia).
    unfold Py.signed_digits in E.
    destruct (Ascii.eqb c "-").
    - destruct (Py.digits 0 false r) as [v|] eqn:D; [|discriminate].
      injection E as <-. pose proof (digits_bound _ _ _ _ (Z.le_refl 0) D). lia.
    - destruct (Ascii.eqb c "+").
      + pose proof (digits_bound _ _ _ _ (Z.le_refl 0) E). lia.
      + pose proof (digits_bound _ _ _ _ (Z.le_refl 0) E). lia. }
  pose proof (pow_le_limit (Py.count_digits (Py.skip_blanks s)) ltac:(lia)).
  lia.
Qed.

(** ** The console menu and the web handlers on text *)

(** X14.  Choices 3 and 5 of the console menu, on any instance and any
    typed lines.  Each line is stripped and then read by [int].  When the
    age is not read the menu says "Invalid age." whatever the other lines
    hold; when the age is read and the trip id or the seat count is not, it
    says "Trip ID and number of seats must be integers."; when the booking
    id is not read it says "Booking ID must be an integer."; in each case
    the instance is left as it was.  When all the numbers are read, the
    menu does what [book_ticket], with the name trimmed, or
    [cancel_booking] does on them.  Stripping loses no number: what [int]
    reads from a line as typed, the menu reads too. *)
Theorem menu_reads_numbers system name age trip_id num_seats booking_id :
  (forall e, Py.int_of_str (Py.strip age) = inl e ->
      Console.menu_book_ticket system name age trip_id num_seats
      = mkRun (Return None) ["Invalid age."] system)
  /\ (forall a, Py.int_of_str (Py.strip age) = inr a ->
      (exists e, Py.int_of_str (Py.strip trip_id) = inl e)
      \/ (exists e, Py.int_of_str (Py.strip num_seats) = inl e) ->
      Console.menu_book_ticket system name age trip_id num_seats
      = mkRun (Return None)
          ["Trip ID and number of seats must be integers."] system)
  /\ (forall a t n,
      Py.int_of_str (Py.strip age) = inr a ->
      Py.int_of_str (Py.strip trip_id) = inr t ->
      Py.int_of_str (Py.strip num_seats) = inr n ->
      Console.menu_book_ticket system name age trip_id num_seats
      = Console.book_ticket system (Py.strip name) a t n)
  /\ (forall a t n,
      Py.int_of_str age = inr a -> Py.int_of_str trip_id = inr t ->
      Py.int_of_str num_seats = inr n ->
      Console.menu_book_ticket system name age trip_id num_seats
      = Console.book_ticket system (Py.strip name) a t n)
  /\ (forall e, Py.int_of_str (Py.strip booking_id) = inl e ->
      Console.menu_cancel_booking system booking_id
      = mkRun (Return false) ["Booking ID must be an integer."] system)
  /\ (forall id,
      Py.int_of_str (Py.strip booking_id) = inr id
      \/ Py.int_of_str booking_id = inr id ->
      Console.menu_cancel_booking system booking_id
      = Console.cancel_booking system id).
Proof.
  unfold Console.menu_book_ticket, Console.menu_cancel_booking.
  split; [|split; [|split; [|split; [|split]]]].
  - intros e ->. reflexivity.
  - intros a -> [[e ->]|[e ->]]; [reflexivity|].
    now destruct (Py.int_of_str (Py.strip trip_id)).
  - intros a t n -> -> ->. reflexivity.
  - intros a t n Ha Ht Hn.
    now rewrite (int_of_str_strip _ _ Ha), (int_of_str_strip _ _ Ht),
      (int_of_str_strip _ _ Hn).
  - intros e ->. reflexivity.
  - intros id [H|H]; [|apply int_of_str_strip in H]; now rewrite H.
Qed.

Lemma menu_reads_numbers_witness :
  Console.menu_book_ticket Console.__init__ " Asha " " 30" "1 " "  5  "
  = Console.book_ticket Console.__init__ "Asha" 30 1 5
  /\ Console.menu_book_ticket Console.__init__ "Asha" "thirty" "x" "y"
     = mkRun (Return None) ["Invalid age."] Console.__init__
  /\ Console.menu_book_ticket Console.__init__ "Asha" "30" "1"
       ("2" ++ file_separator)
     = Console.book_ticket Console.__init__ "Asha" 30 1 2.
Proof.
  split; [|split].
  - apply (proj1 (proj2 (proj2 (proj2
             (menu_reads_numbers Console.__init__ " Asha " " 30" "1 " "  5  " ""))))
             30 1 5); reflexivity.
  - apply (proj1 (menu_reads_numbers Console.__init__ "Asha" "thirty" "x" "y" "")
             Py.ValueError). reflexivity.
  - apply (proj1 (proj2 (proj2
             (menu_reads_numbers Console.__init__ "Asha" "30" "1"
                ("2" ++ file_separator) "")))
             30 1 2); reflexivity.
Defined.

Lemma web_book_ext self name a1 a2 t1 t2 s1 s2 :
  Py.int a1 = Py.int a2 -> Py.int t1 = Py.int t2 -> Py.int s1 = Py.int s2 ->
  Web.book_ticket self name a1 t1 s1 = Web.book_ticket self name a2 t2 s2.
Proof. intros Ha Ht Hs. unfold Web.book_ticket. now rewrite Ha, Ht, Hs. Qed.

Lemma web_cancel_ext self i1 i2 :
  Py.int i1 = Py.int i2 -> Web.cancel_booking self i1 = Web.cancel_booking self i2.
Proof. intros Hi. unfold Web.cancel_booking. now rewrite Hi. Qed.

Lemma seeded_inv_menu_entry s e : seeded_inv s -> seeded_inv (menu_entry s e).
Proof.
  intros S. destruct e as [name age tid n|id]; simpl.
  - unfold Console.menu_book_ticket.
    destruct (Py.int_of_str (Py.strip age)); auto.
    destruct (Py.int_of_str (Py.strip tid)); auto.
    destruct (Py.int_of_str (Py.strip n)); auto.
    now apply seeded_inv_book.
  - unfold Console.menu_cancel_booking.
    destruct (Py.int_of_str (Py.strip id)); auto.
    now apply seeded_inv_cancel.
Qed.

(** One entry: the web handler given the stripped fields, on the
    int-priced instance, leaves what the console menu leaves on the
    float-priced one. *)
Lemma post_entry_as_int s e :
  seeded_inv s -> seats_nonneg s ->
  post_entry (system_as_int s) (stripped e) = system_as_int (menu_entry s e).
Proof.
  intros S N. destruct e as [name age tid n|id]; simpl.
  - unfold Web.book, Console.menu_book_ticket.
    generalize (Py.strip age) (Py.strip tid) (Py.strip n).
    clear age tid n. intros age tid n.
    assert (Refused :
      (forall b, result (Web.book_ticket (system_as_int s) (Py.strip name)
                           (Py.VStr age) (Py.VStr tid) (Py.VStr n))
                 <> Return (Some b)) ->
      after (Web.book_ticket (system_as_int s) (Py.strip name)
               (Py.VStr age) (Py.VStr tid) (Py.VStr n))
      = system_as_int s) by apply web_book_refused.
    destruct (Py.int_of_str age) as [e|a] eqn:Ea.
    { apply Refused. intros b R.
      destruct (web_book_inv _ _ _ _ _ _ R) as (? & ? & ? & ? & ? & _ & _ & H & _).
      simpl in H. congruence. }
    destruct (Py.int_of_str tid) as [e|t] eqn:Et.
    { apply Refused. intros b R.
      destruct (web_book_inv _ _ _ _ _ _ R) as (? & ? & ? & ? & ? & H & _).
      simpl in H. congruence. }
    destruct (Py.int_of_str n) as [e|m] eqn:En.
    { apply Refused. intros b R.
      destruct (web_book_inv _ _ _ _ _ _ R) as (? & ? & ? & ? & ? & _ & H & _).
      simpl in H. congruence. }
    rewrite (web_book_ext _ _ (Py.VStr age) (Py.VInt a) (Py.VStr tid) (Py.VInt t)
               (Py.VStr n) (Py.VInt m)) by (simpl; assumption).
    exact (proj1 (web_book_as_int s (Py.strip name) a t m S N)).
  - unfold Web.cancel, Console.menu_cancel_booking.
    generalize (Py.strip id). clear id. intros id.
    destruct (Py.int_of_str id) as [e|k] eqn:Ei.
    + unfold Web.cancel_booking. simpl. now rewrite Ei.
    + rewrite (web_cancel_ext _ (Py.VStr id) (Py.VInt k)) by (simpl; assumption).
      apply web_cancel_as_int.
Qed.

Lemma post_run_as_int es : forall s,
  seeded_inv s -> seats_nonneg s ->
  post_run (system_as_int s) (map stripped es) = system_as_int (menu_run s es)
  /\ seeded_inv (menu_run s es) /\ seats_nonneg (menu_run s es).
Proof.
  induction es as [|e es IH]; intros s S N; [simpl; auto|].
  simpl. rewrite post_entry_as_int by assumption.
  apply IH; [now apply seeded_inv_menu_entry|].
  exact (seats_nonneg_step _ _ (seeded_ledger _ S) N (menu_entry_step s e)).
Qed.

(** X15.  The seeded console program fed a sequence of typed entries, and
    the seeded web program posted the same entries with every field
    stripped as the console menu strips every typed line, end with equal
    ledgers, whatever the texts are: an entry whose numbers cannot be read
    changes neither ledger (the console menu prints a message, the web
    handler raises), and an entry that can be read is booked or cancelled
    alike.  Equal is field by field with numbers compared by value: the
    console program holds prices and fares as floats, the web program as
    ints of the same value. *)
Theorem menu_and_posts_agree (es : list entry) :
  system_eqb (menu_run Console.__init__ es)
             (post_run Web.__init__ (map stripped es)) = true.
Proof.
  rewrite web_init_as_int.
  destruct (post_run_as_int es _ seeded_inv_init seats_nonneg_init)
    as (-> & S & _).
  now apply system_eqb_as_int.
Qed.

(** Without the stripping the two programs part: a seat count typed as
    [2] followed by the separator U+001C is booked by the console menu and
    refused by the web handler. *)
Lemma menu_and_posts_part :
  let es := [EnterBooking "Asha" "30" "1" ("2" ++ file_separator)] in
  option_map Trip.seats_available (Dict.get 1 (trips (menu_run Console.__init__ es)))
  = Some 38
  /\ post_run Web.__init__ es = Web.__init__.
Proof. split; reflexivity. Qed.

(** X16.  No entry typed at the console menu of the seeded program makes
    [book_ticket] or [cancel_booking] raise, whatever was entered before
    and whatever the texts are. *)
Theorem menu_never_raises (es : list entry) name age trip_id num_seats
    booking_id e :
  result (Console.menu_book_ticket (menu_run Console.__init__ es)
            name age trip_id num_seats) <> Raise e
  /\ result (Console.menu_cancel_booking (menu_run Console.__init__ es)
               booking_id) <> Raise e.
Proof.
  destruct (post_run_as_int es _ seeded_inv_init seats_nonneg_init)
    as (_ & S & N).
  set (s := menu_run Console.__init__ es) in *. split.
  - unfold Console.menu_book_ticket.
    destruct (Py.int_of_str (Py.strip age)) as [|a]; [discriminate|].
    destruct (Py.int_of_str (Py.strip trip_id)) as [|t]; [discriminate|].
    destruct (Py.int_of_str (Py.strip num_seats)) as [|n] eqn:En; [discriminate|].
    pose proof (int_of_str_short _ _ En) as Short.
    destruct (web_book_as_int s (Py.strip name) a t n S N) as (_ & R & _).
    destruct (R ltac:(lia)) as (ob & -> & _). discriminate.
  - unfold Console.menu_cancel_booking.
    destruct (Py.int_of_str (Py.strip booking_id)) as [|k]; [discriminate|].
    destruct (console_cancel_case s k) as [_ -> _|b _ _ -> _|b _ _ -> _];
      discriminate.
Qed.

(** ** Searching, again *)

Lemma lower_of_eq_ignore_case s1 s2 :
  eq_ignore_case s1 s2 = true -> Py.lower s1 = Py.lower s2.
Proof. rewrite <- lower_eq_ignore_case. apply String.eqb_eq. Qed.

(** X17.  [search_trips] does not see the letter case of the query: two
    queries whose sources are equal up to case and whose destinations are
    equal up to case, with the same date, return the same trips. *)
Theorem search_ignores_query_case self s1 s2 d1 d2 date :
  eq_ignore_case s1 s2 = true -> eq_ignore_case d1 d2 = true ->
  Console.search_trips self s1 d1 date = Console.search_trips self s2 d2 date.
Proof.
  intros Hs Hd. unfold Console.search_trips, Console.search_match.
  now rewrite (lower_of_eq_ignore_case _ _ Hs), (lower_of_eq_ignore_case _ _ Hd).
Qed.

Lemma search_ignores_query_case_witness :
  Console.search_trips Console.__init__ "BHOPAL" "indore" "2025-12-10"
  = Console.search_trips Console.__init__ "bhopal" "INDORE" "2025-12-10".
Proof.
  apply (search_ignores_query_case Console.__init__
           "BHOPAL" "bhopal" "indore" "INDORE" "2025-12-10"); reflexivity.
Defined.
